(** * Salon backend: appointments, combos and staff attendance

    A shallow embedding of the Express/Mongoose controllers of the salon
    backend, and the properties of its specification settled against it.

    Conventions of the embedding.

    - A MongoDB collection is a finite map from document ids ([nat], standing
      for ObjectIds) to documents.  A new document receives an id that is not
      in the collection.
    - A unique index declared on a schema is enforced by the writes
      ([Mongo.insertOne], [Mongo.updateOne]): a write that would give two
      documents the same index key is refused (MongoDB's E11000), and the
      controller's [catch] turns the refusal into its error reply.
    - Instants ([Date]) are integers, the milliseconds since the epoch.
    - Prices, durations and discounts (JavaScript numbers) are exact
      rationals: no rounding, no NaN.
    - A request body is a record of the fields the controller reads; a field
      that express-validator or a regular expression checks is carried in
      parsed form together with the verdict of the check.  Ids in requests
      are well-formed ObjectIds.
    - A controller is a function from the collections it touches to its HTTP
      reply and the collections afterwards. *)

From Stdlib Require Import ZArith String Ascii List Lia Bool QArith Qcanon Sorted.
From Stdlib Require Import DecimalString Permutation.
From stdpp Require Import gmap strings list fin_maps.

Local Open Scope Z_scope.

(** ** HTTP replies and the error taxonomy of the specification *)

Module Http.

Inductive Reply (B M : Type) : Type :=
| Json (code : nat) (body : B)
| Fail (code : nat) (msg : M).

Arguments Json {B M} code body.
Arguments Fail {B M} code msg.

Inductive ErrorKind : Type :=
| VALIDATION | NOT_FOUND | CONFLICT | INVALID_STATE | ALREADY_DONE | SERVER.

(** Truthiness of an optional field. *)
Definition is_set {A} (o : option A) : bool :=
  match o with Some _ => true | None => false end.

Definition is_success {B M} (r : Reply B M) : bool :=
  match r with Json _ _ => true | Fail _ _ => false end.

End Http.

Import Http.

(** ** Collections with unique indexes *)

Module Mongo.

Section Collection.
Context {D K : Type} `{EqDecision K}.

(** [Model.findOne(query)]: a document matching the query.  Which one
    MongoDB returns when several match is not fixed by the source; the
    model takes the first in the order of the map. *)
Definition findOne (q : nat -> D -> bool) (c : gmap nat D) : option (nat * D) :=
  List.find (fun kv => q (fst kv) (snd kv)) (map_to_list c).

(** [Model.find(query)]. *)
Definition find (q : nat -> D -> bool) (c : gmap nat D) : list (nat * D) :=
  List.filter (fun kv => q (fst kv) (snd kv)) (map_to_list c).

(** [Model.countDocuments(query)]. *)
Definition countDocuments (q : nat -> D -> bool) (c : gmap nat D) : nat :=
  length (find q c).

(** Does a document other than [self] hold the index key [k]? *)
Definition key_taken (key : D -> K) (self : option nat) (k : K)
    (c : gmap nat D) : bool :=
  match findOne (fun j d' =>
                   negb (bool_decide (self = Some j)) && bool_decide (key d' = k)) c with
  | Some _ => true
  | None => false
  end.

(** [save()] of a new document under a unique index on [key]:
    [None] is the duplicate-key error. *)
Definition insertOne (key : D -> K) (d : D) (c : gmap nat D)
    : option (nat * gmap nat D) :=
  if key_taken key None (key d) c then None
  else let i := fresh (dom c) in Some (i, <[i := d]> c).

(** [save()] of a loaded document [i], now [d], under a unique index on
    [key]: the index is consulted only when the key of the document
    changes. *)
Definition updateOne (key : D -> K) (i : nat) (d : D) (c : gmap nat D)
    : option (gmap nat D) :=
  match c !! i with
  | None => Some c
  | Some old =>
      if bool_decide (key old = key d) then Some (<[i := d]> c)
      else if key_taken key (Some i) (key d) c then None
      else Some (<[i := d]> c)
  end.

(** [Model.deleteMany(query)]. *)
Definition deleteMany (q : nat -> D -> bool) (c : gmap nat D) : gmap nat D :=
  filter (fun kv => q (fst kv) (snd kv) = false) c.

(** What a unique index on [key] maintains: no two documents with the same
    key. *)
Definition unique_on (key : D -> K) (c : gmap nat D) : Prop :=
  forall i j d d',
    c !! i = Some d -> c !! j = Some d' -> key d = key d' -> i = j.

End Collection.

End Mongo.

(** ** The catalog: services and combos (models/Service.js, models/Combo.js) *)

Module Catalog.

Inductive Gender : Type := male | female | unisex.

Record Service : Type := mkService {
  s_name : string;
  s_duration : Qc;
  s_price : Qc;
  s_isActive : bool
}.

(** An element of [Combo.services]: the schema keeps [service] and
    [sequence] and nothing else. *)
Record ComboItem : Type := mkComboItem {
  ci_service : nat;
  ci_sequence : nat
}.

Record Combo : Type := mkCombo {
  c_name : string;
  c_description : option string;
  c_services : list ComboItem;
  c_gender : Gender;
  c_totalDuration : Qc;
  c_totalPrice : Qc;
  c_discount : Qc;
  c_isActive : bool
}.

End Catalog.

Import Catalog.

(** ** Appointments (models/Appointment.js, controllers/appointmentController.js,
       routes/appointments.js) *)

Module Appointments.

Inductive Status : Type :=
| pending | confirmed | completed | cancelled | rescheduled.

(** The [enum] of [timeSlot], in the order of the schema. *)
Inductive TimeSlot : Type :=
| slot_9AM | slot_10AM | slot_11AM | slot_12PM
| slot_1PM | slot_2PM | slot_3PM | slot_4PM | slot_5PM.

#[export] Instance Status_eq_dec : EqDecision Status.
Proof. solve_decision. Defined.

#[export] Instance TimeSlot_eq_dec : EqDecision TimeSlot.
Proof. solve_decision. Defined.

Definition timeSlots : list TimeSlot :=
  [slot_9AM; slot_10AM; slot_11AM; slot_12PM;
   slot_1PM; slot_2PM; slot_3PM; slot_4PM; slot_5PM].

(** The stored string of a slot. *)
Definition timeSlot_string (t : TimeSlot) : string :=
  match t with
  | slot_9AM => "9:00 AM" | slot_10AM => "10:00 AM" | slot_11AM => "11:00 AM"
  | slot_12PM => "12:00 PM" | slot_1PM => "1:00 PM" | slot_2PM => "2:00 PM"
  | slot_3PM => "3:00 PM" | slot_4PM => "4:00 PM" | slot_5PM => "5:00 PM"
  end.

(** [check('timeSlot').isIn([...])]: the slot a request string names. *)
Definition parse_timeSlot (s : string) : option TimeSlot :=
  List.find (fun t => String.eqb (timeSlot_string t) s) timeSlots.

(** Position of a slot in the business day (the enumeration order). *)
Definition slot_rank (t : TimeSlot) : nat :=
  match t with
  | slot_9AM => 0 | slot_10AM => 1 | slot_11AM => 2 | slot_12PM => 3
  | slot_1PM => 4 | slot_2PM => 5 | slot_3PM => 6 | slot_4PM => 7
  | slot_5PM => 8
  end%nat.

Record Appointment : Type := mkAppointment {
  customer : nat;
  services : list nat;
  combo : option nat;
  appointmentDate : Z;
  timeSlot : TimeSlot;
  status : Status;
  notes : option string;
  createdAt : Z
}.

(** The key of
    [appointmentSchema.index({ appointmentDate: 1, timeSlot: 1 }, { unique: true })]. *)
Definition slot_key (a : Appointment) : Z * TimeSlot :=
  (appointmentDate a, timeSlot a).

Record Db : Type := mkDb {
  appointments : gmap nat Appointment;
  serviceCatalog : gmap nat Service;
  comboCatalog : gmap nat Combo
}.

Definition with_appointments (db : Db) (ap : gmap nat Appointment) : Db :=
  {| appointments := ap;
     serviceCatalog := serviceCatalog db;
     comboCatalog := comboCatalog db |}.

(** The bodies of the replies the controller sends on failure. *)
Inductive Msg : Type :=
| ValidationErrors                (* 400 { errors: errors.array() } *)
| SelectServicesOrCombo           (* 400 'Please select services or a combo' *)
| SlotAlreadyBooked               (* 400 'This time slot is already booked' *)
| ComboNotAvailable               (* 400 'Selected combo is not available' *)
| ServicesNotAvailable            (* 400 'Some selected services are not available' *)
| AppointmentNotFound             (* 404 'Appointment not found' *)
| CannotCancel (s : Status)       (* 400 'Cannot cancel an appointment that is ...' *)
| CannotReschedule (s : Status)   (* 400 'Cannot reschedule an appointment that is ...' *)
| ServerError.                    (* 500 'Server Error' *)

(** The kind of the specification's taxonomy that a failure body falls under. *)
Definition kind (m : Msg) : ErrorKind :=
  match m with
  | ValidationErrors | SelectServicesOrCombo => VALIDATION
  | SlotAlreadyBooked => CONFLICT
  | ComboNotAvailable | ServicesNotAvailable | AppointmentNotFound => NOT_FOUND
  | CannotCancel _ | CannotReschedule _ => INVALID_STATE
  | ServerError => SERVER
  end.

Definition Result : Type := Reply (nat * Appointment) Msg.

(** [status: { $in: ['pending', 'confirmed'] }] *)
Definition blocks_slot (s : Status) : bool :=
  match s with pending | confirmed => true | _ => false end.

(** [['completed', 'cancelled'].includes(status)] *)
Definition is_closed (s : Status) : bool :=
  match s with completed | cancelled => true | _ => false end.

(** The body of [POST /api/appointments].  [b_appointmentDate] is the
    result of [isISO8601().toDate()]: [None] when the check fails. *)
Record CreateBody : Type := mkCreateBody {
  b_services : option (list nat);
  b_combo : option nat;
  b_appointmentDate : option Z;
  b_timeSlot : string;
  b_notes : option string
}.

Record RescheduleBody : Type := mkRescheduleBody {
  r_appointmentDate : option Z;
  r_timeSlot : string
}.

(** The query of the conflict check of [createAppointment]. *)
Definition occupies (d : Z) (t : TimeSlot) (_ : nat) (a : Appointment) : bool :=
  bool_decide (appointmentDate a = d) && bool_decide (timeSlot a = t)
  && blocks_slot (status a).

(** The same with [_id: { $ne: req.params.id }]. *)
Definition occupies_other (id : nat) (d : Z) (t : TimeSlot) (j : nat)
    (a : Appointment) : bool :=
  occupies d t j a && negb (Nat.eqb j id).

Definition no_services (s : option (list nat)) : bool :=
  match s with
  | None => true
  | Some l => Nat.eqb (length l) 0
  end.

(** The catalog validation of [createAppointment]: the failure it replies
    with, if any. *)
Definition check_catalog (db : Db) (b : CreateBody) : option Msg :=
  match b_combo b with
  | Some c =>
      match Mongo.findOne (fun i cb => Nat.eqb i c && c_isActive cb)
              (comboCatalog db) with
      | Some _ => None
      | None => Some ComboNotAvailable
      end
  | None =>
      let ss := default [] (b_services b) in
      let servicesExist :=
        Mongo.countDocuments
          (fun i s => existsb (Nat.eqb i) ss && s_isActive s)
          (serviceCatalog db) in
      if Nat.eqb servicesExist (length ss) then None
      else Some ServicesNotAvailable
  end.

(** [new Appointment({...})] of [createAppointment]. *)
Definition new_appointment (now : Z) (user : nat) (b : CreateBody)
    (d : Z) (t : TimeSlot) : Appointment :=
  {| customer := user;
     services := match b_combo b with
                 | Some _ => []
                 | None => default [] (b_services b)
                 end;
     combo := b_combo b;
     appointmentDate := d;
     timeSlot := t;
     status := pending;
     notes := b_notes b;
     createdAt := now |}.

Definition createAppointment (now : Z) (db : Db) (user : nat) (b : CreateBody)
    : Result * Db :=
  match b_appointmentDate b, parse_timeSlot (b_timeSlot b) with
  | Some d, Some t =>
      if no_services (b_services b) && negb (is_set (b_combo b)) then
        (Fail 400 SelectServicesOrCombo, db)
      else
        match Mongo.findOne (occupies d t) (appointments db) with
        | Some _ => (Fail 400 SlotAlreadyBooked, db)
        | None =>
            match check_catalog db b with
            | Some m => (Fail 400 m, db)
            | None =>
                let appointment := new_appointment now user b d t in
                match Mongo.insertOne slot_key appointment (appointments db) with
                | Some (i, ap) =>
                    (Json 201 (i, appointment), with_appointments db ap)
                | None => (Fail 500 ServerError, db)
                end
            end
        end
  | _, _ => (Fail 400 ValidationErrors, db)
  end.

Definition set_status (a : Appointment) (s : Status) : Appointment :=
  {| customer := customer a; services := services a; combo := combo a;
     appointmentDate := appointmentDate a; timeSlot := timeSlot a;
     status := s; notes := notes a; createdAt := createdAt a |}.

Definition move_to (a : Appointment) (d : Z) (t : TimeSlot) : Appointment :=
  {| customer := customer a; services := services a; combo := combo a;
     appointmentDate := d; timeSlot := t;
     status := rescheduled; notes := notes a; createdAt := createdAt a |}.

(** [save()] of a loaded appointment. *)
Definition save (db : Db) (i : nat) (a : Appointment) : Result * Db :=
  match Mongo.updateOne slot_key i a (appointments db) with
  | Some ap => (Json 200 (i, a), with_appointments db ap)
  | None => (Fail 500 ServerError, db)
  end.

(** [updateAppointmentStatus], for a status of the enum: any status may
    follow any other. *)
Definition updateAppointmentStatus (db : Db) (id : nat) (s : Status)
    : Result * Db :=
  match appointments db !! id with
  | None => (Fail 404 AppointmentNotFound, db)
  | Some a => save db id (set_status a s)
  end.

Definition cancelAppointment (db : Db) (id user : nat) : Result * Db :=
  match Mongo.findOne (fun i a => Nat.eqb i id && Nat.eqb (customer a) user)
          (appointments db) with
  | None => (Fail 404 AppointmentNotFound, db)
  | Some (i, a) =>
      if is_closed (status a) then (Fail 400 (CannotCancel (status a)), db)
      else save db i (set_status a cancelled)
  end.

Definition rescheduleAppointment (db : Db) (id : nat) (b : RescheduleBody)
    : Result * Db :=
  match r_appointmentDate b, parse_timeSlot (r_timeSlot b) with
  | Some d, Some t =>
      match appointments db !! id with
      | None => (Fail 404 AppointmentNotFound, db)
      | Some a =>
          if is_closed (status a) then
            (Fail 400 (CannotReschedule (status a)), db)
          else
            match Mongo.findOne (occupies_other id d t) (appointments db) with
            | Some _ => (Fail 400 SlotAlreadyBooked, db)
            | None => save db id (move_to a d t)
            end
      end
  | _, _ => (Fail 400 ValidationErrors, db)
  end.

(** *** Today's appointments *)

(** [status: { $in: ['pending', 'confirmed', 'rescheduled'] }] *)
Definition listed_today (s : Status) : bool :=
  match s with pending | confirmed | rescheduled => true | _ => false end.

(** [.sort({ timeSlot: 1 })]: [timeSlot] is a [String] field, and MongoDB
    orders strings by comparing them character by character. *)
Definition slot_leb (x y : nat * Appointment) : bool :=
  String.leb (timeSlot_string (timeSlot (snd x)))
             (timeSlot_string (timeSlot (snd y))).

Fixpoint insert_sorted {A} (le : A -> A -> bool) (x : A) (l : list A) : list A :=
  match l with
  | [] => [x]
  | y :: l' => if le x y then x :: l else y :: insert_sorted le x l'
  end.

Definition sort_by {A} (le : A -> A -> bool) (l : list A) : list A :=
  List.fold_right (insert_sorted le) [] l.

(** [totalDuration] of an appointment after [populate]: the combo's stored
    duration when the combo is found, else the durations of the services
    found. *)
Definition totalDuration (db : Db) (a : Appointment) : Qc :=
  match combo a ≫= (fun c => comboCatalog db !! c) with
  | Some cb => c_totalDuration cb
  | None =>
      List.fold_left
        (fun sum i =>
           match serviceCatalog db !! i with
           | Some s => (sum + s_duration s)%Qc
           | None => sum
           end)
        (services a) (Q2Qc 0)
  end.

(** [getTodaysAppointments]; [todayStart] and [todayEnd] are the server's
    local midnight and 23:59:59.999. *)
Definition getTodaysAppointments (todayStart todayEnd : Z) (db : Db)
    : list (nat * Appointment * Qc) :=
  List.map (fun kv => (kv, totalDuration db (snd kv)))
    (sort_by slot_leb
       (Mongo.find
          (fun _ a => Z.leb todayStart (appointmentDate a)
                      && Z.leb (appointmentDate a) todayEnd
                      && listed_today (status a))
          (appointments db))).

(** *** Sequences of bookings *)




(** At most one pending or confirmed appointment at each (date, time slot). *)
Definition one_booking_per_slot (ap : gmap nat Appointment) : Prop :=
  forall i j a b,
    ap !! i = Some a -> ap !! j = Some b ->
    blocks_slot (status a) = true -> blocks_slot (status b) = true ->
    appointmentDate a = appointmentDate b -> timeSlot a = timeSlot b ->
    i = j.

End Appointments.

(** ** Combos (controllers/comboController.js, routes/combos.js) *)

Module Combos.

Inductive Msg : Type :=
| ValidationErrors      (* 400 { errors: errors.array() } *)
| ComboNotFound         (* 404 'Combo not found' *)
| ServerError.          (* 500 'Server Error' *)

Definition kind (m : Msg) : ErrorKind :=
  match m with
  | ValidationErrors => VALIDATION
  | ComboNotFound => NOT_FOUND
  | ServerError => SERVER
  end.

(** An element of [req.body.services]. *)
Record ItemBody : Type := mkItemBody {
  ib_service : nat;
  ib_sequence : option nat
}.

(** The body of [PUT /api/combos/:id]; every field is optional. *)
Record UpdateBody : Type := mkUpdateBody {
  u_name : option string;
  u_description : option string;
  u_services : option (list ItemBody);
  u_discount : option Qc;
  u_gender : option string
}.

Definition parse_gender (s : string) : option Gender :=
  if String.eqb s "male" then Some male
  else if String.eqb s "female" then Some female
  else if String.eqb s "unisex" then Some unisex
  else None.

(** The validators of the route:
    [check('name').optional().not().isEmpty()],
    [check('discount').optional().isFloat({ min: 0, max: 100 })],
    [check('gender').optional().isIn(['male', 'female', 'unisex'])]. *)
Definition valid_update (b : UpdateBody) : bool :=
  match u_name b with
  | Some n => negb (String.eqb n "")
  | None => true
  end
  && match u_discount b with
     | Some d => bool_decide (Q2Qc 0 <= d)%Qc && bool_decide (d <= Q2Qc 100)%Qc
     | None => true
     end
  && match u_gender b with
     | Some g => is_set (parse_gender g)
     | None => true
     end.

(** An element of the array [validateAndGetServices] returns. *)
Record ServiceDetail : Type := mkServiceDetail {
  sd_service : nat;
  sd_sequence : nat;
  sd_name : string;
  sd_duration : Qc;
  sd_price : Qc
}.

(** [svc.sequence || i + 1] *)
Definition sequence_or (s : option nat) (i : nat) : nat :=
  match s with
  | Some n => if Nat.eqb n 0 then (i + 1)%nat else n
  | None => (i + 1)%nat
  end.

(** The loop of [validateAndGetServices] from index [i] on; [None] is the
    [throw] for a service that is missing or inactive. *)
Fixpoint validateAndGetServices_from (cat : gmap nat Service) (i : nat)
    (services : list ItemBody) : option (list ServiceDetail) :=
  match services with
  | [] => Some []
  | svc :: rest =>
      match cat !! ib_service svc with
      | Some service =>
          if s_isActive service then
            match validateAndGetServices_from cat (S i) rest with
            | Some details =>
                Some ({| sd_service := ib_service svc;
                         sd_sequence := sequence_or (ib_sequence svc) i;
                         sd_name := s_name service;
                         sd_duration := s_duration service;
                         sd_price := s_price service |} :: details)
            | None => None
            end
          else None
      | None => None
      end
  end.

Definition validateAndGetServices (cat : gmap nat Service)
    (services : list ItemBody) : option (list ServiceDetail) :=
  validateAndGetServices_from cat 0 services.

(** Assigning the details to [combo.services] casts them to the schema of
    the array: [service] and [sequence] are kept. *)
Definition cast_item (d : ServiceDetail) : ComboItem :=
  {| ci_service := sd_service d; ci_sequence := sd_sequence d |}.

(** An element of [combo.services] after
    [combo.populate('services.service', 'price')]: it has no [price] of its
    own, and [service] is the catalog document, or null. *)
Record PopulatedItem : Type := mkPopulatedItem {
  p_price : option Qc;
  p_service : option Service
}.

Definition populate (cat : gmap nat Service) (items : list ComboItem)
    : list PopulatedItem :=
  List.map (fun it => {| p_price := None; p_service := cat !! ci_service it |})
    items.

(** [a || b] on optional numbers: [a] unless it is undefined or zero. *)
Definition num_or (a b : option Qc) : option Qc :=
  match a with
  | Some x => if bool_decide (x = Q2Qc 0) then b else a
  | None => b
  end.

(** [Math.max(a, b)] *)
Definition Qc_max (a b : Qc) : Qc := if Qclt_le_dec a b then b else a.

Definition calculatePrice (services : list PopulatedItem) (discount : Qc) : Qc :=
  let basePrice :=
    List.fold_left
      (fun sum svc =>
         let price :=
           default (Q2Qc 0)
             (num_or (num_or (p_price svc) (s_price <$> p_service svc))
                     (Some (Q2Qc 0))) in
         (sum + price)%Qc)
      services (Q2Qc 0) in
  Qc_max (Q2Qc 0) (basePrice - basePrice * discount / Q2Qc 100)%Qc.

Definition updateCombo (cat : gmap nat Service) (combos : gmap nat Combo)
    (id : nat) (b : UpdateBody) : Reply Combo Msg * gmap nat Combo :=
  if negb (valid_update b) then (Fail 400 ValidationErrors, combos)
  else
    match combos !! id with
    | None => (Fail 404 ComboNotFound, combos)
    | Some combo =>
        let name := default (c_name combo) (u_name b) in
        let description :=
          match u_description b with
          | Some s => Some s
          | None => c_description combo
          end in
        let gender :=
          default (c_gender combo) (u_gender b ≫= parse_gender) in
        let discount := default (c_discount combo) (u_discount b) in
        let updated_services :=
          match u_services b with
          | Some services =>
              match validateAndGetServices cat services with
              | Some details =>
                  Some (List.map cast_item details,
                        List.fold_left (fun sum s => (sum + sd_duration s)%Qc)
                          details (Q2Qc 0))
              | None => None
              end
          | None => Some (c_services combo, c_totalDuration combo)
          end in
        match updated_services with
        | None => (Fail 500 ServerError, combos)
        | Some (services, totalDuration) =>
            let combo' :=
              {| c_name := name;
                 c_description := description;
                 c_services := services;
                 c_gender := gender;
                 c_totalDuration := totalDuration;
                 c_totalPrice := calculatePrice (populate cat services) discount;
                 c_discount := discount;
                 c_isActive := c_isActive combo |} in
            (Json 200 combo', <[id := combo']> combos)
        end
    end.

(** The price of a member service as the catalog has it now, 0 when the
    service is gone. *)
Definition member_price (cat : gmap nat Service) (it : ComboItem) : Qc :=
  match cat !! ci_service it with
  | Some s => s_price s
  | None => Q2Qc 0
  end.


Definition sum_prices (price : ComboItem -> Qc) (items : list ComboItem) : Qc :=
  List.fold_left (fun sum it => (sum + price it)%Qc) items (Q2Qc 0).

Definition discounted (base discount : Qc) : Qc :=
  Qc_max (Q2Qc 0) (base - base * discount / Q2Qc 100)%Qc.


End Combos.

(** ** Staff attendance (models/Attendance.js, controllers/staffController.js) *)

Module Ledger.

Inductive AttStatus : Type := Present | Absent | Late | HalfDay | Holiday.

(** A staff member; the attendance controllers read [isActive] only. *)
Record Staff : Type := mkStaff {
  st_name : string;
  st_isActive : bool
}.

Record Attendance : Type := mkAttendance {
  staffId : nat;
  date : Z;
  checkIn : option Z;
  checkOut : option Z;
  status : AttStatus;
  isHoliday : bool;
  notes : option string
}.

(** The key of
    [attendanceSchema.index({ staffId: 1, date: 1 }, { unique: true })]. *)
Definition day_key (r : Attendance) : nat * Z := (staffId r, date r).

Inductive Action : Type := CheckIn | CheckOut.

Inductive Msg : Type :=
| StaffIdAndActionRequired   (* 400 'Staff ID and action are required' *)
| InvalidAction              (* 400 'Action must be either checkIn or checkOut' *)
| StaffNotFoundOrInactive    (* 404 'Staff member not found or inactive' *)
| InvalidDateFormat          (* 400 'Invalid date format' *)
| InvalidTimeFormat          (* 400 'Invalid time format' *)
| InvalidTimeValues          (* 400 'Invalid time values' *)
| AlreadyCheckedIn           (* 400 'Already checked in today' *)
| CheckOutWithoutCheckIn     (* 400 'Cannot check out without checking in first' *)
| AlreadyCheckedOut          (* 400 'Already checked out today' *)
| ValidationFailed           (* 400 'Validation failed' *)
| FailedToRecord             (* 500 'Failed to record attendance' *)
| DateRequired               (* 400 'Date is required' *)
| PastHoliday                (* 400 'Cannot declare holiday for past dates' *)
| PastHolidayRemoval         (* 400 'Cannot delete holiday for past dates' *)
| NoHolidayFound             (* 404 'No holiday found for the specified date' *)
| ServerError.               (* 500 'Server error' *)

Definition kind (m : Msg) : ErrorKind :=
  match m with
  | StaffIdAndActionRequired | InvalidAction | InvalidDateFormat
  | InvalidTimeFormat | InvalidTimeValues | ValidationFailed | DateRequired
  | PastHoliday | PastHolidayRemoval => VALIDATION
  | StaffNotFoundOrInactive | NoHolidayFound => NOT_FOUND
  | AlreadyCheckedIn | AlreadyCheckedOut => ALREADY_DONE
  | CheckOutWithoutCheckIn => INVALID_STATE
  | FailedToRecord | ServerError => SERVER
  end.

(** The server at the time of a request: the clock ([new Date()]), the
    offset of its time zone in minutes ([getTimezoneOffset()], taken as
    constant), and the option of Mongoose that restricts the validation run
    by [save()] to the modified paths (the source leaves it at its default,
    false). *)
Record Env : Type := mkEnv {
  now : Z;
  tzOffset : Z;
  validateModifiedOnly : bool
}.

(** A [date] of a request body: absent, refused by [isValidDate], or the
    instant [Date.UTC(year, month - 1, day)] of a YYYY-MM-DD string. *)
Inductive DateField : Type :=
| DateAbsent | DateMalformed | DateOk (utc : Z).

Inductive Meridiem : Type := AM | PM.

(** A [time] of a request body: absent, refused by the regular expression,
    or the hours, the minutes and the AM/PM suffix it matched. *)
Inductive TimeField : Type :=
| TimeAbsent | TimeMalformed
| TimeClock (hours minutes : Z) (period : option Meridiem).

Record AttendanceBody : Type := mkAttendanceBody {
  a_staffId : option nat;
  a_action : option string;
  a_time : TimeField;
  a_date : DateField
}.

Definition parse_action (s : string) : option Action :=
  if String.eqb s "checkIn" then Some CheckIn
  else if String.eqb s "checkOut" then Some CheckOut
  else None.

Definition MS_PER_DAY : Z := 86400000.

(** [getCurrentUTCDate()]: the start of the current UTC day. *)
Definition getCurrentUTCDate (env : Env) : Z := now env / MS_PER_DAY * MS_PER_DAY.

(** [localDateTime.setHours(hours, minutes, 0, 0)] on a copy of [t]: the
    same local calendar day at the given local clock time. *)
Definition setHours (env : Env) (t hours minutes : Z) : Z :=
  let wall := t - tzOffset env * 60000 in
  wall / MS_PER_DAY * MS_PER_DAY + hours * 3600000 + minutes * 60000
  + tzOffset env * 60000.

Definition resolve_date (env : Env) (f : DateField) : Msg + Z :=
  match f with
  | DateAbsent => inr (getCurrentUTCDate env)
  | DateMalformed => inl InvalidDateFormat
  | DateOk utc => inr utc
  end.

Definition resolve_time (env : Env) (recordDate : Z) (f : TimeField) : Msg + Z :=
  match f with
  | TimeAbsent => inr (now env)
  | TimeMalformed => inl InvalidTimeFormat
  | TimeClock h minutes period =>
      let hours :=
        match period with
        | Some PM => if h <? 12 then h + 12 else h
        | Some AM => if h =? 12 then 0 else h
        | None => h
        end in
      if (hours <? 0) || (23 <? hours) || (minutes <? 0) || (59 <? minutes) then
        inl InvalidTimeValues
      else
        let localDateTime := setHours env recordDate hours minutes in
        inr (localDateTime - tzOffset env * 60000)
  end.

(** The validators of the schema. *)
Definition checkIn_valid (env : Env) (r : Attendance) : bool :=
  match checkIn r with
  | None => true
  | Some v => v <=? now env
  end.

Definition checkOut_valid (env : Env) (r : Attendance) : bool :=
  match checkOut r with
  | None => true
  | Some v =>
      (v <=? now env)
      && match checkIn r with
         | None => true
         | Some ci => ci <=? v
         end
  end.

(** The validation [save()] runs after the path [modified] was set. *)
Definition validate (env : Env) (modified : Action) (r : Attendance) : bool :=
  if validateModifiedOnly env then
    match modified with
    | CheckIn => checkIn_valid env r
    | CheckOut => checkOut_valid env r
    end
  else checkIn_valid env r && checkOut_valid env r.

(** [attendance[action] = recordTime] *)
Definition set_action (r : Attendance) (action : Action) (t : Z) : Attendance :=
  match action with
  | CheckIn =>
      {| staffId := staffId r; date := date r; checkIn := Some t;
         checkOut := checkOut r; status := status r;
         isHoliday := isHoliday r; notes := notes r |}
  | CheckOut =>
      {| staffId := staffId r; date := date r; checkIn := checkIn r;
         checkOut := Some t; status := status r;
         isHoliday := isHoliday r; notes := notes r |}
  end.

(** [new Attendance({ staffId, date: recordDate, status: 'Present' })] *)
Definition new_attendance (sid : nat) (recordDate : Z) : Attendance :=
  {| staffId := sid; date := recordDate; checkIn := None; checkOut := None;
     status := Present; isHoliday := false; notes := None |}.

(** The query [{ staffId, date }]. *)
Definition on_day (sid : nat) (d : Z) (_ : nat) (r : Attendance) : bool :=
  Nat.eqb (staffId r) sid && Z.eqb (date r) d.

Definition Recorded : Type := Reply (nat * Attendance) Msg.

(** [recordAttendance] from the lookup of the existing record on. *)
Definition record_action (env : Env) (att : gmap nat Attendance) (sid : nat)
    (action : Action) (recordDate recordTime : Z)
    : Recorded * gmap nat Attendance :=
  let existingRecord := Mongo.findOne (on_day sid recordDate) att in
  let refusal :=
    match existingRecord with
    | Some (_, r) =>
        match action with
        | CheckIn => if is_set (checkIn r) then Some AlreadyCheckedIn else None
        | CheckOut =>
            if negb (is_set (checkIn r)) then Some CheckOutWithoutCheckIn
            else if is_set (checkOut r) then Some AlreadyCheckedOut
            else None
        end
    | None => None
    end in
  match refusal with
  | Some m => (Fail 400 m, att)
  | None =>
      match existingRecord with
      | Some (i, r) =>
          let attendance := set_action r action recordTime in
          if validate env action attendance then
            match Mongo.updateOne day_key i attendance att with
            | Some att' => (Json 200 (i, attendance), att')
            | None => (Fail 500 FailedToRecord, att)
            end
          else (Fail 400 ValidationFailed, att)
      | None =>
          let attendance :=
            set_action (new_attendance sid recordDate) action recordTime in
          if validate env action attendance then
            match Mongo.insertOne day_key attendance att with
            | Some (i, att') => (Json 200 (i, attendance), att')
            | None => (Fail 500 FailedToRecord, att)
            end
          else (Fail 400 ValidationFailed, att)
      end
  end.

(** The checks of [recordAttendance] before the lookup: the failure they
    reply with, or the staff member, the action, the day and the instant
    the request stands for. *)
Definition resolve_request (env : Env) (staff : gmap nat Staff)
    (b : AttendanceBody) : (nat * Msg) + (nat * Action * Z * Z) :=
  match a_staffId b, a_action b with
  | Some sid, Some action =>
      if String.eqb action "" then inl (400%nat, StaffIdAndActionRequired)
      else
      match parse_action action with
      | None => inl (400%nat, InvalidAction)
      | Some act =>
          match staff !! sid with
          | Some s =>
              if st_isActive s then
                match resolve_date env (a_date b) with
                | inl m => inl (400%nat, m)
                | inr recordDate =>
                    match resolve_time env recordDate (a_time b) with
                    | inl m => inl (400%nat, m)
                    | inr recordTime => inr (sid, act, recordDate, recordTime)
                    end
                end
              else inl (404%nat, StaffNotFoundOrInactive)
          | None => inl (404%nat, StaffNotFoundOrInactive)
          end
      end
  | _, _ => inl (400%nat, StaffIdAndActionRequired)
  end.

Definition recordAttendance (env : Env) (staff : gmap nat Staff)
    (att : gmap nat Attendance) (b : AttendanceBody)
    : Recorded * gmap nat Attendance :=
  match resolve_request env staff b with
  | inl (code, m) => (Fail code m, att)
  | inr (sid, action, recordDate, recordTime) =>
      record_action env att sid action recordDate recordTime
  end.

(** *** Working hours *)

(** The value of the virtual [workingHours]: the number 0, or the string
    [toFixed(2)] returns. *)
Inductive WorkingHours : Type :=
| Zero
| Hours (fixed : string).

Definition digits (n : Z) : string :=
  DecimalString.NilZero.string_of_uint (N.to_uint (Z.to_N n)).

(** The hundredths of an hour nearest to [ms] milliseconds, a half going
    up.  ([toFixed] rounds the quotient JavaScript computed; the two agree
    unless [ms] is an odd multiple of 18000, half a hundredth of an hour,
    where the quotient in floating point may fall on either side; this for
    differences below 2^53 ms.) *)
Definition hundredths_of_hour (ms : Z) : Z := (ms + 18000) / 36000.

(** [(diff / (1000 * 60 * 60)).toFixed(2)] *)
Definition toFixed2_hours (diff : Z) : string :=
  let n := hundredths_of_hour (Z.abs diff) in
  let sign : string := if diff <? 0 then "-" else "" in
  String.concat ""
    [sign; digits (n / 100); "."; digits (n / 10 mod 10); digits (n mod 10)].

Definition workingHours (r : Attendance) : WorkingHours :=
  match checkIn r, checkOut r with
  | Some ci, Some co => Hours (toFixed2_hours (co - ci))
  | _, _ => Zero
  end.

(** *** Holidays *)

Record HolidayBody : Type := mkHolidayBody {
  h_date : DateField;
  h_notes : option string
}.

(** [data] of the reply of [declareHoliday]. *)
Record HolidayData : Type := mkHolidayData {
  hd_date : Z;
  hd_staffCount : nat
}.

(** [notes || "Public Holiday"] *)
Definition notes_or_default (n : option string) : string :=
  match n with
  | Some s => if String.eqb s "" then "Public Holiday" else s
  | None => "Public Holiday"
  end.

(** The [$set] of the bulk operation. *)
Definition set_holiday (n : string) (r : Attendance) : Attendance :=
  {| staffId := staffId r; date := date r; checkIn := None; checkOut := None;
     status := Holiday; isHoliday := true; notes := Some n |}.

(** One [updateOne] with [upsert: true]: the record of the staff member on
    that day is updated, or a record is inserted from the filter and the
    [$set] (no document holds its key, so the unique index admits it). *)
Definition upsert_holiday (d : Z) (n : string) (att : gmap nat Attendance)
    (sid : nat) : gmap nat Attendance :=
  match Mongo.findOne (on_day sid d) att with
  | Some (i, r) => <[i := set_holiday n r]> att
  | None => <[fresh (dom att) := set_holiday n (new_attendance sid d)]> att
  end.

(** [Staff.find({ isActive: true })] *)
Definition activeStaff (staff : gmap nat Staff) : list (nat * Staff) :=
  Mongo.find (fun _ s => st_isActive s) staff.

Definition declareHoliday (env : Env) (staff : gmap nat Staff)
    (att : gmap nat Attendance) (b : HolidayBody)
    : Reply HolidayData Msg * gmap nat Attendance :=
  match h_date b with
  | DateAbsent => (Fail 400 DateRequired, att)
  | DateMalformed => (Fail 400 InvalidDateFormat, att)
  | DateOk holidayDate =>
      if holidayDate <? getCurrentUTCDate env then (Fail 400 PastHoliday, att)
      else
        let bulkOps := List.map fst (activeStaff staff) in
        (Json 200 {| hd_date := holidayDate;
                     hd_staffCount := length (activeStaff staff) |},
         List.fold_left (upsert_holiday holidayDate (notes_or_default (h_notes b)))
           bulkOps att)
  end.

Definition deleteHoliday (env : Env) (att : gmap nat Attendance) (d : DateField)
    : Reply nat Msg * gmap nat Attendance :=
  match d with
  | DateAbsent => (Fail 400 DateRequired, att)
  | DateMalformed => (Fail 400 InvalidDateFormat, att)
  | DateOk holidayDate =>
      if holidayDate <? getCurrentUTCDate env then
        (Fail 400 PastHolidayRemoval, att)
      else
        let q := fun (_ : nat) r => Z.eqb (date r) holidayDate && isHoliday r in
        let deletedCount := Mongo.countDocuments q att in
        if Nat.eqb deletedCount 0 then (Fail 404 NoHolidayFound, att)
        else (Json 200 deletedCount, Mongo.deleteMany q att)
  end.

(** The attendance part of [deleteStaff]:
    [Attendance.deleteMany({ staffId: req.params.id })]. *)
Definition deleteStaffAttendance (sid : nat) (att : gmap nat Attendance)
    : gmap nat Attendance :=
  Mongo.deleteMany (fun _ r => Nat.eqb (staffId r) sid) att.

(** *** The attendance collection over time *)

(** The states of the attendance collection that requests can produce from
    the empty collection, whatever the clock and the staff at each request. *)
Inductive reachable : gmap nat Attendance -> Prop :=
| reach_empty : reachable ∅
| reach_record env staff att b :
    reachable att -> reachable (snd (recordAttendance env staff att b))
| reach_declare env staff att b :
    reachable att -> reachable (snd (declareHoliday env staff att b))
| reach_remove env att d :
    reachable att -> reachable (snd (deleteHoliday env att d))
| reach_delete_staff sid att :
    reachable att -> reachable (deleteStaffAttendance sid att).

(** At most one record for each staff member and day. *)
Definition one_record_per_day (att : gmap nat Attendance) : Prop :=
  forall i j r r',
    att !! i = Some r -> att !! j = Some r' ->
    staffId r = staffId r' -> date r = date r' -> i = j.

(** Every record that has both instants has its check-out at or after its
    check-in. *)
Definition checkout_after_checkin (att : gmap nat Attendance) : Prop :=
  forall i r ci co,
    att !! i = Some r -> checkIn r = Some ci -> checkOut r = Some co ->
    ci <= co.

Definition is_active (staff : gmap nat Staff) (sid : nat) : bool :=
  match staff !! sid with
  | Some s => st_isActive s
  | None => false
  end.



(** The record a holiday declaration leaves for a staff member. *)
Definition holiday_record (sid : nat) (d : Z) (n : string) : Attendance :=
  {| staffId := sid; date := d; checkIn := None; checkOut := None;
     status := Holiday; isHoliday := true; notes := Some n |}.

Definition with_notes (n : string) (r : Attendance) : Attendance :=
  {| staffId := staffId r; date := date r; checkIn := checkIn r;
     checkOut := checkOut r; status := status r; isHoliday := isHoliday r;
     notes := Some n |}.


(** Equal in every field but [notes]. *)
Definition same_but_notes (r r' : Attendance) : Prop :=
  staffId r = staffId r' /\ date r = date r' /\ checkIn r = checkIn r' /\
  checkOut r = checkOut r' /\ status r = status r' /\
  isHoliday r = isHoliday r'.

End Ledger.


(** ** A day of bookings, used to evaluate the controllers *)

Module Scenario.

Import Appointments.

(** 2024-06-01T00:00:00Z *)
Definition june1 : Z := 1717200000000.

Definition haircut : Service :=
  {| s_name := "Haircut"; s_duration := Q2Qc 30; s_price := Q2Qc 100;
     s_isActive := true |}.

(** No appointment yet; one active service, id 7. *)
Definition opening : Db :=
  {| appointments := ∅;
     serviceCatalog := {[ 7%nat := haircut ]};
     comboCatalog := ∅ |}.

Definition book (slot : string) : CreateBody :=
  {| b_services := Some [7%nat]; b_combo := None;
     b_appointmentDate := Some june1; b_timeSlot := slot; b_notes := None |}.

Definition move (slot : string) : RescheduleBody :=
  {| r_appointmentDate := Some june1; r_timeSlot := slot |}.

(** Customer 5 books 10:00 AM (appointment 0) and then cancels it. *)
Definition booked : Db := snd (createAppointment 0 opening 5 (book "10:00 AM")).
Definition released : Db := snd (cancelAppointment booked 0 5).

(** Or the appointment is marked completed, or moved to 3:00 PM. *)
Definition served : Db := snd (updateAppointmentStatus booked 0 completed).
Definition moved : Db := snd (rescheduleAppointment booked 0 (move "3:00 PM")).

(** Customer 6 then books 11:00 AM (appointment 1). *)
Definition two_bookings : Db :=
  snd (createAppointment 2 released 6 (book "11:00 AM")).

(** Customers 5 and 6 book 9:00 AM and 1:00 PM of the same day. *)
Definition morning_and_afternoon : Db :=
  snd (createAppointment 1 (snd (createAppointment 0 opening 5 (book "9:00 AM")))
         6 (book "1:00 PM")).

(** A combo of three services priced 100, 200 and 300 at 10% discount. *)
Definition three_services : gmap nat Service :=
  {[ 1%nat := {| s_name := "Cut"; s_duration := Q2Qc 30; s_price := Q2Qc 100;
                 s_isActive := true |};
     2%nat := {| s_name := "Colour"; s_duration := Q2Qc 60; s_price := Q2Qc 200;
                 s_isActive := true |};
     3%nat := {| s_name := "Spa"; s_duration := Q2Qc 90; s_price := Q2Qc 300;
                 s_isActive := true |} ]}.

Definition trio : Combo :=
  {| c_name := "Trio"; c_description := None;
     c_services := [mkComboItem 1 1; mkComboItem 2 2; mkComboItem 3 3];
     c_gender := unisex; c_totalDuration := Q2Qc 180;
     c_totalPrice := Q2Qc 540; c_discount := Q2Qc 10; c_isActive := true |}.


(** The same catalog after the service "Spa" has been deactivated. *)
Definition spa_closed : gmap nat Service :=
  <[ 3%nat := {| s_name := "Spa"; s_duration := Q2Qc 90; s_price := Q2Qc 300;
                 s_isActive := false |} ]> three_services.

(** A crew of two, Asha (id 1) and Ravi (id 2); the server runs on Indian
    time (UTC+5:30) and the requests arrive on 1 June at 19:00 UTC. *)
Definition crew : gmap nat Ledger.Staff :=
  {[ 1%nat := Ledger.mkStaff "Asha" true; 2%nat := Ledger.mkStaff "Ravi" true ]}.


Definition evening : Ledger.Env :=
  {| Ledger.now := june1 + 19 * 3600000; Ledger.tzOffset := -330;
     Ledger.validateModifiedOnly := false |}.

Definition clock (sid : nat) (action : string) (hours minutes : Z)
    : Ledger.AttendanceBody :=
  {| Ledger.a_staffId := Some sid; Ledger.a_action := Some action;
     Ledger.a_time := Ledger.TimeClock hours minutes None;
     Ledger.a_date := Ledger.DateOk june1 |}.

(** Asha checks in at 09:00. *)
Definition asha_in : gmap nat Ledger.Attendance :=
  snd (Ledger.recordAttendance evening crew ∅ (clock 1 "checkIn" 9 0)).


(** Asha checks in at 09:00 and out at 18:00. *)
Definition asha_out : gmap nat Ledger.Attendance :=
  snd (Ledger.recordAttendance evening crew asha_in (clock 1 "checkOut" 18 0)).

(** Asha checks out at 08:00, having no record for the day. *)
Definition asha_early_out : gmap nat Ledger.Attendance :=
  snd (Ledger.recordAttendance evening crew ∅ (clock 1 "checkOut" 8 0)).

(** The same server with [validateModifiedOnly] switched on. *)
Definition evening_modified_only : Ledger.Env :=
  {| Ledger.now := june1 + 19 * 3600000; Ledger.tzOffset := -330;
     Ledger.validateModifiedOnly := true |}.

Definition holiday_on (d : Z) (n : option string) : Ledger.HolidayBody :=
  {| Ledger.h_date := Ledger.DateOk d; Ledger.h_notes := n |}.

Definition holiday_on_june1 (n : option string) : Ledger.HolidayBody :=
  holiday_on june1 n.

(** 1 June is declared a holiday while Asha and Ravi are both active. *)
Definition crew_on_holiday : gmap nat Ledger.Attendance :=
  snd (Ledger.declareHoliday evening crew ∅ (holiday_on_june1 None)).

(** Asha checks in at 09:00, and 1 June is then declared a holiday. *)
Definition asha_on_holiday : gmap nat Ledger.Attendance :=
  snd (Ledger.declareHoliday evening crew asha_in (holiday_on_june1 None)).

End Scenario.

(** ** Appointments: listings and the four writes together
       (controllers/appointmentController.js) *)

Module Desk.

Import Appointments.

(** The stored string of a status. *)
Definition status_string (s : Status) : string :=
  match s with
  | pending => "pending" | confirmed => "confirmed" | completed => "completed"
  | cancelled => "cancelled" | rescheduled => "rescheduled"
  end.

(** [.sort({ appointmentDate: 1, timeSlot: 1 })]: by day, and within a day
    by the slot string. *)
Definition earliest_first (x y : nat * Appointment) : bool :=
  (appointmentDate (snd x) <? appointmentDate (snd y))
  || ((appointmentDate (snd x) =? appointmentDate (snd y)) && slot_leb x y).

(** [.sort({ appointmentDate: -1, timeSlot: 1 })] *)
Definition latest_first (x y : nat * Appointment) : bool :=
  (appointmentDate (snd y) <? appointmentDate (snd x))
  || ((appointmentDate (snd x) =? appointmentDate (snd y)) && slot_leb x y).

(** The query of [getAppointments]: [req.query.date] as the instant
    [new Date(date)] stands for, and [req.query.status] as sent; an absent
    or empty parameter puts no condition. *)
Definition matches (date : option Z) (st : option string) (_ : nat)
    (a : Appointment) : bool :=
  match date with
  | Some d => Z.eqb (appointmentDate a) d
  | None => true
  end
  && match st with
     | Some s => String.eqb s "" || String.eqb (status_string (status a)) s
     | None => true
     end.

(** [getAppointments], for a [date] that [new Date] parses.  The
    [populate] calls of the listings change what is shown of the customer,
    the services and the combo of an appointment, not which appointments
    are listed or their order; the appointments are returned as stored. *)
Definition getAppointments (db : Db) (date : option Z) (st : option string)
    : list (nat * Appointment) :=
  sort_by earliest_first (Mongo.find (matches date st) (appointments db)).

(** [getMyAppointments]: [Appointment.find({ customer: req.user.id })]. *)
Definition getMyAppointments (db : Db) (user : nat) : list (nat * Appointment) :=
  sort_by latest_first
    (Mongo.find (fun _ a => Nat.eqb (customer a) user) (appointments db)).

(** The requests that write the appointment collection. *)
Inductive Request : Type :=
| CreateReq (now : Z) (user : nat) (b : CreateBody)
| StatusReq (id : nat) (s : Status)
| CancelReq (id user : nat)
| RescheduleReq (id : nat) (b : RescheduleBody).

Definition handle (db : Db) (r : Request) : Result * Db :=
  match r with
  | CreateReq now user b => createAppointment now db user b
  | StatusReq id s => updateAppointmentStatus db id s
  | CancelReq id user => cancelAppointment db id user
  | RescheduleReq id b => rescheduleAppointment db id b
  end.

Definition serve (db : Db) (rs : list Request) : Db :=
  List.fold_left (fun db r => snd (handle db r)) rs db.

(** An appointment holds a combo and no service, or services and no combo. *)
Definition services_or_combo (a : Appointment) : Prop :=
  (is_Some (combo a) /\ services a = []) \/
  (combo a = None /\ services a <> []).

(** What a booking was made with: the fields no request rewrites. *)
Definition booking_of (a : Appointment)
    : nat * list nat * option nat * option string * Z :=
  (customer a, services a, combo a, notes a, createdAt a).

(** The shape of a write: the catalogs stay, and the appointment
    collection is as before, or has a new appointment inserted through the
    unique index, or has one appointment saved through it with the booking
    it had. *)
Definition written (db db' : Db) : Prop :=
  serviceCatalog db' = serviceCatalog db /\
  comboCatalog db' = comboCatalog db /\
  (appointments db' = appointments db \/
   (exists a i, services_or_combo a /\
      Mongo.insertOne slot_key a (appointments db) = Some (i, appointments db')) \/
   (exists i a a', appointments db !! i = Some a /\
      booking_of a' = booking_of a /\
      Mongo.updateOne slot_key i a' (appointments db) = Some (appointments db'))).

End Desk.

(** ** Combos: creation, activation and removal
       (controllers/comboController.js, routes/combos.js) *)

Module ComboAdmin.

Import Combos.

(** The body of [POST /api/combos]. *)
Record NewCombo : Type := mkNewCombo {
  n_name : option string;
  n_description : option string;
  n_services : option (list ItemBody);
  n_discount : option Qc;
  n_gender : option string
}.

(** The validators of the route:
    [check('name').not().isEmpty()],
    [check('services').isArray({ min: 1 })],
    [check('discount').optional().isFloat({ min: 0, max: 100 })],
    [check('gender').optional().isIn(['male', 'female', 'unisex'])]. *)
Definition valid_create (b : NewCombo) : bool :=
  match n_name b with
  | Some n => negb (String.eqb n "")
  | None => false
  end
  && match n_services b with
     | Some l => Nat.leb 1 (length l)
     | None => false
     end
  && match n_discount b with
     | Some d => bool_decide (Q2Qc 0 <= d)%Qc && bool_decide (d <= Q2Qc 100)%Qc
     | None => true
     end
  && match n_gender b with
     | Some g => is_set (parse_gender g)
     | None => true
     end.

(** [discount ? Math.max(0, totalPrice - (totalPrice * discount / 100))
              : totalPrice] *)
Definition finalPrice (totalPrice : Qc) (discount : option Qc) : Qc :=
  match num_or discount None with
  | Some d => Qc_max (Q2Qc 0) (totalPrice - totalPrice * d / Q2Qc 100)%Qc
  | None => totalPrice
  end.

Definition createCombo (cat : gmap nat Service) (combos : gmap nat Combo)
    (b : NewCombo) : Reply (nat * Combo) Msg * gmap nat Combo :=
  if negb (valid_create b) then (Fail 400 ValidationErrors, combos)
  else
    match validateAndGetServices cat (default [] (n_services b)) with
    | None => (Fail 500 ServerError, combos)
    | Some serviceDetails =>
        let totalDuration :=
          List.fold_left (fun sum s => (sum + sd_duration s)%Qc)
            serviceDetails (Q2Qc 0) in
        let totalPrice :=
          List.fold_left (fun sum s => (sum + sd_price s)%Qc)
            serviceDetails (Q2Qc 0) in
        let combo :=
          {| c_name := default "" (n_name b);
             c_description := n_description b;
             c_services := List.map cast_item serviceDetails;
             c_gender := default unisex (n_gender b ≫= parse_gender);
             c_totalDuration := totalDuration;
             c_totalPrice := finalPrice totalPrice (n_discount b);
             c_discount := default (Q2Qc 0) (num_or (n_discount b) (Some (Q2Qc 0)));
             c_isActive := true |} in
        let id := fresh (dom combos) in
        (Json 201 (id, combo), <[id := combo]> combos)
    end.

(** [getCombo] *)
Definition getCombo (combos : gmap nat Combo) (id : nat) : Reply Combo Msg :=
  match combos !! id with
  | Some combo => Json 200 combo
  | None => Fail 404 ComboNotFound
  end.

(** [getCombos]: [req.query.active] filters when it is the string "true"
    or "false". *)
Definition getCombos (combos : gmap nat Combo) (active : option string)
    : list (nat * Combo) :=
  Mongo.find
    (fun _ c =>
       match active with
       | Some s =>
           if String.eqb s "true" then c_isActive c
           else if String.eqb s "false" then negb (c_isActive c)
           else true
       | None => true
       end)
    combos.

(** [combo.isActive = !combo.isActive] *)
Definition toggled (c : Combo) : Combo :=
  {| c_name := c_name c; c_description := c_description c;
     c_services := c_services c; c_gender := c_gender c;
     c_totalDuration := c_totalDuration c; c_totalPrice := c_totalPrice c;
     c_discount := c_discount c; c_isActive := negb (c_isActive c) |}.

(** [toggleComboStatus]; the reply carries the id and the new flag. *)
Definition toggleComboStatus (combos : gmap nat Combo) (id : nat)
    : Reply (nat * bool) Msg * gmap nat Combo :=
  match combos !! id with
  | None => (Fail 404 ComboNotFound, combos)
  | Some combo =>
      (Json 200 (id, c_isActive (toggled combo)), <[id := toggled combo]> combos)
  end.

Definition deleteCombo (combos : gmap nat Combo) (id : nat)
    : Reply unit Msg * gmap nat Combo :=
  match combos !! id with
  | None => (Fail 404 ComboNotFound, combos)
  | Some _ => (Json 200 tt, delete id combos)
  end.

(** The database after a request on the combos. *)
Definition with_combos (db : Appointments.Db) (combos : gmap nat Combo)
    : Appointments.Db :=
  {| Appointments.appointments := Appointments.appointments db;
     Appointments.serviceCatalog := Appointments.serviceCatalog db;
     Appointments.comboCatalog := combos |}.

(** The price of a member service of a request, as the catalog has it. *)
Definition listed_price (cat : gmap nat Service) (it : ItemBody) : Qc :=
  match cat !! ib_service it with
  | Some s => s_price s
  | None => Q2Qc 0
  end.

(** The body of an update that sends nothing. *)
Definition no_change : UpdateBody :=
  {| u_name := None; u_description := None; u_services := None;
     u_discount := None; u_gender := None |}.

(** Is the service in the catalog and active? *)
Definition on_offer (cat : gmap nat Service) (it : ItemBody) : bool :=
  match cat !! ib_service it with
  | Some s => s_isActive s
  | None => false
  end.


End ComboAdmin.

(** ** Staff attendance: removal of staff, the views and the local clock
       (controllers/staffController.js) *)

Module Roster.

Import Ledger.

Inductive Refusal : Type :=
| StaffMemberNotFound    (* 404 'Staff member not found' *)
| BothDatesRequired      (* 400 'Both startDate and endDate are required' *)
| InvalidRangeDate      (* 400 'Invalid date format' *)
| StartAfterEnd          (* 400 'startDate must be before endDate' *)
| StatusNotRetrieved.    (* 500 'Failed to retrieve today's attendance status' *)

Definition refusal_kind (m : Refusal) : ErrorKind :=
  match m with
  | StaffMemberNotFound => NOT_FOUND
  | BothDatesRequired | InvalidRangeDate | StartAfterEnd => VALIDATION
  | StatusNotRetrieved => SERVER
  end.

(** [deleteStaff]: the attendance records of the id go first, then the
    staff member; the reply is 404 when there was no such member. *)
Definition deleteStaff (staff : gmap nat Staff) (att : gmap nat Attendance)
    (id : nat) : Reply unit Refusal * gmap nat Staff * gmap nat Attendance :=
  let att' := deleteStaffAttendance id att in
  match staff !! id with
  | None => (Fail 404 StaffMemberNotFound, staff, att')
  | Some _ => (Json 200 tt, delete id staff, att')
  end.

(** *** Today's attendance status *)

(** The elements of the three lists of [getTodaysAttendanceStatus].  They
    carry the instants as stored; the role of the staff member and the
    rendering of the instants as clock strings are left out. *)
Record PresentEntry : Type := mkPresentEntry {
  pe_staffId : nat;
  pe_name : string;
  pe_status : AttStatus;
  pe_checkIn : option Z;
  pe_checkOut : option Z;
  pe_workingHours : WorkingHours
}.

Record AbsentEntry : Type := mkAbsentEntry {
  ae_staffId : nat;
  ae_name : string
}.

Record HolidayEntry : Type := mkHolidayEntry {
  he_staffId : nat;
  he_name : string;
  he_checkIn : option Z;
  he_checkOut : option Z
}.

Record TodayStatus : Type := mkTodayStatus {
  totalStaff : nat;
  presentCount : nat;
  absentCount : nat;
  holidayCount : nat;
  presentStaff : list PresentEntry;
  absentStaff : list AbsentEntry;
  holidayStaff : list HolidayEntry
}.

(** [attendedStaffMap]: the records of today by staff id, a later record
    replacing an earlier one of the same staff member. *)
Definition attendedStaffMap (records : list (nat * Attendance))
    : gmap nat Attendance :=
  List.fold_left (fun m kv => <[staffId (snd kv) := snd kv]> m) records ∅.

Definition Lists : Type :=
  list PresentEntry * list AbsentEntry * list HolidayEntry.

(** The body of [activeStaff.forEach]: one push on one of the three
    lists. *)
Definition categorize (m : gmap nat Attendance) (lists : Lists)
    (member : nat * Staff) : Lists :=
  let '(present, absent, holiday) := lists in
  let id := fst member in
  let name := st_name (snd member) in
  match m !! id with
  | Some r =>
      if isHoliday r then
        (present, absent,
         holiday ++ [ {| he_staffId := id; he_name := name;
                         he_checkIn := checkIn r; he_checkOut := checkOut r |} ])
      else
        (present ++ [ {| pe_staffId := id; pe_name := name;
                         pe_status := status r; pe_checkIn := checkIn r;
                         pe_checkOut := checkOut r;
                         pe_workingHours := workingHours r |} ],
         absent, holiday)
  | None =>
      (present, absent ++ [ {| ae_staffId := id; ae_name := name |} ], holiday)
  end.

(** [getTodaysAttendanceStatus].  [populate('staffId')] leaves null where
    the staff member is gone, and [record.staffId._id] then throws: the
    reply is 500. *)
Definition getTodaysAttendanceStatus (env : Env) (staff : gmap nat Staff)
    (att : gmap nat Attendance) : Reply TodayStatus Refusal :=
  let today := getCurrentUTCDate env in
  let active := activeStaff staff in
  let todaysAttendance := Mongo.find (fun _ r => Z.eqb (date r) today) att in
  if forallb (fun kv => is_set (staff !! staffId (snd kv))) todaysAttendance then
    let '(present, absent, holiday) :=
      List.fold_left (categorize (attendedStaffMap todaysAttendance)) active
        ([], [], []) in
    Json 200 {| totalStaff := length active;
                presentCount := length present;
                absentCount := length absent;
                holidayCount := length holiday;
                presentStaff := present;
                absentStaff := absent;
                holidayStaff := holiday |}
  else Fail 500 StatusNotRetrieved.

(** *** The summary of a month *)

Record Summary : Type := mkSummary {
  sm_present : nat;
  sm_absent : nat;
  sm_late : nat;
  sm_halfDay : nat;
  sm_holidays : nat;
  sm_workingHours : Qc
}.

(** [parseFloat(record.workingHours)] when [record.workingHours] is
    truthy: the hundredths the string stands for.  (The sum the source
    keeps is one of floating-point numbers; the model adds the hundredths
    exactly.) *)
Definition hours_value (r : Attendance) : Qc :=
  match checkIn r, checkOut r with
  | Some ci, Some co =>
      let n := hundredths_of_hour (Z.abs (co - ci)) in
      (Q2Qc (inject_Z (if co - ci <? 0 then - n else n)) / Q2Qc 100)%Qc
  | _, _ => Q2Qc 0
  end.

(** The body of [attendanceRecords.forEach]. *)
Definition count_record (s : Summary) (r : Attendance) : Summary :=
  let hours := (sm_workingHours s + hours_value r)%Qc in
  if isHoliday r then
    {| sm_present := sm_present s; sm_absent := sm_absent s;
       sm_late := sm_late s; sm_halfDay := sm_halfDay s;
       sm_holidays := S (sm_holidays s); sm_workingHours := hours |}
  else
    match status r with
    | Present =>
        {| sm_present := S (sm_present s); sm_absent := sm_absent s;
           sm_late := sm_late s; sm_halfDay := sm_halfDay s;
           sm_holidays := sm_holidays s; sm_workingHours := hours |}
    | Absent =>
        {| sm_present := sm_present s; sm_absent := S (sm_absent s);
           sm_late := sm_late s; sm_halfDay := sm_halfDay s;
           sm_holidays := sm_holidays s; sm_workingHours := hours |}
    | Late =>
        {| sm_present := sm_present s; sm_absent := sm_absent s;
           sm_late := S (sm_late s); sm_halfDay := sm_halfDay s;
           sm_holidays := sm_holidays s; sm_workingHours := hours |}
    | HalfDay =>
        {| sm_present := sm_present s; sm_absent := sm_absent s;
           sm_late := sm_late s; sm_halfDay := S (sm_halfDay s);
           sm_holidays := sm_holidays s; sm_workingHours := hours |}
    | Holiday =>
        {| sm_present := sm_present s; sm_absent := sm_absent s;
           sm_late := sm_late s; sm_halfDay := sm_halfDay s;
           sm_holidays := sm_holidays s; sm_workingHours := hours |}
    end.

Definition date_leb (x y : nat * Attendance) : bool :=
  date (snd x) <=? date (snd y).

(** The records of a staff member from [startDate] to [endDate], by date. *)
Definition monthRecords (att : gmap nat Attendance) (sid : nat)
    (startDate endDate : Z) : list (nat * Attendance) :=
  Appointments.sort_by date_leb
    (Mongo.find
       (fun _ r => Nat.eqb (staffId r) sid
                   && (startDate <=? date r) && (date r <=? endDate))
       att).

(** [getAttendanceSummary] from the query on; [startDate] and [endDate]
    are the first and the last instant of the month asked for. *)
Definition getAttendanceSummary (att : gmap nat Attendance) (sid : nat)
    (startDate endDate : Z) : Summary :=
  List.fold_left count_record
    (List.map snd (monthRecords att sid startDate endDate))
    {| sm_present := 0; sm_absent := 0; sm_late := 0; sm_halfDay := 0;
       sm_holidays := 0; sm_workingHours := Q2Qc 0 |}.

(** *** Attendance by date range *)

(** [getAttendanceByDateRange]; the records are returned as stored (the
    source renders their instants as strings).  The second key of the
    sort, ['staffId.name'], is no path of the stored documents and orders
    nothing. *)
Definition getAttendanceByDateRange (att : gmap nat Attendance)
    (startDate endDate : DateField) (sid : option nat)
    : Reply (list (nat * Attendance)) Refusal :=
  match startDate, endDate with
  | DateAbsent, _ | _, DateAbsent => Fail 400 BothDatesRequired
  | DateMalformed, _ | _, DateMalformed => Fail 400 InvalidRangeDate
  | DateOk start, DateOk endDay =>
      let end_ := endDay + 86399999 in
      if end_ <? start then Fail 400 StartAfterEnd
      else
        Json 200
          (Appointments.sort_by date_leb
             (Mongo.find
                (fun _ r =>
                   (start <=? date r) && (date r <=? end_)
                   && match sid with
                      | Some i => Nat.eqb (staffId r) i
                      | None => true
                      end)
                att))
  end.

(** *** The clock of the server *)

(** The hour and the minute the local clock of the server shows. *)
Definition local_clock (env : Env) : Z * Z :=
  let wall := now env - tzOffset env * 60000 in
  (wall mod MS_PER_DAY / 3600000, wall mod 3600000 / 60000).

(** A record as the requests leave it: present and no holiday, or a
    holiday with the flag. *)
Definition well_marked (r : Attendance) : Prop :=
  (status r = Present /\ isHoliday r = false) \/
  (status r = Holiday /\ isHoliday r = true).

(** Every record belongs to a staff member that is stored. *)
Definition staffed (staff : gmap nat Staff) (att : gmap nat Attendance) : Prop :=
  forall i r, att !! i = Some r -> is_Some (staff !! staffId r).

(** *** The list of staff *)

(** The fields of a staff member that [getAllStaff] reads. *)
Record Profile : Type := mkProfile {
  pf_name : string;
  pf_role : string;
  pf_isActive : bool
}.

(** [.sort({ name: 1 })], [name] being a [String] field. *)
Definition name_leb (x y : nat * Profile) : bool :=
  String.leb (pf_name (snd x)) (pf_name (snd y)).

(** The filter of [getAllStaff]:
    [if (role) filter.role = role;
     if (isActive) filter.isActive = isActive === 'true';] *)
Definition staff_filter (role isActive : option string) (_ : nat) (p : Profile)
    : bool :=
  match role with
  | Some s => String.eqb s "" || String.eqb (pf_role p) s
  | None => true
  end
  && match isActive with
     | Some s => String.eqb s "" || Bool.eqb (pf_isActive p) (String.eqb s "true")
     | None => true
     end.

(** [getAllStaff]: the staff found, and [count]. *)
Definition getAllStaff (staff : gmap nat Profile) (role isActive : option string)
    : nat * list (nat * Profile) :=
  let found :=
    Appointments.sort_by name_leb (Mongo.find (staff_filter role isActive) staff) in
  (length found, found).

End Roster.

(** ** Further cases, used to evaluate the controllers above *)

Module Cases.

(** The service list of the trio, sent without sequences, at 10% discount. *)
Definition trio_services : list Combos.ItemBody :=
  [Combos.mkItemBody 1 None; Combos.mkItemBody 2 None; Combos.mkItemBody 3 None].

Definition trio_body : ComboAdmin.NewCombo :=
  {| ComboAdmin.n_name := Some "Trio"; ComboAdmin.n_description := None;
     ComboAdmin.n_services := Some trio_services;
     ComboAdmin.n_discount := Some (Q2Qc 10); ComboAdmin.n_gender := None |}.

(** The combo CreateCombo makes of it on an empty collection. *)
Definition new_trio : Combo :=
  match fst (ComboAdmin.createCombo Scenario.three_services ∅ trio_body) with
  | Json _ (_, c) => c
  | Fail _ _ => Scenario.trio
  end.

(** A salon with the three services and the trio as combo 0. *)
Definition salon : Appointments.Db :=
  {| Appointments.appointments := ∅;
     Appointments.serviceCatalog := Scenario.three_services;
     Appointments.comboCatalog := {[ 0%nat := Scenario.trio ]} |}.

(** The server on Indian time on 1 June at 04:00 UTC, 09:30 on its local
    clock. *)
Definition morning : Ledger.Env :=
  {| Ledger.now := Scenario.june1 + 4 * 3600000; Ledger.tzOffset := -330;
     Ledger.validateModifiedOnly := false |}.

(** Customer 5 books 10:00 AM, and the appointment is then confirmed. *)
Definition confirmed_booking : list Desk.Request :=
  [Desk.CreateReq 0 5 (Scenario.book "10:00 AM");
   Desk.StatusReq 0 Appointments.confirmed].

(** Asha, an active stylist, and Ravi, a barber who has left. *)
Definition payroll : gmap nat Roster.Profile :=
  {[ 1%nat := Roster.mkProfile "Asha" "Stylist" true;
     2%nat := Roster.mkProfile "Ravi" "Barber" false ]}.

End Cases.

(** * Properties *)

(** ** Queries and writes on a collection *)

Section MongoFacts.
Context {D K : Type} `{EqDecision K}.
Implicit Types (c : gmap nat D) (q : nat -> D -> bool) (key : D -> K).

Lemma findOne_Some q c i d :
  Mongo.findOne q c = Some (i, d) -> c !! i = Some d /\ q i d = true.
Proof.
  unfold Mongo.findOne. intros Hf.
  apply List.find_some in Hf as [Hin Hq]. split; [|exact Hq].
  apply elem_of_map_to_list. by apply list_elem_of_In.
Qed.

Lemma findOne_None q c :
  Mongo.findOne q c = None <->
  (forall i d, c !! i = Some d -> q i d = false).
Proof.
  unfold Mongo.findOne. split.
  - intros Hf i d Hl.
    apply (List.find_none _ _ Hf (i, d)).
    apply list_elem_of_In. by apply elem_of_map_to_list.
  - intros Hall. destruct (List.find _ _) as [[i d]|] eqn:Hf; [|done].
    apply List.find_some in Hf as [Hin Hq].
    apply list_elem_of_In, elem_of_map_to_list in Hin.
    simpl in Hq. rewrite (Hall _ _ Hin) in Hq. discriminate.
Qed.

Lemma findOne_by_id (p : D -> bool) c id :
  Mongo.findOne (fun i d => Nat.eqb i id && p d) c =
  match c !! id with
  | Some d => if p d then Some (id, d) else None
  | None => None
  end.
Proof.
  destruct (Mongo.findOne _ c) as [[i d]|] eqn:Hf.
  - apply findOne_Some in Hf as [Hl Hq].
    apply andb_true_iff in Hq as [Hi Hp]. apply Nat.eqb_eq in Hi. subst i.
    by rewrite Hl, Hp.
  - destruct (c !! id) as [d|] eqn:Hl; [|done].
    pose proof (proj1 (findOne_None _ _) Hf id d Hl) as Hq.
    simpl in Hq. rewrite Nat.eqb_refl in Hq. simpl in Hq. by rewrite Hq.
Qed.

Lemma key_taken_true key self k c :
  Mongo.key_taken key self k c = true <->
  exists j d, c !! j = Some d /\ self <> Some j /\ key d = k.
Proof.
  unfold Mongo.key_taken. split.
  - destruct (Mongo.findOne _ c) as [[j d]|] eqn:Hf; [|discriminate].
    intros _. apply findOne_Some in Hf as [Hl Hq].
    apply andb_true_iff in Hq as [Hs Hk].
    apply negb_true_iff, bool_decide_eq_false in Hs.
    apply bool_decide_eq_true in Hk. by exists j, d.
  - intros (j & d & Hl & Hs & Hk).
    destruct (Mongo.findOne _ c) as [[j' d']|] eqn:Hf; [done|].
    pose proof (proj1 (findOne_None _ _) Hf j d Hl) as Hq. simpl in Hq.
    rewrite (bool_decide_eq_false_2 _ Hs), (bool_decide_eq_true_2 _ Hk) in Hq.
    discriminate.
Qed.

Lemma key_taken_false key self k c :
  Mongo.key_taken key self k c = false <->
  (forall j d, c !! j = Some d -> self <> Some j -> key d <> k).
Proof.
  split.
  - intros Hf j d Hl Hs Hk.
    assert (Mongo.key_taken key self k c = true) as Ht
      by (apply key_taken_true; eauto).
    congruence.
  - intros Hall. destruct (Mongo.key_taken key self k c) eqn:Ht; [|done].
    apply key_taken_true in Ht as (j & d & Hl & Hs & Hk).
    by destruct (Hall j d Hl Hs).
Qed.

Lemma fresh_id_free c : c !! fresh (dom c) = None.
Proof. apply not_elem_of_dom, is_fresh. Qed.

Lemma insertOne_Some key d c i c' :
  Mongo.insertOne key d c = Some (i, c') ->
  c !! i = None /\ c' = <[i := d]> c /\
  (forall j d', c !! j = Some d' -> key d' <> key d).
Proof.
  unfold Mongo.insertOne.
  destruct (Mongo.key_taken key None (key d) c) eqn:Ht; [discriminate|].
  intros [= <- <-]. split; [apply fresh_id_free|]. split; [done|].
  intros j d' Hl. by apply (proj1 (key_taken_false _ _ _ _) Ht j d' Hl).
Qed.

Lemma insertOne_free key d c :
  (forall j d', c !! j = Some d' -> key d' <> key d) ->
  Mongo.insertOne key d c = Some (fresh (dom c), <[fresh (dom c) := d]> c).
Proof.
  intros Hfree. unfold Mongo.insertOne.
  rewrite (proj2 (key_taken_false key None (key d) c)); [done|].
  intros j d' Hl _. by apply (Hfree j).
Qed.

Lemma insertOne_taken key d c j d' :
  c !! j = Some d' -> key d' = key d -> Mongo.insertOne key d c = None.
Proof.
  intros Hl Hk. unfold Mongo.insertOne.
  rewrite (proj2 (key_taken_true key None (key d) c)); [done|].
  by exists j, d'.
Qed.

Lemma updateOne_same_key key i d old c :
  c !! i = Some old -> key old = key d ->
  Mongo.updateOne key i d c = Some (<[i := d]> c).
Proof.
  intros Hl Hk. unfold Mongo.updateOne.
  by rewrite Hl, (bool_decide_eq_true_2 _ Hk).
Qed.

Lemma updateOne_free key i d old c :
  c !! i = Some old ->
  (forall j d', c !! j = Some d' -> j <> i -> key d' <> key d) ->
  Mongo.updateOne key i d c = Some (<[i := d]> c).
Proof.
  intros Hl Hfree. unfold Mongo.updateOne. rewrite Hl.
  case_bool_decide; [done|].
  rewrite (proj2 (key_taken_false key (Some i) (key d) c)); [done|].
  intros j d' Hj Hs. apply (Hfree j d' Hj). congruence.
Qed.

Lemma updateOne_taken key i d old c j d' :
  c !! i = Some old -> key old <> key d ->
  c !! j = Some d' -> j <> i -> key d' = key d ->
  Mongo.updateOne key i d c = None.
Proof.
  intros Hl Hne Hj Hji Hk. unfold Mongo.updateOne. rewrite Hl.
  rewrite (bool_decide_eq_false_2 _ Hne).
  rewrite (proj2 (key_taken_true key (Some i) (key d) c)); [done|].
  exists j, d'. split; [done|]. split; [congruence|done].
Qed.

Lemma updateOne_Some key i d old c c' :
  c !! i = Some old ->
  Mongo.updateOne key i d c = Some c' -> c' = <[i := d]> c.
Proof.
  intros Hl. unfold Mongo.updateOne. rewrite Hl.
  case_bool_decide; [congruence|].
  destruct (Mongo.key_taken _ _ _ _); congruence.
Qed.

Lemma unique_on_insert key i d c :
  (forall j d', c !! j = Some d' -> j <> i -> key d' <> key d) ->
  Mongo.unique_on key c -> Mongo.unique_on key (<[i := d]> c).
Proof.
  intros Hfree Hu j1 j2 d1 d2 H1 H2 Hk.
  destruct (decide (j1 = i)) as [->|Hn1], (decide (j2 = i)) as [->|Hn2];
    [done| | |].
  - rewrite lookup_insert_eq in H1. rewrite lookup_insert_ne in H2 by done.
    injection H1 as <-. by destruct (Hfree j2 d2 H2 Hn2).
  - rewrite lookup_insert_eq in H2. rewrite lookup_insert_ne in H1 by done.
    injection H2 as <-. by destruct (Hfree j1 d1 H1 Hn1).
  - rewrite lookup_insert_ne in H1 by done.
    rewrite lookup_insert_ne in H2 by done. eauto.
Qed.

Lemma insertOne_unique key d c i c' :
  Mongo.insertOne key d c = Some (i, c') ->
  Mongo.unique_on key c -> Mongo.unique_on key c'.
Proof.
  intros Hins Hu. apply insertOne_Some in Hins as (_ & -> & Hfree).
  apply unique_on_insert; [|done]. intros j d' Hj _. by apply (Hfree j).
Qed.

Lemma updateOne_unique key i d c c' :
  Mongo.updateOne key i d c = Some c' ->
  Mongo.unique_on key c -> Mongo.unique_on key c'.
Proof.
  unfold Mongo.updateOne. intros Hupd Hu.
  destruct (c !! i) as [old|] eqn:Hl; [|by injection Hupd as <-].
  case_bool_decide as Hk.
  - injection Hupd as <-. apply unique_on_insert; [|done].
    intros j d' Hj Hne Hk'. apply Hne. apply (Hu j i d' old Hj Hl). congruence.
  - destruct (Mongo.key_taken key (Some i) (key d) c) eqn:Ht; [discriminate|].
    injection Hupd as <-. apply unique_on_insert; [|done].
    intros j d' Hj Hne. apply (proj1 (key_taken_false _ _ _ _) Ht j d' Hj).
    congruence.
Qed.

Lemma deleteMany_unique key q c :
  Mongo.unique_on key c -> Mongo.unique_on key (Mongo.deleteMany q c).
Proof.
  intros Hu i j d d' Hi Hj. unfold Mongo.deleteMany in *.
  apply map_lookup_filter_Some in Hi as [Hi _].
  apply map_lookup_filter_Some in Hj as [Hj _]. eauto.
Qed.

(** Under a unique index, the query by key finds the document that has it. *)
Lemma findOne_unique q c i d :
  c !! i = Some d -> q i d = true ->
  (forall j d', c !! j = Some d' -> q j d' = true -> j = i) ->
  Mongo.findOne q c = Some (i, d).
Proof.
  intros Hl Hq Honly.
  destruct (Mongo.findOne q c) as [[j d']|] eqn:Hf.
  - apply findOne_Some in Hf as [Hj Hq'].
    pose proof (Honly j d' Hj Hq') as ->. congruence.
  - rewrite (proj1 (findOne_None _ _) Hf i d Hl) in Hq. discriminate.
Qed.

Lemma elem_of_find q c i d :
  In (i, d) (Mongo.find q c) <-> c !! i = Some d /\ q i d = true.
Proof.
  unfold Mongo.find. rewrite List.filter_In. simpl.
  by rewrite <- list_elem_of_In, elem_of_map_to_list.
Qed.

Lemma NoDup_find q c : List.NoDup (Mongo.find q c).
Proof.
  unfold Mongo.find. apply List.NoDup_filter, NoDup_ListNoDup, NoDup_map_to_list.
Qed.

End MongoFacts.

(** ** Appointments *)

Section AppointmentFacts.
Import Appointments.

Lemma parse_timeSlot_string t : parse_timeSlot (timeSlot_string t) = Some t.
Proof. by destruct t. Qed.

Lemma parse_timeSlot_Some s t : parse_timeSlot s = Some t -> s = timeSlot_string t.
Proof.
  unfold parse_timeSlot. intros Hf.
  apply List.find_some in Hf as [_ Heq]. apply String.eqb_eq in Heq. done.
Qed.

Lemma occupies_true d t j a :
  occupies d t j a = true <->
  appointmentDate a = d /\ timeSlot a = t /\ blocks_slot (status a) = true.
Proof.
  unfold occupies. rewrite !andb_true_iff, !bool_decide_eq_true. tauto.
Qed.









(** *** Cancel *)

Lemma cancel_lookup db id user :
  Mongo.findOne (fun i a => Nat.eqb i id && Nat.eqb (customer a) user)
    (appointments db) =
  match appointments db !! id with
  | Some a => if Nat.eqb (customer a) user then Some (id, a) else None
  | None => None
  end.
Proof. apply (findOne_by_id (fun a => Nat.eqb (customer a) user)). Qed.

Lemma save_same_key db i a old :
  appointments db !! i = Some old -> slot_key old = slot_key a ->
  save db i a = (Json 200 (i, a), with_appointments db (<[i := a]> (appointments db))).
Proof.
  intros Hl Hk. unfold save.
  by rewrite (updateOne_same_key slot_key i a old _ Hl Hk).
Qed.

(** C5. Cancel(id, customer) replies NOT_FOUND when no appointment has that
    id and that customer; replies INVALID_STATE when the appointment found
    is completed or cancelled; otherwise it stores the appointment with
    status cancelled, every other field of it and every other appointment
    being left as they were.  A failing Cancel changes nothing. *)
Theorem C5_cancel (db : Db) (id user : nat) :
  ((forall a, appointments db !! id = Some a -> customer a <> user) ->
   cancelAppointment db id user = (Fail 404 AppointmentNotFound, db) /\
   kind AppointmentNotFound = NOT_FOUND) /\
  (forall a, appointments db !! id = Some a -> customer a = user ->
   status a = completed \/ status a = cancelled ->
   cancelAppointment db id user = (Fail 400 (CannotCancel (status a)), db) /\
   kind (CannotCancel (status a)) = INVALID_STATE) /\
  (forall a, appointments db !! id = Some a -> customer a = user ->
   status a <> completed -> status a <> cancelled ->
   let a' := set_status a cancelled in
   let db' := snd (cancelAppointment db id user) in
   fst (cancelAppointment db id user) = Json 200 (id, a') /\
   appointments db' !! id = Some a' /\
   status a' = cancelled /\
   (customer a', services a', combo a', appointmentDate a', timeSlot a',
    notes a', createdAt a') =
   (customer a, services a, combo a, appointmentDate a, timeSlot a,
    notes a, createdAt a) /\
   (forall j, j <> id -> appointments db' !! j = appointments db !! j) /\
   serviceCatalog db' = serviceCatalog db /\
   comboCatalog db' = comboCatalog db).
Proof.
  unfold cancelAppointment. rewrite cancel_lookup.
  split; [|split].
  - intros Hnone. split; [|done].
    destruct (appointments db !! id) as [a|] eqn:Hl; [|done].
    destruct (Nat.eqb_spec (customer a) user) as [Heq|Hne]; [|done].
    by destruct (Hnone a).
  - intros a Hl Hc Hst. rewrite Hl. rewrite <- Hc, Nat.eqb_refl.
    by destruct Hst as [-> | ->].
  - intros a Hl Hc Hn1 Hn2. rewrite Hl. rewrite <- Hc, Nat.eqb_refl.
    assert (is_closed (status a) = false) as ->
      by (by destruct (status a)).
    rewrite (save_same_key db id (set_status a cancelled) a Hl eq_refl).
    simpl. rewrite lookup_insert_eq. repeat split.
    intros j Hj. by rewrite lookup_insert_ne.
Qed.

Lemma C5_witness :
  cancelAppointment Scenario.booked 0 6 =
    (Fail 404 AppointmentNotFound, Scenario.booked) /\
  cancelAppointment Scenario.released 0 5 =
    (Fail 400 (CannotCancel cancelled), Scenario.released) /\
  fst (cancelAppointment Scenario.booked 0 5) =
    Json 200 (0%nat, mkAppointment 5 [7%nat] None Scenario.june1 slot_10AM
                       cancelled None 0).
Proof.
  split; [|split].
  - refine (proj1 (proj1 (C5_cancel Scenario.booked 0 6) _)).
    intros a Ha. vm_compute in Ha. injection Ha as <-. discriminate.
  - refine (proj1 (proj1 (proj2 (C5_cancel Scenario.released 0 5))
                     (mkAppointment 5 [7%nat] None Scenario.june1 slot_10AM
                        cancelled None 0) _ _ _)).
    + reflexivity.
    + reflexivity.
    + by right.
  - refine (proj1 (proj2 (proj2 (C5_cancel Scenario.booked 0 5))
                     (mkAppointment 5 [7%nat] None Scenario.june1 slot_10AM
                        pending None 0) _ _ _ _)).
    + reflexivity.
    + reflexivity.
    + discriminate.
    + discriminate.
Defined.

(** *** Create *)

Lemma create_valid_body now db user b d t :
  b_appointmentDate b = Some d -> parse_timeSlot (b_timeSlot b) = Some t ->
  (no_services (b_services b) = false \/ is_Some (b_combo b)) ->
  Mongo.findOne (occupies d t) (appointments db) = None ->
  check_catalog db b = None ->
  createAppointment now db user b =
  match Mongo.insertOne slot_key (new_appointment now user b d t)
          (appointments db) with
  | Some (i, ap) =>
      (Json 201 (i, new_appointment now user b d t), with_appointments db ap)
  | None => (Fail 500 ServerError, db)
  end.
Proof.
  intros Hd Ht Hsel Hocc Hcat. unfold createAppointment.
  rewrite Hd, Ht, Hocc, Hcat.
  destruct Hsel as [-> | [c ->]]; [done|].
  by rewrite andb_false_r.
Qed.


(** Create on a slot whose key is held by no appointment at all succeeds. *)
Lemma create_on_unused_slot now db user b d t :
  b_appointmentDate b = Some d -> parse_timeSlot (b_timeSlot b) = Some t ->
  (no_services (b_services b) = false \/ is_Some (b_combo b)) ->
  check_catalog db b = None ->
  (forall j a, appointments db !! j = Some a ->
               ~ (appointmentDate a = d /\ timeSlot a = t)) ->
  let i := fresh (dom (appointments db)) in
  createAppointment now db user b =
  (Json 201 (i, new_appointment now user b d t),
   with_appointments db (<[i := new_appointment now user b d t]> (appointments db))).
Proof.
  intros Hd Ht Hsel Hcat Hfree i.
  assert (Mongo.findOne (occupies d t) (appointments db) = None) as Hocc.
  { apply findOne_None. intros j a Hl.
    destruct (occupies d t j a) eqn:Ho; [|done].
    apply occupies_true in Ho as (? & ? & _). by destruct (Hfree j a Hl). }
  rewrite (create_valid_body now db user b d t Hd Ht Hsel Hocc Hcat).
  rewrite insertOne_free; [done|].
  intros j a Hl Hk. apply (Hfree j a Hl). unfold slot_key in Hk. simpl in Hk.
  by injection Hk.
Qed.

(** Create on a slot whose only holders are cancelled, completed or
    rescheduled appointments passes the conflict check and is then refused
    by the unique index: the reply is 500 and nothing is stored. *)
Lemma create_on_released_slot now db user b d t j a :
  b_appointmentDate b = Some d -> parse_timeSlot (b_timeSlot b) = Some t ->
  (no_services (b_services b) = false \/ is_Some (b_combo b)) ->
  check_catalog db b = None ->
  appointments db !! j = Some a -> appointmentDate a = d -> timeSlot a = t ->
  (forall j' a', appointments db !! j' = Some a' ->
                 appointmentDate a' = d -> timeSlot a' = t ->
                 blocks_slot (status a') = false) ->
  createAppointment now db user b = (Fail 500 ServerError, db).
Proof.
  intros Hd Ht Hsel Hcat Hl Hda Hta Hreleased.
  rewrite (create_valid_body now db user b d t); try done.
  - rewrite (insertOne_taken slot_key _ _ j a Hl); [done|].
    unfold slot_key. simpl. by rewrite Hda, Hta.
  - apply findOne_None. intros j' a' Hl'.
    destruct (occupies d t j' a') eqn:Ho; [|done].
    apply occupies_true in Ho as (H1 & H2 & H3).
    by rewrite (Hreleased j' a' Hl' H1 H2) in H3.
Qed.

(** C1. The slot of a cancelled appointment is not reusable by Create:
    customer 5 books 10:00 AM on 1 June (appointment 0) and cancels it; the
    Create of customer 6 for the same date and slot passes the conflict
    check (its reply is not [SlotAlreadyBooked]) and is then refused by the
    unique index on (appointmentDate, timeSlot): the reply is 500 and the
    collection still holds appointment 0 alone.  The same happens when
    appointment 0 was marked completed, and at 3:00 PM when appointment 0
    was rescheduled to 3:00 PM. *)
Theorem C1_create_on_cancelled_slot_fails :
  appointments Scenario.released !! 0%nat =
    Some (mkAppointment 5 [7%nat] None Scenario.june1 slot_10AM cancelled None 0) /\
  size (appointments Scenario.released) = 1%nat /\
  createAppointment 1 Scenario.released 6 (Scenario.book "10:00 AM") =
    (Fail 500 ServerError, Scenario.released) /\
  appointments Scenario.served !! 0%nat =
    Some (mkAppointment 5 [7%nat] None Scenario.june1 slot_10AM completed None 0) /\
  createAppointment 1 Scenario.served 6 (Scenario.book "10:00 AM") =
    (Fail 500 ServerError, Scenario.served) /\
  appointments Scenario.moved !! 0%nat =
    Some (mkAppointment 5 [7%nat] None Scenario.june1 slot_3PM rescheduled None 0) /\
  createAppointment 1 Scenario.moved 6 (Scenario.book "3:00 PM") =
    (Fail 500 ServerError, Scenario.moved).
Proof. vm_compute. repeat split. Qed.



(** *** Reschedule *)

Lemma occupies_other_true id d t j a :
  occupies_other id d t j a = true <->
  j <> id /\ appointmentDate a = d /\ timeSlot a = t /\
  blocks_slot (status a) = true.
Proof.
  unfold occupies_other.
  rewrite andb_true_iff, occupies_true, negb_true_iff, Nat.eqb_neq. tauto.
Qed.

(** What Reschedule does, case by case.  The last case is the one the
    unique index adds: the target key is held by another appointment that
    is neither pending nor confirmed. *)
Lemma reschedule_spec (db : Db) (id : nat) (d : Z) (t : TimeSlot) :
  let b := mkRescheduleBody (Some d) (timeSlot_string t) in
  (appointments db !! id = None ->
   rescheduleAppointment db id b = (Fail 404 AppointmentNotFound, db)) /\
  (forall a, appointments db !! id = Some a ->
   status a = completed \/ status a = cancelled ->
   rescheduleAppointment db id b = (Fail 400 (CannotReschedule (status a)), db)) /\
  (forall a j o, appointments db !! id = Some a ->
   status a <> completed -> status a <> cancelled ->
   appointments db !! j = Some o -> j <> id ->
   appointmentDate o = d -> timeSlot o = t -> blocks_slot (status o) = true ->
   rescheduleAppointment db id b = (Fail 400 SlotAlreadyBooked, db)) /\
  (forall a, appointments db !! id = Some a ->
   status a <> completed -> status a <> cancelled ->
   (forall j o, appointments db !! j = Some o -> j <> id ->
                ~ (appointmentDate o = d /\ timeSlot o = t)) ->
   rescheduleAppointment db id b =
   (Json 200 (id, move_to a d t),
    with_appointments db (<[id := move_to a d t]> (appointments db)))) /\
  (forall a j o, appointments db !! id = Some a ->
   status a <> completed -> status a <> cancelled ->
   slot_key a <> (d, t) ->
   (forall j' o', appointments db !! j' = Some o' -> j' <> id ->
                  appointmentDate o' = d -> timeSlot o' = t ->
                  blocks_slot (status o') = false) ->
   appointments db !! j = Some o -> j <> id ->
   appointmentDate o = d -> timeSlot o = t ->
   rescheduleAppointment db id b = (Fail 500 ServerError, db)).
Proof.
  intros b. unfold rescheduleAppointment. simpl.
  rewrite parse_timeSlot_string.
  assert (forall a, status a <> completed -> status a <> cancelled ->
                    is_closed (status a) = false) as Hopen
    by (intros a; by destruct (status a)).
  repeat split.
  - by intros ->.
  - intros a -> [Hs | Hs]; by rewrite Hs.
  - intros a j o -> H1 H2 Hj Hne Hd Ht Hb. rewrite (Hopen a H1 H2).
    destruct (Mongo.findOne _ _) eqn:Hf; [done|].
    pose proof (proj1 (findOne_None _ _) Hf j o Hj) as Hq.
    rewrite (proj2 (occupies_other_true id d t j o)) in Hq; [done|auto].
  - intros a Hl H1 H2 Hfree. rewrite Hl, (Hopen a H1 H2).
    destruct (Mongo.findOne _ _) as [[j o]|] eqn:Hf.
    + apply findOne_Some in Hf as [Hj Hq].
      apply occupies_other_true in Hq as (Hne & Hd & Ht & _).
      by destruct (Hfree j o Hj Hne).
    + unfold save. rewrite (updateOne_free slot_key id _ a _ Hl); [done|].
      intros j o Hj Hne Hk. apply (Hfree j o Hj Hne).
      unfold slot_key in Hk. simpl in Hk. by injection Hk.
  - intros a j o Hl H1 H2 Hk Hreleased Hj Hne Hd Ht.
    rewrite Hl, (Hopen a H1 H2).
    destruct (Mongo.findOne _ _) as [[j' o']|] eqn:Hf.
    + apply findOne_Some in Hf as [Hj' Hq].
      apply occupies_other_true in Hq as (Hne' & Hd' & Ht' & Hb').
      by rewrite (Hreleased j' o' Hj' Hne' Hd' Ht') in Hb'.
    + unfold save.
      rewrite (updateOne_taken slot_key id _ a _ j o Hl); try done.
      unfold slot_key. simpl. by rewrite Hd, Ht.
Qed.

(** C6. Reschedule into a slot released by a cancellation fails: after
    customer 5 has booked and cancelled 10:00 AM (appointment 0) and
    customer 6 has booked 11:00 AM (appointment 1, pending), moving
    appointment 1 to 10:00 AM meets no NOT_FOUND, INVALID_STATE or CONFLICT
    condition, and yet the reply is 500 and appointment 1 keeps its slot and
    its status: the save is refused by the unique index on
    (appointmentDate, timeSlot), whose key appointment 0 still holds. *)
Theorem C6_reschedule_into_cancelled_slot_fails :
  appointments Scenario.two_bookings !! 0%nat =
    Some (mkAppointment 5 [7%nat] None Scenario.june1 slot_10AM cancelled None 0) /\
  appointments Scenario.two_bookings !! 1%nat =
    Some (mkAppointment 6 [7%nat] None Scenario.june1 slot_11AM pending None 2) /\
  size (appointments Scenario.two_bookings) = 2%nat /\
  rescheduleAppointment Scenario.two_bookings 1 (Scenario.move "10:00 AM") =
    (Fail 500 ServerError, Scenario.two_bookings).
Proof. vm_compute. repeat split. Qed.

(** *** Today's appointments *)

Lemma insert_sorted_Sorted {A} (le : A -> A -> bool) x l :
  (forall a b, le a b = false -> le b a = true) ->
  Sorted (fun a b => le a b = true) l ->
  Sorted (fun a b => le a b = true) (insert_sorted le x l).
Proof.
  intros Htotal. induction l as [|y l IH]; intros Hs; simpl.
  - repeat constructor.
  - destruct (le x y) eqn:Hxy.
    + constructor; [done|]. by constructor.
    + apply Sorted_inv in Hs as [Hs Hhd]. constructor; [by apply IH|].
      destruct l as [|z l]; simpl.
      * constructor. by apply Htotal.
      * destruct (le x z); constructor; [by apply Htotal|].
        by apply HdRel_inv in Hhd.
Qed.

Lemma sort_by_Sorted {A} (le : A -> A -> bool) l :
  (forall a b, le a b = false -> le b a = true) ->
  Sorted (fun a b => le a b = true) (sort_by le l).
Proof.
  intros Htotal. induction l as [|x l IH]; simpl; [constructor|].
  by apply insert_sorted_Sorted.
Qed.

(** The listing is ordered by the stored strings of the slots, compared
    character by character. *)
Lemma today_sorted_by_string (todayStart todayEnd : Z) (db : Db) :
  Sorted (fun x y => String.leb (timeSlot_string (timeSlot (snd (fst x))))
                                (timeSlot_string (timeSlot (snd (fst y)))) = true)
    (getTodaysAppointments todayStart todayEnd db).
Proof.
  unfold getTodaysAppointments.
  pose proof (sort_by_Sorted slot_leb
                (Mongo.find
                   (fun _ a => Z.leb todayStart (appointmentDate a)
                               && Z.leb (appointmentDate a) todayEnd
                               && listed_today (status a))
                   (appointments db))) as Hs.
  set (l := sort_by _ _) in *.
  assert (Sorted (fun a b => slot_leb a b = true) l) as Hl.
  { apply Hs. intros a b Hab. unfold slot_leb in *.
    destruct (String.leb_total (timeSlot_string (timeSlot (snd a)))
                (timeSlot_string (timeSlot (snd b)))); congruence. }
  clear Hs. induction Hl as [|x l Hl IH Hhd]; simpl; constructor; [done|].
  destruct Hhd; simpl; constructor. done.
Qed.

(** C4. Today's listing is not in business-hours order: with a pending
    9:00 AM appointment (id 0) and a pending 1:00 PM appointment (id 1) on
    the current day, 1:00 PM is listed first, although 9:00 AM comes first
    in the enumeration of the slots; the listing follows the order of the
    strings. *)
Theorem C4_today_lists_1PM_before_9AM :
  List.map (fun r => (fst (fst r), timeSlot (snd (fst r)), status (snd (fst r))))
    (getTodaysAppointments Scenario.june1 (Scenario.june1 + 86399999)
       Scenario.morning_and_afternoon) =
    [(1%nat, slot_1PM, pending); (0%nat, slot_9AM, pending)] /\
  (slot_rank slot_9AM < slot_rank slot_1PM)%nat /\
  String.ltb (timeSlot_string slot_1PM) (timeSlot_string slot_9AM) = true.
Proof. vm_compute. repeat split; lia. Qed.

End AppointmentFacts.

(** ** Combos *)

Section ComboFacts.
Import Combos.

Lemma populated_price cat it :
  default (Q2Qc 0)
    (num_or (num_or None (s_price <$> cat !! ci_service it)) (Some (Q2Qc 0))) =
  member_price cat it.
Proof.
  unfold member_price, num_or. destruct (cat !! ci_service it) as [s|]; simpl.
  - case_bool_decide; simpl; congruence.
  - done.
Qed.

Lemma calculatePrice_populate cat items discount :
  calculatePrice (populate cat items) discount =
  discounted (sum_prices (member_price cat) items) discount.
Proof.
  unfold calculatePrice, discounted, sum_prices, populate.
  assert (forall acc,
            List.fold_left
              (fun sum svc =>
                 (sum + default (Q2Qc 0)
                          (num_or (num_or (p_price svc) (s_price <$> p_service svc))
                                  (Some (Q2Qc 0))))%Qc)
              (List.map (fun it => {| p_price := None;
                                      p_service := cat !! ci_service it |}) items)
              acc =
            List.fold_left (fun sum it => (sum + member_price cat it)%Qc) items acc)
    as Hfold.
  { induction items as [|it items IH]; intros acc; simpl; [done|].
    rewrite IH. f_equal. f_equal. apply populated_price. }
  by rewrite Hfold.
Qed.






(** The total price of the trio at 10% is 540 = 600 - 10%. *)
Lemma trio_price :
  calculatePrice (populate Scenario.three_services (c_services Scenario.trio))
    (Q2Qc 10) = Q2Qc 540.
Proof. apply Qc_is_canon. by vm_compute. Qed.


End ComboFacts.

(** ** Staff attendance *)

Section LedgerFacts.
Import Ledger.

Lemma one_record_per_day_unique att :
  one_record_per_day att <-> Mongo.unique_on day_key att.
Proof.
  unfold one_record_per_day, Mongo.unique_on, day_key. split.
  - intros Hu i j r r' Hi Hj Hk. injection Hk as Hs Hd. eauto.
  - intros Hu i j r r' Hi Hj Hs Hd. apply (Hu i j r r' Hi Hj). congruence.
Qed.

Lemma on_day_true sid d i r :
  on_day sid d i r = true <-> staffId r = sid /\ date r = d.
Proof.
  unfold on_day. by rewrite andb_true_iff, Nat.eqb_eq, Z.eqb_eq.
Qed.


(** The record of a staff member on a day is the one the lookup returns. *)
Lemma existing_record_found att sid d i r :
  one_record_per_day att ->
  att !! i = Some r -> staffId r = sid -> date r = d ->
  Mongo.findOne (on_day sid d) att = Some (i, r).
Proof.
  intros Hu Hl Hs Hd. apply findOne_unique; [done|by apply on_day_true|].
  intros j r' Hj Hq. apply on_day_true in Hq as [Hs' Hd'].
  apply (Hu j i r' r Hj Hl); congruence.
Qed.

Lemma record_action_unique env att sid action d t :
  one_record_per_day att ->
  one_record_per_day (snd (record_action env att sid action d t)).
Proof.
  intros Hu. unfold record_action.
  destruct (Mongo.findOne (on_day sid d) att) as [[i r]|] eqn:Hf.
  - destruct (match action with
              | CheckIn => _
              | CheckOut => _
              end); [done|].
    destruct (validate env action _); [|done].
    destruct (Mongo.updateOne _ _ _ _) as [att'|] eqn:Hupd; [|done].
    simpl. apply one_record_per_day_unique.
    apply (updateOne_unique _ _ _ _ _ Hupd). by apply one_record_per_day_unique.
  - destruct (validate env action _); [|done].
    destruct (Mongo.insertOne _ _ _) as [[i att']|] eqn:Hins; [|done].
    simpl. apply one_record_per_day_unique.
    apply (insertOne_unique _ _ _ _ _ Hins). by apply one_record_per_day_unique.
Qed.

Lemma recordAttendance_unique env staff att b :
  one_record_per_day att ->
  one_record_per_day (snd (recordAttendance env staff att b)).
Proof.
  intros Hu. unfold recordAttendance.
  destruct (resolve_request env staff b) as [[code m]|[[[sid action] d] t]];
    [done|]. by apply record_action_unique.
Qed.

Lemma upsert_holiday_unique d n att sid :
  one_record_per_day att -> one_record_per_day (upsert_holiday d n att sid).
Proof.
  intros Hu. unfold upsert_holiday.
  apply one_record_per_day_unique.
  destruct (Mongo.findOne (on_day sid d) att) as [[i r]|] eqn:Hf.
  - apply findOne_Some in Hf as [Hl _].
    apply unique_on_insert; [|by apply one_record_per_day_unique].
    intros j r' Hj Hne Hk. apply Hne.
    apply one_record_per_day_unique in Hu. by apply (Hu j i r' r Hj Hl).
  - apply unique_on_insert; [|by apply one_record_per_day_unique].
    intros j r' Hj _ Hk.
    pose proof (proj1 (findOne_None _ _) Hf j r' Hj) as Hq.
    rewrite (proj2 (on_day_true sid d j r')) in Hq; [done|].
    unfold day_key in Hk. simpl in Hk. by injection Hk.
Qed.

Lemma bulk_upsert_unique d n sids : forall att,
  one_record_per_day att ->
  one_record_per_day (List.fold_left (upsert_holiday d n) sids att).
Proof.
  induction sids as [|sid sids IH]; intros att Hu; simpl; [done|].
  apply IH. by apply upsert_holiday_unique.
Qed.

Lemma declareHoliday_unique env staff att b :
  one_record_per_day att ->
  one_record_per_day (snd (declareHoliday env staff att b)).
Proof.
  intros Hu. unfold declareHoliday.
  destruct (h_date b) as [| |d]; [done|done|].
  destruct (d <? getCurrentUTCDate env); [done|].
  by apply bulk_upsert_unique.
Qed.

Lemma deleteHoliday_unique env att d :
  one_record_per_day att ->
  one_record_per_day (snd (deleteHoliday env att d)).
Proof.
  intros Hu. unfold deleteHoliday.
  destruct d as [| |d]; [done|done|].
  destruct (d <? getCurrentUTCDate env); [done|].
  destruct (Nat.eqb _ 0); [done|]. simpl.
  apply one_record_per_day_unique, deleteMany_unique.
  by apply one_record_per_day_unique.
Qed.

Lemma reachable_unique att : reachable att -> one_record_per_day att.
Proof.
  induction 1 as [|env staff att b _ IH|env staff att b _ IH|env att d _ IH
                  |sid att _ IH].
  - intros i j r r' Hi. by rewrite lookup_empty in Hi.
  - by apply recordAttendance_unique.
  - by apply declareHoliday_unique.
  - by apply deleteHoliday_unique.
  - apply one_record_per_day_unique, deleteMany_unique.
    by apply one_record_per_day_unique.
Qed.

(** In every state of the attendance collection that requests produce from
    the empty collection there is at most one record for each staff member
    and day.  For a request that reaches the lookup and finds the record of
    that staff member and day: a check-in when checkIn is set is answered
    ALREADY_DONE; a check-out when checkIn is not set is answered
    INVALID_STATE, whether or not checkOut is set; a check-out when checkIn
    and checkOut are set is answered ALREADY_DONE; and each of these
    answers leaves the collection as it was. *)
Lemma attendance_refusals :
  (forall att, reachable att -> one_record_per_day att) /\
  (forall env staff att b sid action d t i r,
     resolve_request env staff b = inr (sid, action, d, t) ->
     one_record_per_day att ->
     att !! i = Some r -> staffId r = sid -> date r = d ->
     (action = CheckIn -> is_Some (checkIn r) ->
      recordAttendance env staff att b = (Fail 400 AlreadyCheckedIn, att)) /\
     (action = CheckOut -> checkIn r = None ->
      recordAttendance env staff att b = (Fail 400 CheckOutWithoutCheckIn, att)) /\
     (action = CheckOut -> is_Some (checkIn r) -> is_Some (checkOut r) ->
      recordAttendance env staff att b = (Fail 400 AlreadyCheckedOut, att))) /\
  kind AlreadyCheckedIn = ALREADY_DONE /\
  kind CheckOutWithoutCheckIn = INVALID_STATE /\
  kind AlreadyCheckedOut = ALREADY_DONE.
Proof.
  split; [exact reachable_unique|]. split; [|done].
  intros env staff att b sid action d t i r Hreq Hu Hl Hs Hd.
  unfold recordAttendance. rewrite Hreq. unfold record_action.
  rewrite (existing_record_found att sid d i r Hu Hl Hs Hd).
  repeat split.
  - intros -> [ci ->]. done.
  - intros -> ->. done.
  - intros -> [ci ->] [co ->]. done.
Qed.

Lemma attendance_refusals_example :
  Ledger.recordAttendance Scenario.evening Scenario.crew Scenario.asha_in
    (Scenario.clock 1 "checkIn" 10 0) =
    (Fail 400 AlreadyCheckedIn, Scenario.asha_in) /\
  Ledger.recordAttendance Scenario.evening Scenario.crew Scenario.asha_on_holiday
    (Scenario.clock 1 "checkOut" 18 0) =
    (Fail 400 CheckOutWithoutCheckIn, Scenario.asha_on_holiday) /\
  Ledger.recordAttendance Scenario.evening Scenario.crew Scenario.asha_out
    (Scenario.clock 1 "checkOut" 18 30) =
    (Fail 400 AlreadyCheckedOut, Scenario.asha_out).
Proof.
  split; [|split].
  - refine (proj1 (proj1 (proj2 attendance_refusals)
                     Scenario.evening Scenario.crew Scenario.asha_in
                     (Scenario.clock 1 "checkIn" 10 0)
                     1%nat CheckIn Scenario.june1
                     (Scenario.june1 + 10 * 3600000) 0%nat
                     (mkAttendance 1 Scenario.june1
                        (Some (Scenario.june1 + 9 * 3600000)) None Present
                        false None)
                     _ _ _ _ _) _ _).
    + reflexivity.
    + exact (proj1 attendance_refusals _
               (reach_record Scenario.evening Scenario.crew ∅
                  (Scenario.clock 1 "checkIn" 9 0) reach_empty)).
    + reflexivity.
    + reflexivity.
    + reflexivity.
    + reflexivity.
    + by eexists.
  - refine (proj1 (proj2 (proj1 (proj2 attendance_refusals)
                     Scenario.evening Scenario.crew Scenario.asha_on_holiday
                     (Scenario.clock 1 "checkOut" 18 0)
                     1%nat CheckOut Scenario.june1
                     (Scenario.june1 + 18 * 3600000) 0%nat
                     (mkAttendance 1 Scenario.june1 None None Holiday true
                        (Some "Public Holiday"))
                     _ _ _ _ _)) _ _).
    + reflexivity.
    + exact (proj1 attendance_refusals _
               (reach_declare Scenario.evening Scenario.crew _
                  (Scenario.holiday_on_june1 None)
                  (reach_record Scenario.evening Scenario.crew ∅
                     (Scenario.clock 1 "checkIn" 9 0) reach_empty))).
    + reflexivity.
    + reflexivity.
    + reflexivity.
    + reflexivity.
    + reflexivity.
  - refine (proj2 (proj2 (proj1 (proj2 attendance_refusals)
                     Scenario.evening Scenario.crew Scenario.asha_out
                     (Scenario.clock 1 "checkOut" 18 30)
                     1%nat CheckOut Scenario.june1
                     (Scenario.june1 + 18 * 3600000 + 30 * 60000) 0%nat
                     (mkAttendance 1 Scenario.june1
                        (Some (Scenario.june1 + 9 * 3600000))
                        (Some (Scenario.june1 + 18 * 3600000)) Present
                        false None)
                     _ _ _ _ _)) _ _ _).
    + reflexivity.
    + exact (proj1 attendance_refusals _
               (reach_record Scenario.evening Scenario.crew _
                  (Scenario.clock 1 "checkOut" 18 0)
                  (reach_record Scenario.evening Scenario.crew ∅
                     (Scenario.clock 1 "checkIn" 9 0) reach_empty))).
    + reflexivity.
    + reflexivity.
    + reflexivity.
    + reflexivity.
    + by eexists.
    + by eexists.
Qed.

(** A check-out for a staff member who has no record on that day skips the
    three checks: it is validated and stored as a record with checkOut
    alone. *)
Lemma first_checkout_accepted env staff att b sid d t :
  resolve_request env staff b = inr (sid, CheckOut, d, t) ->
  (forall i r, att !! i = Some r -> ~ (staffId r = sid /\ date r = d)) ->
  t <= now env ->
  let r := mkAttendance sid d None (Some t) Present false None in
  recordAttendance env staff att b =
  (Json 200 (fresh (dom att), r), <[fresh (dom att) := r]> att).
Proof.
  intros Hreq Hnone Hle r. unfold recordAttendance. rewrite Hreq.
  unfold record_action.
  assert (Mongo.findOne (on_day sid d) att = None) as ->.
  { apply findOne_None. intros i r' Hi.
    destruct (on_day sid d i r') eqn:Hq; [|done].
    apply on_day_true in Hq. by destruct (Hnone i r' Hi). }
  assert (validate env CheckOut
            (set_action (new_attendance sid d) CheckOut t) = true) as ->.
  { unfold validate, checkIn_valid, checkOut_valid. simpl.
    rewrite (proj2 (Z.leb_le t (now env)) Hle). by destruct (validateModifiedOnly env). }
  rewrite insertOne_free; [done|].
  intros j r' Hj Hk. apply (Hnone j r' Hj).
  unfold day_key in Hk. simpl in Hk. by injection Hk.
Qed.

(** C7. The state machine is not enforced on the first action of a day.
    Asha has no record for 1 June; her check-out at 08:00 is not answered
    INVALID_STATE: the reply is 200 and a record with checkOut alone is
    stored.  On that record a second check-out is answered INVALID_STATE,
    not ALREADY_DONE, although checkOut is set. *)
Theorem C7_first_checkout_is_accepted :
  Ledger.recordAttendance Scenario.evening Scenario.crew ∅
    (Scenario.clock 1 "checkOut" 8 0) =
    (Json 200 (0%nat, mkAttendance 1 Scenario.june1 None
                        (Some (Scenario.june1 + 8 * 3600000)) Present false None),
     Scenario.asha_early_out) /\
  Scenario.asha_early_out =
    {[ 0%nat := mkAttendance 1 Scenario.june1 None
                  (Some (Scenario.june1 + 8 * 3600000)) Present false None ]} /\
  Ledger.recordAttendance Scenario.evening Scenario.crew Scenario.asha_early_out
    (Scenario.clock 1 "checkOut" 18 0) =
    (Fail 400 CheckOutWithoutCheckIn, Scenario.asha_early_out) /\
  kind CheckOutWithoutCheckIn = INVALID_STATE.
Proof. by vm_compute. Qed.

(** *** Check-out against check-in, and working hours *)





Lemma checkout_after_checkin_insert att i r :
  (forall ci co, checkIn r = Some ci -> checkOut r = Some co -> ci <= co) ->
  checkout_after_checkin att -> checkout_after_checkin (<[i := r]> att).
Proof.
  intros Hr Hord j r' ci co Hj. destruct (decide (j = i)) as [->|Hne].
  - rewrite lookup_insert_eq in Hj. injection Hj as <-. apply Hr.
  - rewrite lookup_insert_ne in Hj by done. by apply (Hord j).
Qed.




(** The check-out at 18:00 is then accepted, and the working hours of the
    record are "9.00". *)
Lemma checkout_at_18_gives_9_hours :
  let r := mkAttendance 1 Scenario.june1 (Some (Scenario.june1 + 9 * 3600000))
             (Some (Scenario.june1 + 18 * 3600000)) Present false None in
  Ledger.recordAttendance Scenario.evening Scenario.crew Scenario.asha_in
    (Scenario.clock 1 "checkOut" 18 0) = (Json 200 (0%nat, r), {[ 0%nat := r ]}) /\
  workingHours r = Hours "9.00".
Proof. by vm_compute. Qed.

(** After a first check-out at 08:00 that created the record, a check-in
    at 09:00 would leave checkOut before checkIn.  [save()] refuses it when
    it validates every path of the document, which is what the source gets
    by default; it would store it if only the modified path were
    validated. *)
Lemma late_checkin_after_first_checkout :
  Ledger.recordAttendance Scenario.evening Scenario.crew
    Scenario.asha_early_out (Scenario.clock 1 "checkIn" 9 0) =
    (Fail 400 ValidationFailed, Scenario.asha_early_out) /\
  is_success
    (fst (Ledger.recordAttendance Scenario.evening_modified_only Scenario.crew
            Scenario.asha_early_out (Scenario.clock 1 "checkIn" 9 0))) = true.
Proof. by vm_compute. Qed.

(** *** Holidays *)

Lemma active_ids staff sid :
  In sid (List.map fst (activeStaff staff)) <-> is_active staff sid = true.
Proof.
  unfold activeStaff, is_active. rewrite List.in_map_iff. split.
  - intros [[i s] [<- Hin]]. apply elem_of_find in Hin as [Hl Hact].
    simpl. by rewrite Hl.
  - destruct (staff !! sid) as [s|] eqn:Hl; [|discriminate]. intros Hact.
    exists (sid, s). split; [done|]. by apply elem_of_find.
Qed.

(** An upsert writes the holiday record at the id of the record the staff
    member had on that day, or at an unused id. *)
Lemma upsert_holiday_at d n att sid :
  exists i,
    upsert_holiday d n att sid = <[i := holiday_record sid d n]> att /\
    (forall r, att !! i = Some r -> staffId r = sid /\ date r = d).
Proof.
  unfold upsert_holiday.
  destruct (Mongo.findOne (on_day sid d) att) as [[i r]|] eqn:Hf.
  - apply findOne_Some in Hf as [Hl Hq]. apply on_day_true in Hq as [Hs Hd].
    exists i. split.
    + unfold set_holiday, holiday_record. by rewrite Hs, Hd.
    + intros r' Hr'. rewrite Hl in Hr'. by injection Hr' as <-.
  - exists (fresh (dom att)). split; [done|].
    intros r Hr. by rewrite fresh_id_free in Hr.
Qed.


Lemma bulk_upsert_keeps d n sids : forall att j r,
  att !! j = Some r -> ~ (date r = d /\ In (staffId r) sids) ->
  List.fold_left (upsert_holiday d n) sids att !! j = Some r.
Proof.
  induction sids as [|s sids IH]; intros att j r Hl Hnot; simpl; [done|].
  apply IH; [|intros [Hd Hin]; apply Hnot; split; [done|by right]].
  destruct (upsert_holiday_at d n att s) as (i & -> & Hi).
  rewrite lookup_insert_ne; [done|]. intros ->.
  destruct (Hi r Hl) as [Hs Hd]. apply Hnot. split; [done|by left].
Qed.

Lemma bulk_upsert_covers d n sids : forall att sid,
  In sid sids ->
  exists i, List.fold_left (upsert_holiday d n) sids att !! i =
            Some (holiday_record sid d n).
Proof.
  induction sids as [|s sids IH]; intros att sid Hin; [done|]. simpl.
  destruct (in_dec Nat.eq_dec sid sids) as [Hlater|Hlast]; [by apply IH|].
  destruct Hin as [->|Hin]; [|done].
  destruct (upsert_holiday_at d n att sid) as (i & -> & _).
  exists i. apply bulk_upsert_keeps; [by rewrite lookup_insert_eq|].
  by intros [_ Hin].
Qed.

Lemma bulk_upsert_origin d n sids : forall att j r',
  List.fold_left (upsert_holiday d n) sids att !! j = Some r' ->
  (exists sid, In sid sids /\ r' = holiday_record sid d n) \/ att !! j = Some r'.
Proof.
  induction sids as [|s sids IH]; intros att j r' Hl; simpl in Hl; [by right|].
  destruct (IH _ _ _ Hl) as [(sid & Hin & ->)|Hl'].
  - left. exists sid. split; [by right|done].
  - destruct (upsert_holiday_at d n att s) as (i & Heq & _).
    rewrite Heq in Hl'. destruct (decide (j = i)) as [->|Hne].
    + rewrite lookup_insert_eq in Hl'. injection Hl' as <-.
      left. exists s. split; [by left|done].
    + rewrite lookup_insert_ne in Hl' by done. by right.
Qed.




Lemma with_notes_same r n : same_but_notes r (with_notes n r).
Proof. by repeat split. Qed.


Lemma declareHoliday_ordered env staff att b :
  checkout_after_checkin att ->
  checkout_after_checkin (snd (declareHoliday env staff att b)).
Proof.
  intros Hord. unfold declareHoliday.
  destruct (h_date b) as [| |d]; [done|done|].
  destruct (d <? getCurrentUTCDate env); [done|]. simpl.
  generalize (List.map fst (activeStaff staff)). intros sids.
  revert att Hord. induction sids as [|sid sids IH]; intros att Hord; [done|].
  simpl. apply IH.
  destruct (upsert_holiday_at d (notes_or_default (h_notes b)) att sid)
    as (i & -> & _).
  apply checkout_after_checkin_insert; [|done]. discriminate.
Qed.

Lemma declareHoliday_accepted env staff att b d :
  h_date b = DateOk d -> getCurrentUTCDate env <= d ->
  declareHoliday env staff att b =
  (Json 200 {| hd_date := d; hd_staffCount := length (activeStaff staff) |},
   List.fold_left (upsert_holiday d (notes_or_default (h_notes b)))
     (List.map fst (activeStaff staff)) att).
Proof.
  intros Hd Hle. unfold declareHoliday. rewrite Hd.
  by rewrite (proj2 (Z.ltb_ge d (getCurrentUTCDate env)) Hle).
Qed.

Lemma declareHoliday_covers env staff att b d sid :
  h_date b = DateOk d -> getCurrentUTCDate env <= d ->
  is_active staff sid = true ->
  exists i, snd (declareHoliday env staff att b) !! i =
            Some (holiday_record sid d (notes_or_default (h_notes b))).
Proof.
  intros Hd Hle Hact. rewrite (declareHoliday_accepted env staff att b d Hd Hle).
  simpl. by apply bulk_upsert_covers, active_ids.
Qed.




End LedgerFacts.

(** ** Appointments: the four writes together *)

Section DeskFacts.

Import Appointments Desk.

Lemma written_refl db : written db db.
Proof. repeat split; auto. Qed.

Lemma save_written db i a a' :
  appointments db !! i = Some a -> booking_of a' = booking_of a ->
  written db (snd (save db i a')).
Proof.
  intros Hl Hb. unfold save.
  destruct (Mongo.updateOne slot_key i a' (appointments db)) as [ap|] eqn:Hu;
    simpl; [|apply written_refl].
  repeat split; auto. right. right. exists i, a, a'. auto.
Qed.

Lemma new_appointment_services_or_combo now user b d t :
  no_services (b_services b) && negb (is_set (b_combo b)) = false ->
  services_or_combo (new_appointment now user b d t).
Proof.
  intros H. unfold services_or_combo, new_appointment. simpl.
  destruct (b_combo b) as [c|]; [left; eauto|].
  right. split; [done|].
  simpl in H. rewrite andb_true_r in H.
  destruct (b_services b) as [[|x l]|]; simpl in *; discriminate.
Qed.

Lemma handle_written db r : written db (snd (handle db r)).
Proof.
  destruct r as [now user b|id s|id user|id b]; simpl.
  - unfold createAppointment.
    destruct (b_appointmentDate b) as [d|]; [|apply written_refl].
    destruct (parse_timeSlot (b_timeSlot b)) as [t|]; [|apply written_refl].
    destruct (no_services (b_services b) && negb (is_set (b_combo b))) eqn:Hs;
      [apply written_refl|].
    destruct (Mongo.findOne _ _); [apply written_refl|].
    destruct (check_catalog db b); [apply written_refl|].
    destruct (Mongo.insertOne _ _ _) as [[i ap]|] eqn:Hi; [|apply written_refl].
    simpl. repeat split; auto. right. left.
    exists (new_appointment now user b d t), i.
    split; [by apply new_appointment_services_or_combo|done].
  - unfold updateAppointmentStatus.
    destruct (appointments db !! id) as [a|] eqn:Hl; [|apply written_refl].
    by apply (save_written db id a).
  - unfold cancelAppointment. rewrite cancel_lookup.
    destruct (appointments db !! id) as [a|] eqn:Hl; [|apply written_refl].
    destruct (Nat.eqb (customer a) user); [|apply written_refl].
    destruct (is_closed (status a)); [apply written_refl|].
    by apply (save_written db id a).
  - unfold rescheduleAppointment.
    destruct (r_appointmentDate b) as [d|]; [|apply written_refl].
    destruct (parse_timeSlot (r_timeSlot b)) as [t|]; [|apply written_refl].
    destruct (appointments db !! id) as [a|] eqn:Hl; [|apply written_refl].
    destruct (is_closed (status a)); [apply written_refl|].
    destruct (Mongo.findOne _ _); [apply written_refl|].
    by apply (save_written db id a).
Qed.

Lemma unique_blocks ap :
  Mongo.unique_on slot_key ap -> one_booking_per_slot ap.
Proof.
  intros Hu i j a b Hi Hj _ _ Hd Ht. apply (Hu i j a b Hi Hj).
  unfold slot_key. congruence.
Qed.

Lemma written_unique db db' :
  written db db' ->
  Mongo.unique_on slot_key (appointments db) ->
  Mongo.unique_on slot_key (appointments db').
Proof.
  intros (_ & _ & [-> | [(a & i & _ & Hi) | (i & a & a' & _ & _ & Hu)]]) H;
    [done| |].
  - by apply (insertOne_unique _ _ _ _ _ Hi).
  - by apply (updateOne_unique _ _ _ _ _ Hu).
Qed.

Lemma serve_app db rs r :
  serve db (rs ++ [r]) = snd (handle (serve db rs) r).
Proof. unfold serve. by rewrite fold_left_app. Qed.

(** X1. Whatever sequence of Create, UpdateStatus, Cancel and Reschedule
    requests is served from an empty appointment collection, no two
    appointments share a date and a time slot, whatever their statuses;
    in particular no two pending or confirmed ones do, also when
    UpdateStatus sets statuses freely. *)
Theorem X1_one_appointment_per_slot
    (sc : gmap nat Service) (cc : gmap nat Combo) (rs : list Request) :
  Mongo.unique_on slot_key (appointments (serve (mkDb ∅ sc cc) rs)) /\
  one_booking_per_slot (appointments (serve (mkDb ∅ sc cc) rs)).
Proof.
  assert (Mongo.unique_on slot_key (appointments (serve (mkDb ∅ sc cc) rs))) as H.
  { induction rs as [|r rs IH] using rev_ind.
    - intros i j a b Hi. simpl in Hi. by rewrite lookup_empty in Hi.
    - rewrite serve_app. by apply (written_unique _ _ (handle_written _ r)). }
  split; [done|by apply unique_blocks].
Qed.

Lemma written_services_or_combo db db' :
  written db db' ->
  (forall i a, appointments db !! i = Some a -> services_or_combo a) ->
  forall i a, appointments db' !! i = Some a -> services_or_combo a.
Proof.
  intros (_ & _ & [-> | [(a & i & Ha & Hi) | (i & a & a' & Hl & Hb & Hu)]]) H j x Hj;
    [eauto| |].
  - apply insertOne_Some in Hi as (_ & Hap & _). rewrite Hap in Hj.
    destruct (decide (j = i)) as [->|Hne].
    + rewrite lookup_insert_eq in Hj. by injection Hj as <-.
    + rewrite lookup_insert_ne in Hj by done. eauto.
  - apply (updateOne_Some _ _ _ _ _ _ Hl) in Hu. rewrite Hu in Hj.
    destruct (decide (j = i)) as [->|Hne].
    + rewrite lookup_insert_eq in Hj. injection Hj as <-.
      specialize (H _ _ Hl). unfold services_or_combo, booking_of in *.
      injection Hb as _ Hs Hco _ _. by rewrite Hs, Hco.
    + rewrite lookup_insert_ne in Hj by done. eauto.
Qed.

(** X2. Every appointment of a collection built by Create, UpdateStatus,
    Cancel and Reschedule requests from the empty one holds either a combo
    and no service, or at least one service and no combo. *)
Theorem X2_services_or_combo
    (sc : gmap nat Service) (cc : gmap nat Combo) (rs : list Request) :
  forall i a,
    appointments (serve (mkDb ∅ sc cc) rs) !! i = Some a -> services_or_combo a.
Proof.
  induction rs as [|r rs IH] using rev_ind.
  - intros i a Hi. simpl in Hi. by rewrite lookup_empty in Hi.
  - rewrite serve_app. by apply (written_services_or_combo _ _ (handle_written _ r)).
Qed.

(** X3. No request removes an appointment or rewrites the booking it was
    made with: after any Create, UpdateStatus, Cancel or Reschedule, every
    appointment that was stored is still stored under its id, with the
    customer, services, combo, notes and creation time it had; and the
    catalogs are as they were. *)
Theorem X3_bookings_are_kept (db : Db) (r : Request) (i : nat) (a : Appointment) :
  appointments db !! i = Some a ->
  let db' := snd (handle db r) in
  (exists a', appointments db' !! i = Some a' /\ booking_of a' = booking_of a) /\
  serviceCatalog db' = serviceCatalog db /\
  comboCatalog db' = comboCatalog db.
Proof.
  intros Hl db'. subst db'.
  destruct (handle_written db r) as (Hs & Hc & Hw). split; [|done].
  destruct Hw as [-> | [(x & j & _ & Hi) | (j & x & x' & Hj & Hb & Hu)]]; [eauto| |].
  - apply insertOne_Some in Hi as (Hfree & -> & _).
    exists a. split; [|done]. rewrite lookup_insert_ne; [done|congruence].
  - apply (updateOne_Some _ _ _ _ _ _ Hj) in Hu. rewrite Hu.
    destruct (decide (i = j)) as [->|Hne].
    + rewrite lookup_insert_eq. exists x'. split; [done|]. congruence.
    + rewrite lookup_insert_ne by done. eauto.
Qed.

(** X4. Create after a successful Create for the same date and slot is
    refused with CONFLICT, whoever asks and whatever is selected, and
    changes nothing. *)
Theorem X4_second_create_conflicts
    (now now2 : Z) (db db1 : Db) (user user2 code i : nat) (a : Appointment)
    (b b2 : CreateBody) :
  createAppointment now db user b = (Json code (i, a), db1) ->
  b_appointmentDate b2 = b_appointmentDate b ->
  b_timeSlot b2 = b_timeSlot b ->
  no_services (b_services b2) = false \/ is_Some (b_combo b2) ->
  createAppointment now2 db1 user2 b2 = (Fail 400 SlotAlreadyBooked, db1) /\
  kind SlotAlreadyBooked = CONFLICT.
Proof.
  intros H Hd Ht Hsel. split; [|done].
  unfold createAppointment in *. rewrite Hd, Ht.
  destruct (b_appointmentDate b) as [d|]; [|discriminate].
  destruct (parse_timeSlot (b_timeSlot b)) as [t|]; [|discriminate].
  destruct (no_services (b_services b) && negb (is_set (b_combo b)));
    [discriminate|].
  destruct (Mongo.findOne _ (appointments db)); [discriminate|].
  destruct (check_catalog db b); [discriminate|].
  destruct (Mongo.insertOne _ _ _) as [[j ap]|] eqn:Hi; [|discriminate].
  injection H as _ <- <- <-.
  apply insertOne_Some in Hi as (_ & -> & _).
  assert (no_services (b_services b2) && negb (is_set (b_combo b2)) = false)
    as ->.
  { destruct Hsel as [->|[c ->]]; [done|]. simpl. apply andb_false_r. }
  simpl.
  destruct (Mongo.findOne (occupies d t) _) as [[k x]|] eqn:Hf; [done|].
  pose proof (proj1 (findOne_None _ _) Hf j (new_appointment now user b d t)
                (lookup_insert_eq _ _ _)) as Hq.
  unfold occupies in Hq. simpl in Hq.
  by rewrite !bool_decide_eq_true_2 in Hq.
Qed.

Lemma NoDup_find_ids {D} (q : nat -> D -> bool) (c : gmap nat D) :
  List.NoDup (List.map fst (Mongo.find q c)).
Proof.
  apply NoDup_ListNoDup. apply NoDup_fmap_2_strong.
  - intros [i d] [j d'] Hi Hj Hij. simpl in Hij. subst j.
    apply list_elem_of_In, elem_of_find in Hi as [Hi _].
    apply list_elem_of_In, elem_of_find in Hj as [Hj _]. congruence.
  - apply NoDup_ListNoDup, NoDup_find.
Qed.

Lemma existsb_eqb_In i (l : list nat) : existsb (Nat.eqb i) l = true <-> In i l.
Proof.
  rewrite existsb_exists. split.
  - intros (x & Hx & He). apply Nat.eqb_eq in He. by subst.
  - intros Hi. exists i. split; [done|apply Nat.eqb_refl].
Qed.

(** X5. The count by which Create checks a list of services: it passes
    exactly when every id of the list is that of an active service and no
    id occurs twice; otherwise the reply is [ServicesNotAvailable]. *)
Theorem X5_services_check (db : Db) (b : CreateBody) (ss : list nat) :
  b_combo b = None -> b_services b = Some ss ->
  (check_catalog db b = None <->
   List.NoDup ss /\
   forall i, In i ss ->
     exists s, serviceCatalog db !! i = Some s /\ s_isActive s = true) /\
  (check_catalog db b = None \/ check_catalog db b = Some ServicesNotAvailable).
Proof.
  intros Hc Hs. unfold check_catalog. rewrite Hc, Hs. simpl.
  unfold Mongo.countDocuments.
  set (q := fun (i : nat) (s : Service) => existsb (Nat.eqb i) ss && s_isActive s).
  set (ids := List.map fst (Mongo.find q (serviceCatalog db))).
  assert (length (Mongo.find q (serviceCatalog db)) = length ids) as ->
    by (unfold ids; by rewrite length_map).
  assert (List.NoDup ids) as Hnd by apply NoDup_find_ids.
  assert (forall i, In i ids <->
            In i ss /\ exists s, serviceCatalog db !! i = Some s /\
                                 s_isActive s = true) as Hids.
  { intros i. unfold ids. rewrite in_map_iff. split.
    - intros ([j s] & <- & Hin). apply elem_of_find in Hin as [Hl Hq].
      unfold q in Hq. apply andb_true_iff in Hq as [Hi Ha].
      apply existsb_eqb_In in Hi. simpl. eauto.
    - intros (Hi & s & Hl & Ha). exists (i, s). split; [done|].
      apply elem_of_find. split; [done|]. unfold q.
      by rewrite (proj2 (existsb_eqb_In i ss) Hi), Ha. }
  assert (incl ids ss) as Hincl by (intros i Hi; by apply Hids).
  split; [|destruct (Nat.eqb _ _); auto].
  destruct (Nat.eqb (length ids) (length ss)) eqn:He.
  - apply Nat.eqb_eq in He. split; [intros _|done]. split.
    + apply (List.NoDup_incl_NoDup Hnd); [lia|done].
    + intros i Hi. apply Hids.
      refine (List.NoDup_length_incl Hnd _ Hincl i Hi). lia.
  - apply Nat.eqb_neq in He. split; [done|]. intros [Hss Hall]. exfalso.
    apply He. apply Permutation_length.
    apply Permutation.NoDup_Permutation; [done|done|].
    intros i. split; [by apply Hincl|]. intros Hi. apply Hids. auto.
Qed.

(** X6. UpdateStatus replies 404 for an unknown id; for a stored
    appointment it is never refused: whatever the status the appointment
    has and whatever the status asked for (a cancelled or completed
    appointment can be made pending again), the reply is 200, the
    appointment gets the status, and nothing else changes. *)
Theorem X6_update_status (db : Db) (id : nat) (s : Status) :
  (appointments db !! id = None ->
   updateAppointmentStatus db id s = (Fail 404 AppointmentNotFound, db) /\
   kind AppointmentNotFound = NOT_FOUND) /\
  (forall a, appointments db !! id = Some a ->
   updateAppointmentStatus db id s =
   (Json 200 (id, set_status a s),
    with_appointments db (<[id := set_status a s]> (appointments db))) /\
   status (set_status a s) = s /\
   booking_of (set_status a s) = booking_of a /\
   slot_key (set_status a s) = slot_key a).
Proof.
  unfold updateAppointmentStatus. split.
  - by intros ->.
  - intros a Hl. rewrite Hl. split; [|done]. by apply (save_same_key db id _ a).
Qed.

(** X7. Cancel works once: after a Cancel that succeeded, the same Cancel
    is refused with INVALID_STATE, and so is every Reschedule of that
    appointment; both leave the collection as it is. *)
Theorem X7_cancel_once (db db1 : Db) (id user code : nat)
    (r : nat * Appointment) :
  cancelAppointment db id user = (Json code r, db1) ->
  cancelAppointment db1 id user = (Fail 400 (CannotCancel cancelled), db1) /\
  (forall d t,
     rescheduleAppointment db1 id (mkRescheduleBody (Some d) (timeSlot_string t)) =
     (Fail 400 (CannotReschedule cancelled), db1)) /\
  kind (CannotCancel cancelled) = INVALID_STATE /\
  kind (CannotReschedule cancelled) = INVALID_STATE.
Proof.
  intros H. unfold cancelAppointment in H. rewrite cancel_lookup in H.
  destruct (appointments db !! id) as [a|] eqn:Hl; [|discriminate].
  destruct (Nat.eqb (customer a) user) eqn:Hu; [|discriminate].
  destruct (is_closed (status a)); [discriminate|].
  rewrite (save_same_key db id (set_status a cancelled) a Hl eq_refl) in H. injection H as _ _ <-.
  assert (appointments
            (with_appointments db (<[id := set_status a cancelled]> (appointments db)))
          !! id = Some (set_status a cancelled)) as Hl'
    by apply lookup_insert_eq.
  split; [|split; [|done]].
  - unfold cancelAppointment. rewrite cancel_lookup, Hl'. simpl. by rewrite Hu.
  - intros d t. unfold rescheduleAppointment. simpl r_appointmentDate.
    simpl r_timeSlot. rewrite parse_timeSlot_string, Hl'. done.
Qed.

Lemma insert_sorted_Permutation {A} (le : A -> A -> bool) x l :
  Permutation (insert_sorted le x l) (x :: l).
Proof.
  induction l as [|y l IH]; simpl; [done|].
  destruct (le x y); [done|]. rewrite IH. apply perm_swap.
Qed.

Lemma sort_by_Permutation {A} (le : A -> A -> bool) l :
  Permutation (sort_by le l) l.
Proof.
  induction l as [|x l IH]; simpl; [done|].
  unfold sort_by in *. simpl. rewrite insert_sorted_Permutation. by constructor.
Qed.

Lemma In_sort_by {A} (le : A -> A -> bool) l x :
  In x (sort_by le l) <-> In x l.
Proof.
  split; apply Permutation_in; [|symmetry]; apply sort_by_Permutation.
Qed.

Lemma NoDup_sort_by {A} (le : A -> A -> bool) l :
  List.NoDup l -> List.NoDup (sort_by le l).
Proof.
  apply Permutation_NoDup. symmetry. apply sort_by_Permutation.
Qed.

Lemma Sorted_weaken {A} (R R' : A -> A -> Prop) l :
  (forall x y, R x y -> R' x y) -> Sorted R l -> Sorted R' l.
Proof.
  intros HR Hl. induction Hl as [|x l Hl IH Hhd]; constructor; [done|].
  destruct Hhd; constructor. auto.
Qed.

Lemma slot_leb_total x y : slot_leb x y = false -> slot_leb y x = true.
Proof.
  unfold slot_leb. intros H.
  destruct (String.leb_total (timeSlot_string (timeSlot (snd x)))
              (timeSlot_string (timeSlot (snd y)))); congruence.
Qed.

(** X8. GetMyAppointments lists exactly the stored appointments whose
    customer is the caller, each once, the latest day first. *)
Theorem X8_my_appointments (db : Db) (user : nat) :
  (forall i a, In (i, a) (getMyAppointments db user) <->
               appointments db !! i = Some a /\ customer a = user) /\
  List.NoDup (getMyAppointments db user) /\
  Sorted (fun x y => appointmentDate (snd y) <= appointmentDate (snd x))
    (getMyAppointments db user).
Proof.
  unfold getMyAppointments. split; [|split].
  - intros i a. rewrite In_sort_by, elem_of_find, Nat.eqb_eq. done.
  - apply NoDup_sort_by, NoDup_find.
  - apply (Sorted_weaken (fun x y => latest_first x y = true)).
    + intros x y. unfold latest_first. intros H.
      apply orb_true_iff in H as [H|H]; [lia|].
      apply andb_true_iff in H as [H _]. lia.
    + apply sort_by_Sorted. intros x y. unfold latest_first. intros H.
      apply orb_false_iff in H as [H1 H2].
      destruct (Z.ltb_spec (appointmentDate (snd x)) (appointmentDate (snd y)));
        [done|].
      assert (appointmentDate (snd x) = appointmentDate (snd y)) as He by lia.
      rewrite He, Z.eqb_refl in *. simpl in *. by apply slot_leb_total.
Qed.

(** X9. GetAppointments lists exactly the stored appointments that match
    the date and the status asked for, each once, the earliest day first,
    and within a day by the strings of the slots.  A status that is no
    status of the enum matches nothing: the listing is empty. *)
Theorem X9_appointments_filter (db : Db) (date : option Z) (st : option string) :
  (forall i a, In (i, a) (getAppointments db date st) <->
               appointments db !! i = Some a /\ matches date st i a = true) /\
  List.NoDup (getAppointments db date st) /\
  Sorted (fun x y => earliest_first x y = true) (getAppointments db date st) /\
  (forall s, st = Some s -> s <> "" -> (forall x, status_string x <> s) ->
             getAppointments db date st = []).
Proof.
  unfold getAppointments. split; [|split; [|split]].
  - intros i a. by rewrite In_sort_by, elem_of_find.
  - apply NoDup_sort_by, NoDup_find.
  - apply sort_by_Sorted. intros x y. unfold earliest_first. intros H.
    apply orb_false_iff in H as [H1 H2].
    destruct (Z.ltb_spec (appointmentDate (snd y)) (appointmentDate (snd x)));
      [done|].
    assert (appointmentDate (snd x) = appointmentDate (snd y)) as He by lia.
    rewrite He, Z.eqb_refl in *. simpl in *. by apply slot_leb_total.
  - intros s -> Hs Hno.
    destruct (sort_by _ _) as [|[i a] l] eqn:Hl; [done|]. exfalso.
    assert (In (i, a) (sort_by earliest_first
                         (Mongo.find (matches date (Some s)) (appointments db))))
      as Hin by (rewrite Hl; by left).
    apply In_sort_by, elem_of_find in Hin as [_ Hm].
    unfold matches in Hm. apply andb_true_iff in Hm as [_ Hm].
    apply orb_true_iff in Hm as [Hm|Hm]; apply String.eqb_eq in Hm.
    + done.
    + by apply (Hno (status a)).
Qed.

(** X10. Today's listing holds exactly the stored appointments dated
    within the day whose status is pending, confirmed or rescheduled, each
    once and with its total duration; cancelled and completed appointments
    are never listed.  It is ordered by the strings of the slots. *)
Theorem X10_todays_appointments (todayStart todayEnd : Z) (db : Db) :
  (forall i a q,
     In (i, a, q) (getTodaysAppointments todayStart todayEnd db) <->
     appointments db !! i = Some a /\
     todayStart <= appointmentDate a <= todayEnd /\
     (status a = pending \/ status a = confirmed \/ status a = rescheduled) /\
     q = totalDuration db a) /\
  List.NoDup (List.map fst (getTodaysAppointments todayStart todayEnd db)) /\
  Sorted (fun x y => String.leb (timeSlot_string (timeSlot (snd (fst x))))
                                (timeSlot_string (timeSlot (snd (fst y)))) = true)
    (getTodaysAppointments todayStart todayEnd db).
Proof.
  split; [|split; [|apply today_sorted_by_string]];
    unfold getTodaysAppointments.
  - intros i a q. rewrite in_map_iff. split.
    + intros ([j x] & Heq & Hin). injection Heq as -> -> <-.
      apply In_sort_by, elem_of_find in Hin as [Hl Hq].
      apply andb_true_iff in Hq as [Hq Hs]. apply andb_true_iff in Hq as [H1 H2].
      split; [done|]. split; [lia|]. split; [|done].
      destruct (status a); simpl in Hs; try discriminate; auto.
    + intros (Hl & Hr & Hs & ->). exists (i, a). split; [done|].
      apply In_sort_by, elem_of_find. split; [done|].
      rewrite !andb_true_iff. split; [split; lia|].
      by destruct Hs as [->|[->| ->]].
  - rewrite map_map. simpl. rewrite map_id.
    apply NoDup_sort_by, NoDup_find.
Qed.

(** *** The theorems above at concrete requests *)

Lemma X2_witness :
  appointments (serve Scenario.opening Cases.confirmed_booking) !! 0%nat =
    Some (mkAppointment 5 [7%nat] None Scenario.june1 slot_10AM confirmed None 0) /\
  services_or_combo
    (mkAppointment 5 [7%nat] None Scenario.june1 slot_10AM confirmed None 0).
Proof.
  split; [by vm_compute|].
  refine (X2_services_or_combo {[ 7%nat := Scenario.haircut ]} ∅
            Cases.confirmed_booking 0%nat _ _).
  by vm_compute.
Defined.

Lemma X3_witness :
  exists a',
    appointments (snd (handle Scenario.booked (CancelReq 0 5))) !! 0%nat = Some a' /\
    booking_of a' =
    booking_of (mkAppointment 5 [7%nat] None Scenario.june1 slot_10AM pending None 0).
Proof.
  refine (proj1 (X3_bookings_are_kept Scenario.booked (CancelReq 0 5) 0%nat _ _)).
  by vm_compute.
Defined.

Lemma X4_witness :
  createAppointment 1 Scenario.booked 6 (Scenario.book "10:00 AM") =
    (Fail 400 SlotAlreadyBooked, Scenario.booked).
Proof.
  refine (proj1 (X4_second_create_conflicts 0 1 Scenario.opening Scenario.booked
                   5 6 201 0
                   (mkAppointment 5 [7%nat] None Scenario.june1 slot_10AM pending
                      None 0)
                   (Scenario.book "10:00 AM") (Scenario.book "10:00 AM")
                   _ _ _ _)).
  - by vm_compute.
  - reflexivity.
  - reflexivity.
  - left. reflexivity.
Defined.

Lemma X5_witness :
  check_catalog Scenario.opening (Scenario.book "10:00 AM") = None <->
  List.NoDup [7%nat] /\
  forall i, In i [7%nat] ->
    exists s, serviceCatalog Scenario.opening !! i = Some s /\ s_isActive s = true.
Proof.
  refine (proj1 (X5_services_check Scenario.opening (Scenario.book "10:00 AM")
                   [7%nat] _ _)); reflexivity.
Defined.

Lemma X6_witness :
  updateAppointmentStatus Scenario.released 0 pending =
    (Json 200 (0%nat,
               set_status (mkAppointment 5 [7%nat] None Scenario.june1 slot_10AM
                             cancelled None 0) pending),
     with_appointments Scenario.released
       (<[0%nat := set_status (mkAppointment 5 [7%nat] None Scenario.june1
                                 slot_10AM cancelled None 0) pending]>
          (appointments Scenario.released))).
Proof.
  refine (proj1 (proj2 (X6_update_status Scenario.released 0 pending)
                   (mkAppointment 5 [7%nat] None Scenario.june1 slot_10AM
                      cancelled None 0) _)).
  by vm_compute.
Defined.

Lemma X7_witness :
  cancelAppointment Scenario.released 0 5 =
    (Fail 400 (CannotCancel cancelled), Scenario.released).
Proof.
  refine (proj1 (X7_cancel_once Scenario.booked Scenario.released 0 5 200
                   (0%nat, mkAppointment 5 [7%nat] None Scenario.june1 slot_10AM
                             cancelled None 0) _)).
  by vm_compute.
Defined.

Lemma X9_witness : getAppointments Scenario.booked None (Some "done") = [].
Proof.
  refine (proj2 (proj2 (proj2 (X9_appointments_filter Scenario.booked None
                                 (Some "done")))) "done" _ _ _).
  - reflexivity.
  - discriminate.
  - intros []; discriminate.
Defined.


End DeskFacts.

(** ** Combos: creation, activation and removal *)

Section ComboAdminFacts.

Import Combos ComboAdmin.

Lemma validate_from_None cat services : forall i,
  validateAndGetServices_from cat i services = None <->
  Exists (fun it => on_offer cat it = false) services.
Proof.
  induction services as [|svc rest IH]; intros i; simpl.
  - split; [done|]. intros H. inversion H.
  - rewrite Exists_cons. unfold on_offer at 1.
    destruct (cat !! ib_service svc) as [s|]; [|by split; auto].
    destruct (s_isActive s); [|by split; auto].
    specialize (IH (S i)).
    destruct (validateAndGetServices_from cat (S i) rest); split; try done.
    + intros [?|H]; [done|]. by apply IH in H.
    + intros _. right. by apply IH.
Qed.

Lemma validate_from_Some cat services : forall i details,
  validateAndGetServices_from cat i services = Some details ->
  List.map sd_service details = List.map ib_service services /\
  List.map sd_sequence details =
    imap (fun k it => sequence_or (ib_sequence it) (i + k)) services /\
  List.map sd_price details = List.map (listed_price cat) services /\
  Forall (fun d => member_price cat (cast_item d) = sd_price d) details.
Proof.
  induction services as [|svc rest IH]; intros i details; simpl.
  - intros [= <-]. by repeat split.
  - unfold listed_price at 1.
    destruct (cat !! ib_service svc) as [s|] eqn:Hs; [|done].
    destruct (s_isActive s); [|done].
    destruct (validateAndGetServices_from cat (S i) rest) as [ds|] eqn:Hv; [|done].
    intros [= <-]. destruct (IH _ _ Hv) as (H1 & H2 & H3 & H4). simpl.
    rewrite H1, H2, H3, Nat.add_0_r. repeat split.
    + f_equal. apply imap_ext. intros k x _. simpl. f_equal. lia.
    + constructor; [|done]. unfold member_price. simpl. by rewrite Hs.
Qed.

Lemma fold_prices_details cat services : forall i details acc,
  validateAndGetServices_from cat i services = Some details ->
  List.fold_left (fun sum s => (sum + sd_price s)%Qc) details acc =
  List.fold_left (fun sum it => (sum + listed_price cat it)%Qc) services acc.
Proof.
  induction services as [|svc rest IH]; intros i details acc; simpl.
  - by intros [= <-].
  - unfold listed_price at 2.
    destruct (cat !! ib_service svc) as [s|] eqn:Hs; [|done].
    destruct (s_isActive s); [|done].
    destruct (validateAndGetServices_from cat (S i) rest) as [ds|] eqn:Hv; [|done].
    intros [= <-]. simpl. by apply (IH (S i)).
Qed.

Lemma fold_prices_nonneg cat services : forall acc,
  (Q2Qc 0 <= acc)%Qc ->
  Forall (fun it => (Q2Qc 0 <= listed_price cat it)%Qc) services ->
  (Q2Qc 0 <=
   List.fold_left (fun sum it => (sum + listed_price cat it)%Qc) services acc)%Qc.
Proof.
  induction services as [|svc rest IH]; intros acc Hacc Hall; simpl; [done|].
  apply Forall_cons in Hall as [H1 H2]. apply IH; [|done].
  by apply Qcplus_nonneg_nonneg.
Qed.




Lemma discounted_none t :
  (Q2Qc 0 <= t)%Qc -> Qc_max (Q2Qc 0) (t - t * Q2Qc 0 / Q2Qc 100)%Qc = t.
Proof.
  intros Ht.
  replace (t - t * Q2Qc 0 / Q2Qc 100)%Qc with t by (unfold Qcdiv; ring).
  unfold Qc_max. destruct (Qclt_le_dec _ _); [done|]. by apply Qcle_antisym.
Qed.


Lemma valid_create_services b :
  valid_create b = true ->
  exists services, n_services b = Some services /\ services <> [].
Proof.
  unfold valid_create. intros H.
  apply andb_true_iff in H as [H _]. apply andb_true_iff in H as [H _].
  apply andb_true_iff in H as [_ H].
  destruct (n_services b) as [[|x l]|]; try discriminate. by exists (x :: l).
Qed.

Lemma default_sequences services : forall i,
  Forall (fun it => ib_sequence it = None) services ->
  imap (fun k it => sequence_or (ib_sequence it) (i + k)) services =
  seq (i + 1) (length services).
Proof.
  induction services as [|svc rest IH]; intros i Hall; simpl; [done|].
  apply Forall_cons in Hall as [H1 H2]. rewrite H1. simpl.
  rewrite Nat.add_0_r. f_equal.
  specialize (IH (S i) H2). simpl in IH. rewrite <- IH. apply imap_ext. intros k x _. simpl. f_equal. lia.
Qed.

(** X11. CreateCombo with a body the route accepts: when a service of the
    list is missing from the catalog or inactive, the reply is 500 and no
    combo is stored; otherwise the reply is 201 and one combo is added
    under an id that was free, every other combo staying as it was.  The
    new combo is active and holds the services of the request in their
    order, each with the sequence sent, or with its position (from 1) when
    none or 0 was sent: 1, 2, ... when no service came with a sequence. *)
Theorem X11_create_combo (cat : gmap nat Service) (combos : gmap nat Combo)
    (b : NewCombo) (services : list ItemBody) :
  valid_create b = true -> n_services b = Some services ->
  (Exists (fun it => on_offer cat it = false) services ->
   createCombo cat combos b = (Fail 500 ServerError, combos)) /\
  (Forall (fun it => on_offer cat it = true) services ->
   exists id c,
     createCombo cat combos b = (Json 201 (id, c), <[id := c]> combos) /\
     combos !! id = None /\
     c_isActive c = true /\
     List.map ci_service (c_services c) = List.map ib_service services /\
     List.map ci_sequence (c_services c) =
       imap (fun k it => sequence_or (ib_sequence it) k) services /\
     (Forall (fun it => ib_sequence it = None) services ->
      List.map ci_sequence (c_services c) = seq 1 (length services))).
Proof.
  intros Hv Hs. unfold createCombo. rewrite Hv, Hs. simpl.
  unfold validateAndGetServices. split.
  - intros Hex. apply (validate_from_None cat services 0%nat) in Hex.
    by rewrite Hex.
  - intros Hall.
    destruct (validateAndGetServices_from cat 0 services) as [details|] eqn:Hd.
    + destruct (validate_from_Some _ _ _ _ Hd) as (H1 & H2 & _ & _).
      eexists _, _. split; [done|]. split; [apply fresh_id_free|].
      simpl.
      replace (List.map ci_service (List.map cast_item details))
        with (List.map sd_service details) by (by rewrite map_map).
      replace (List.map ci_sequence (List.map cast_item details))
        with (List.map sd_sequence details) by (by rewrite map_map).
      split; [done|]. split; [done|]. rewrite H2. split; [done|].
      intros Hnone. by apply default_sequences.
    + apply validate_from_None in Hd. apply Exists_exists in Hd as (x & Hx & Hf).
      rewrite Forall_forall in Hall.
      apply Hall in Hx. congruence.
Qed.



Lemma sum_member_prices cat details : forall acc,
  Forall (fun d => member_price cat (cast_item d) = sd_price d) details ->
  List.fold_left (fun sum it => (sum + member_price cat it)%Qc)
    (List.map cast_item details) acc =
  List.fold_left (fun sum s => (sum + sd_price s)%Qc) details acc.
Proof.
  induction details as [|d details IH]; intros acc Hall; simpl; [done|].
  apply Forall_cons in Hall as [H1 H2]. rewrite H1. by apply IH.
Qed.

(** X13. An update that sends nothing, right after CreateCombo, leaves
    the combo as it was created, provided no service of the combo has a
    negative price: the price UpdateCombo computes again from the catalog
    is the one CreateCombo stored. *)
Theorem X13_create_then_empty_update (cat : gmap nat Service)
    (combos combos' : gmap nat Combo) (b : NewCombo) (services : list ItemBody)
    (code id : nat) (c : Combo) :
  n_services b = Some services ->
  Forall (fun it => (Q2Qc 0 <= listed_price cat it)%Qc) services ->
  createCombo cat combos b = (Json code (id, c), combos') ->
  updateCombo cat combos' id no_change = (Json 200 c, combos').
Proof.
  intros Hs Hall H. unfold createCombo in H.
  destruct (valid_create b) eqn:Hv; [|discriminate]. simpl in H.
  rewrite Hs in H. simpl in H.
  destruct (validateAndGetServices cat services) as [details|] eqn:Hd;
    [|discriminate].
  injection H as _ <- <- <-.
  unfold updateCombo. simpl. rewrite lookup_insert_eq. simpl.
  rewrite insert_insert_eq.
  rewrite calculatePrice_populate. unfold discounted, sum_prices.
  destruct (validate_from_Some _ _ _ _ Hd) as (_ & _ & _ & Hm).
  rewrite (sum_member_prices _ _ _ Hm).
  set (t := List.fold_left (fun sum s => (sum + sd_price s)%Qc) details (Q2Qc 0)).
  assert (Q2Qc 0 <= t)%Qc as Ht.
  { unfold t. rewrite (fold_prices_details _ _ _ _ _ Hd).
    by apply fold_prices_nonneg. }
  assert (Qc_max (Q2Qc 0)
            (t - t * default (Q2Qc 0) (num_or (n_discount b) (Some (Q2Qc 0)))
                 / Q2Qc 100)%Qc = finalPrice t (n_discount b)) as ->; [|done].
  unfold finalPrice, num_or. destruct (n_discount b) as [x|]; simpl.
  - case_bool_decide; simpl; [by apply discounted_none|done].
  - by apply discounted_none.
Qed.

Lemma toggled_twice c : toggled (toggled c) = c.
Proof. destruct c. unfold toggled. simpl. by rewrite negb_involutive. Qed.

(** X14. ToggleComboStatus replies 404 for an unknown id and otherwise
    flips the flag of that combo and of no other; toggling twice gives the
    collection back.  While a combo is switched off, a Create that names
    it is refused with [ComboNotAvailable] and stores nothing. *)
Theorem X14_toggle_combo (db : Appointments.Db) (id : nat) :
  let combos := Appointments.comboCatalog db in
  (combos !! id = None ->
   toggleComboStatus combos id = (Fail 404 ComboNotFound, combos)) /\
  (forall c, combos !! id = Some c ->
   toggleComboStatus combos id =
     (Json 200 (id, negb (c_isActive c)), <[id := toggled c]> combos) /\
   snd (toggleComboStatus (snd (toggleComboStatus combos id)) id) = combos /\
   (c_isActive c = true ->
    forall now user b d t,
      let db' := with_combos db (snd (toggleComboStatus combos id)) in
      Appointments.b_combo b = Some id ->
      Appointments.b_appointmentDate b = Some d ->
      Appointments.parse_timeSlot (Appointments.b_timeSlot b) = Some t ->
      Mongo.findOne (Appointments.occupies d t) (Appointments.appointments db)
        = None ->
      Appointments.createAppointment now db' user b =
        (Fail 400 Appointments.ComboNotAvailable, db'))).
Proof.
  intros combos. unfold toggleComboStatus. split.
  - by intros ->.
  - intros c Hc. rewrite Hc. simpl. split; [done|].
    rewrite lookup_insert_eq. simpl. split.
    + rewrite toggled_twice, insert_insert_eq. by apply insert_id.
    + intros Ha now user b d t Hb Hd Ht Hf.
      unfold Appointments.createAppointment. rewrite Hd, Ht, Hb. simpl.
      rewrite andb_false_r, Hf.
      unfold Appointments.check_catalog. rewrite Hb.
      rewrite (findOne_by_id c_isActive). simpl.
      rewrite lookup_insert_eq. simpl. by rewrite Ha.
Qed.

(** X15. DeleteCombo replies 404 for an unknown id and changes nothing;
    otherwise it removes that combo and no other.  Afterwards GetCombo and
    a second DeleteCombo reply 404 for the id, a Create that names the
    combo is refused with [ComboNotAvailable], and an appointment that was
    booked with the combo (and so holds no service) is listed with a total
    duration of 0. *)
Theorem X15_delete_combo (db : Appointments.Db) (id : nat) :
  let combos := Appointments.comboCatalog db in
  (combos !! id = None ->
   deleteCombo combos id = (Fail 404 ComboNotFound, combos)) /\
  (is_Some (combos !! id) ->
   let combos' := snd (deleteCombo combos id) in
   let db' := with_combos db combos' in
   fst (deleteCombo combos id) = Json 200 tt /\
   combos' !! id = None /\
   (forall j, j <> id -> combos' !! j = combos !! j) /\
   getCombo combos' id = Fail 404 ComboNotFound /\
   deleteCombo combos' id = (Fail 404 ComboNotFound, combos') /\
   (forall b, Appointments.b_combo b = Some id ->
      Appointments.check_catalog db' b = Some Appointments.ComboNotAvailable) /\
   (forall a, Appointments.combo a = Some id -> Appointments.services a = [] ->
      Appointments.totalDuration db' a = Q2Qc 0)).
Proof.
  intros combos. unfold deleteCombo. split.
  - by intros ->.
  - intros [c Hc]. rewrite Hc. simpl.
    assert (delete id combos !! id = None) as Hdel by apply lookup_delete_eq.
    split; [done|]. split; [done|]. split.
    { intros j Hj. by apply lookup_delete_ne. }
    split; [unfold getCombo; by rewrite Hdel|].
    split; [by rewrite Hdel|]. split.
    + intros b Hb. unfold Appointments.check_catalog. rewrite Hb.
      rewrite (findOne_by_id c_isActive). simpl. by rewrite Hdel.
    + intros a Ha Hs. unfold Appointments.totalDuration. rewrite Ha, Hs.
      simpl. by rewrite Hdel.
Qed.

(** *** The theorems above at concrete requests *)

Lemma X11_witness :
  createCombo Scenario.spa_closed ∅ Cases.trio_body = (Fail 500 ServerError, ∅).
Proof.
  refine (proj1 (X11_create_combo Scenario.spa_closed ∅ Cases.trio_body
                   Cases.trio_services _ _) _).
  - by vm_compute.
  - reflexivity.
  - apply Exists_cons_tl, Exists_cons_tl, Exists_cons_hd. by vm_compute.
Defined.

Lemma created_trio :
  createCombo Scenario.three_services ∅ Cases.trio_body =
    (Json 201 (0%nat, Cases.new_trio), {[ 0%nat := Cases.new_trio ]}).
Proof. by vm_compute. Defined.

Lemma trio_prices_nonneg :
  Forall (fun it => (Q2Qc 0 <= listed_price Scenario.three_services it)%Qc)
    Cases.trio_services.
Proof. repeat constructor; by vm_compute. Defined.


Lemma X13_witness :
  updateCombo Scenario.three_services {[ 0%nat := Cases.new_trio ]} 0 no_change =
    (Json 200 Cases.new_trio, {[ 0%nat := Cases.new_trio ]}).
Proof.
  exact (X13_create_then_empty_update Scenario.three_services ∅
           {[ 0%nat := Cases.new_trio ]} Cases.trio_body Cases.trio_services
           201 0 Cases.new_trio eq_refl trio_prices_nonneg created_trio).
Defined.

Lemma X14_witness :
  toggleComboStatus (Appointments.comboCatalog Cases.salon) 0 =
    (Json 200 (0%nat, false),
     <[0%nat := toggled Scenario.trio]> (Appointments.comboCatalog Cases.salon)) /\
  snd (toggleComboStatus
         (snd (toggleComboStatus (Appointments.comboCatalog Cases.salon) 0)) 0) =
    Appointments.comboCatalog Cases.salon.
Proof.
  pose proof (proj2 (X14_toggle_combo Cases.salon 0) Scenario.trio eq_refl)
    as (H1 & H2 & _).
  split; [exact H1|exact H2].
Defined.

Lemma X15_witness :
  fst (deleteCombo (Appointments.comboCatalog Cases.salon) 0) = Json 200 tt /\
  snd (deleteCombo (Appointments.comboCatalog Cases.salon) 0) !! 0%nat = None.
Proof.
  pose proof (proj2 (X15_delete_combo Cases.salon 0)
                (ex_intro _ Scenario.trio eq_refl)) as (H1 & H2 & _).
  split; [exact H1|exact H2].
Defined.


End ComboAdminFacts.

(** ** Staff attendance: removal of staff, the views and the local clock *)

Section RosterFacts.

Import Ledger Roster.

Lemma record_action_cases env att sid action d t :
  snd (record_action env att sid action d t) = att \/
  exists i r,
    (att !! i = Some r \/ (att !! i = None /\ r = new_attendance sid d)) /\
    validate env action (set_action r action t) = true /\
    snd (record_action env att sid action d t) =
      <[i := set_action r action t]> att.
Proof.
  unfold record_action.
  destruct (Mongo.findOne (on_day sid d) att) as [[i r]|] eqn:Hf.
  - apply findOne_Some in Hf as [Hl _].
    assert (forall m : option Msg,
              snd (match m with
                   | Some m => (Fail 400 m, att)
                   | None =>
                       if validate env action (set_action r action t) then
                         match Mongo.updateOne day_key i (set_action r action t) att with
                         | Some att' => (Json 200 (i, set_action r action t), att')
                         | None => (Fail 500 FailedToRecord, att)
                         end
                       else (Fail 400 ValidationFailed, att)
                   end : Recorded * gmap nat Attendance) = att \/
              exists i0 r0,
                (att !! i0 = Some r0 \/ (att !! i0 = None /\ r0 = new_attendance sid d)) /\
                validate env action (set_action r0 action t) = true /\
                snd (match m with
                     | Some m => (Fail 400 m, att)
                     | None =>
                         if validate env action (set_action r action t) then
                           match Mongo.updateOne day_key i (set_action r action t) att with
                           | Some att' => (Json 200 (i, set_action r action t), att')
                           | None => (Fail 500 FailedToRecord, att)
                           end
                         else (Fail 400 ValidationFailed, att)
                     end : Recorded * gmap nat Attendance) =
                <[i0 := set_action r0 action t]> att) as H.
    { intros [m|]; [by left|].
      destruct (validate env action (set_action r action t)) eqn:Hv; [|by left].
      destruct (Mongo.updateOne _ _ _ _) as [att'|] eqn:Hu; [|by left].
      right. exists i, r. split; [by left|]. split; [done|].
      simpl. exact (updateOne_Some day_key i _ r att att' Hl Hu). }
    apply H.
  - simpl.
    destruct (validate env action _) eqn:Hv; [|by left].
    destruct (Mongo.insertOne _ _ _) as [[i att']|] eqn:Hi; [|by left].
    apply insertOne_Some in Hi as (Hfree & -> & _).
    right. exists i, (new_attendance sid d). split; [by right|]. done.
Qed.

Lemma recordAttendance_cases env staff att b :
  snd (recordAttendance env staff att b) = att \/
  exists sid action d t i r,
    resolve_request env staff b = inr (sid, action, d, t) /\
    (att !! i = Some r \/ (att !! i = None /\ r = new_attendance sid d)) /\
    validate env action (set_action r action t) = true /\
    snd (recordAttendance env staff att b) = <[i := set_action r action t]> att.
Proof.
  unfold recordAttendance.
  destruct (resolve_request env staff b) as [[code m]|[[[sid action] d] t]];
    [by left|].
  destruct (record_action_cases env att sid action d t) as [H|(i & r & H)];
    [by left|].
  right. by exists sid, action, d, t, i, r.
Qed.

Lemma well_marked_set_action r action t :
  well_marked r -> well_marked (set_action r action t).
Proof. by destruct action. Qed.

Lemma deleteMany_lookup {D} (q : nat -> D -> bool) (c : gmap nat D) i d :
  Mongo.deleteMany q c !! i = Some d <-> c !! i = Some d /\ q i d = false.
Proof. unfold Mongo.deleteMany. by rewrite map_lookup_filter_Some. Qed.

Lemma countDocuments_0 {D} (q : nat -> D -> bool) (c : gmap nat D) :
  Mongo.countDocuments q c = 0%nat <->
  (forall i d, c !! i = Some d -> q i d = false).
Proof.
  unfold Mongo.countDocuments. split.
  - intros H i d Hl. destruct (q i d) eqn:Hq; [|done].
    assert (In (i, d) (Mongo.find q c)) as Hin by (by apply elem_of_find).
    destruct (Mongo.find q c); [done|discriminate].
  - intros H. destruct (Mongo.find q c) as [|[i d] l] eqn:Hf; [done|].
    assert (In (i, d) (Mongo.find q c)) as Hin by (rewrite Hf; by left).
    apply elem_of_find in Hin as [Hl Hq]. rewrite (H _ _ Hl) in Hq. discriminate.
Qed.

(** What RemoveHoliday leaves, for a date that is not past: the records
    that are not holiday records of the date. *)
Lemma deleteHoliday_lookup env att d i r :
  getCurrentUTCDate env <= d ->
  snd (deleteHoliday env att (DateOk d)) !! i = Some r <->
  att !! i = Some r /\ ~ (date r = d /\ isHoliday r = true).
Proof.
  intros Hd. unfold deleteHoliday.
  destruct (Z.ltb_spec d (getCurrentUTCDate env)); [lia|].
  set (q := fun (_ : nat) (r : Attendance) => Z.eqb (date r) d && isHoliday r).
  assert (forall r, q i r = false <-> ~ (date r = d /\ isHoliday r = true)) as Hq.
  { intros x. unfold q.
    destruct (Z.eqb_spec (date x) d) as [He|He]; destruct (isHoliday x); simpl;
      (split; [intros H' [? ?]; congruence
              |intros H'; try done; exfalso; apply H'; done]). }
  destruct (Nat.eqb (Mongo.countDocuments q att) 0) eqn:Hc; simpl.
  - apply Nat.eqb_eq in Hc. split; [|tauto].
    intros Hl. split; [done|]. apply Hq.
    by apply (proj1 (countDocuments_0 q att) Hc i r).
  - rewrite deleteMany_lookup. by rewrite Hq.
Qed.

Lemma well_marked_reachable att :
  reachable att -> forall i r, att !! i = Some r -> well_marked r.
Proof.
  induction 1 as [|env staff att b _ IH|env staff att b _ IH|env att d _ IH
                  |sid att _ IH]; intros i r Hl.
  - by rewrite lookup_empty in Hl.
  - destruct (recordAttendance_cases env staff att b)
      as [He|(sid & action & d & t & j & x & _ & Hx & _ & He)];
      rewrite He in Hl; [eauto|].
    destruct (decide (i = j)) as [->|Hne].
    + rewrite lookup_insert_eq in Hl. injection Hl as <-.
      apply well_marked_set_action.
      destruct Hx as [Hx|[_ ->]]; [eauto|]. by left.
    + rewrite lookup_insert_ne in Hl by done. eauto.
  - unfold declareHoliday in Hl.
    destruct (h_date b) as [| |d]; simpl in Hl; [eauto|eauto|].
    destruct (d <? getCurrentUTCDate env); simpl in Hl; [eauto|].
    apply bulk_upsert_origin in Hl as [(sid & _ & ->)|Hl]; [by right|eauto].
  - destruct d as [| |d]; simpl in Hl; [eauto|eauto|].
    unfold deleteHoliday in Hl.
    destruct (d <? getCurrentUTCDate env); simpl in Hl; [eauto|].
    destruct (Nat.eqb _ 0); simpl in Hl; [eauto|].
    apply deleteMany_lookup in Hl as [Hl _]. eauto.
  - apply deleteMany_lookup in Hl as [Hl _]. eauto.
Qed.

(** X16. In every collection the requests can produce, each record is
    either marked Present without the holiday flag, or marked Holiday with
    it: no request stores the status Absent, Late or Half-Day, and the flag
    and the status never disagree. *)
Theorem X16_present_or_holiday (att : gmap nat Attendance) (i : nat)
    (r : Attendance) :
  reachable att -> att !! i = Some r ->
  (status r = Present /\ isHoliday r = false) \/
  (status r = Holiday /\ isHoliday r = true).
Proof. intros H Hl. exact (well_marked_reachable att H i r Hl). Qed.

Lemma future_invalid env r action t :
  now env < t -> validate env action (set_action r action t) = false.
Proof.
  intros Ht. assert ((t <=? now env) = false) as Hf by lia.
  unfold validate, checkIn_valid, checkOut_valid.
  destruct action; simpl; rewrite Hf; simpl;
    destruct (validateModifiedOnly env); simpl; try done.
  - by rewrite andb_false_r.
Qed.

Lemma future_refused env att sid action d t :
  now env < t ->
  is_success (fst (record_action env att sid action d t)) = false /\
  snd (record_action env att sid action d t) = att /\
  ((forall i r, att !! i = Some r -> ~ (staffId r = sid /\ date r = d)) ->
   record_action env att sid action d t = (Fail 400 ValidationFailed, att)).
Proof.
  intros Ht. unfold record_action.
  destruct (Mongo.findOne (on_day sid d) att) as [[i r]|] eqn:Hf.
  - rewrite (future_invalid env r action t Ht).
    split; [|split].
    + by destruct action, (is_set (checkIn r)), (is_set (checkOut r)).
    + by destruct action, (is_set (checkIn r)), (is_set (checkOut r)).
    + intros Hno. apply findOne_Some in Hf as [Hl Hq].
      apply on_day_true in Hq. by destruct (Hno i r Hl).
  - simpl. by rewrite (future_invalid env _ action t Ht).
Qed.

(** X17. An instant later than the clock of the server is never stored:
    a check-in or check-out whose instant lies in the future is refused and
    leaves the collection as it was; when the staff member has no record
    for the day the reply is [ValidationFailed]. *)
Theorem X17_future_instant_refused (env : Env) (staff : gmap nat Staff)
    (att : gmap nat Attendance) (b : AttendanceBody) (sid : nat)
    (action : Action) (d t : Z) :
  resolve_request env staff b = inr (sid, action, d, t) ->
  now env < t ->
  is_success (fst (recordAttendance env staff att b)) = false /\
  snd (recordAttendance env staff att b) = att /\
  ((forall i r, att !! i = Some r -> ~ (staffId r = sid /\ date r = d)) ->
   recordAttendance env staff att b = (Fail 400 ValidationFailed, att)).
Proof.
  intros Hr Ht. unfold recordAttendance. rewrite Hr.
  by apply future_refused.
Qed.

Lemma local_clock_instant env :
  tzOffset env < 0 ->
  now env mod MS_PER_DAY - tzOffset env * 60000 < MS_PER_DAY ->
  let h := fst (local_clock env) in
  let m := snd (local_clock env) in
  0 <= h <= 23 /\ 0 <= m <= 59 /\
  now env <
  setHours env (getCurrentUTCDate env) h m - tzOffset env * 60000.
Proof.
  unfold local_clock, setHours, getCurrentUTCDate, MS_PER_DAY. simpl.
  intros Htz Hday.
  set (n := now env) in *. set (x := - tzOffset env * 60000).
  assert (tzOffset env * 60000 = - x) as -> by (unfold x; lia).
  assert (60000 <= x) as Hx by (unfold x; lia).
  replace (n - - x) with (n + x) in * by lia.
  pose proof (Z.div_mod n 86400000 ltac:(lia)) as Hn.
  pose proof (Z.mod_pos_bound n 86400000 ltac:(lia)) as Hnb.
  set (q := n / 86400000) in *. set (w := n mod 86400000) in *.
  assert ((q * 86400000 - - x) / 86400000 = q) as ->.
  { symmetry. apply (Z.div_unique _ _ q x); lia. }
  assert ((n + x) mod 86400000 = w + x) as ->.
  { symmetry. apply (Z.mod_unique _ _ q (w + x)); lia. }
  assert ((n + x) mod 3600000 = (w + x) mod 3600000) as ->.
  { rewrite Hn.
    replace (86400000 * q + w + x) with (w + x + (24 * q) * 3600000) by lia.
    apply Z.mod_add. lia. }
  set (y := w + x) in *.
  pose proof (Z.div_mod y 3600000 ltac:(lia)) as Hy.
  pose proof (Z.mod_pos_bound y 3600000 ltac:(lia)) as Hyb.
  set (h := y / 3600000) in *. set (k := y mod 3600000) in *.
  pose proof (Z.div_mod k 60000 ltac:(lia)) as Hk.
  pose proof (Z.mod_pos_bound k 60000 ltac:(lia)) as Hkb.
  set (m := k / 60000) in *. set (s := k mod 60000) in *.
  lia.
Qed.

(** X18. On a server whose zone is east of UTC, a check-in or check-out
    that states the hour and minute its local clock shows is refused as
    lying in the future and stores nothing (as long as the local day is
    still the UTC day): the instant is built by reading the local clock
    time as a UTC time, which puts it ahead of the clock by the offset of
    the zone. *)
Theorem X18_local_time_east_of_utc (env : Env) (staff : gmap nat Staff)
    (att : gmap nat Attendance) (sid : nat) (s : Staff) (action : string)
    (act : Action) :
  tzOffset env < 0 ->
  now env mod MS_PER_DAY - tzOffset env * 60000 < MS_PER_DAY ->
  staff !! sid = Some s -> st_isActive s = true ->
  parse_action action = Some act ->
  let b := {| a_staffId := Some sid; a_action := Some action;
              a_time := TimeClock (fst (local_clock env)) (snd (local_clock env))
                          None;
              a_date := DateAbsent |} in
  (exists t, resolve_request env staff b =
               inr (sid, act, getCurrentUTCDate env, t) /\ now env < t) /\
  is_success (fst (recordAttendance env staff att b)) = false /\
  snd (recordAttendance env staff att b) = att.
Proof.
  intros Htz Hday Hs Ha Hp b.
  destruct (local_clock_instant env Htz Hday) as (Hh & Hm & Ht).
  set (t := setHours env (getCurrentUTCDate env) (fst (local_clock env))
              (snd (local_clock env)) - tzOffset env * 60000) in *.
  assert (resolve_request env staff b = inr (sid, act, getCurrentUTCDate env, t))
    as Hr.
  { unfold resolve_request, b. cbn [a_staffId a_action a_time a_date].
    assert (String.eqb action "" = false) as ->.
    { apply String.eqb_neq. intros ->. discriminate. }
    rewrite Hp, Hs, Ha. unfold resolve_date, resolve_time.
    assert ((fst (local_clock env) <? 0) || (23 <? fst (local_clock env))
            || (snd (local_clock env) <? 0) || (59 <? snd (local_clock env))
            = false) as ->.
    { rewrite !orb_false_iff. repeat split; lia. }
    done. }
  split; [by exists t|].
  unfold recordAttendance. rewrite Hr.
  destruct (future_refused env att sid act (getCurrentUTCDate env) t Ht)
    as (H1 & H2 & _).
  done.
Qed.

Lemma filter_as_List_filter {A} (f : A -> bool) (l : list A) :
  filter (fun x => f x = false) l = List.filter (fun x => negb (f x)) l.
Proof.
  induction l as [|x l IH]; [done|]. simpl.
  destruct (f x) eqn:Hf; simpl.
  - rewrite filter_cons_False by congruence. done.
  - rewrite filter_cons_True by done. by rewrite IH.
Qed.

Lemma count_and_rest {D} (q : nat -> D -> bool) (c : gmap nat D) :
  (Mongo.countDocuments q c + size (Mongo.deleteMany q c))%nat = size c.
Proof.
  unfold Mongo.countDocuments, Mongo.find, Mongo.deleteMany.
  rewrite map_filter_alt, map_size_list_to_map.
  - rewrite (filter_as_List_filter (fun kv => q (fst kv) (snd kv))).
    rewrite filter_length. apply length_map_to_list.
  - apply NoDup_fmap_2_strong.
    + intros [i x] [j y] Hi Hj Hij. simpl in Hij. subst j.
      apply list_elem_of_filter in Hi as [_ Hi], Hj as [_ Hj].
      apply elem_of_map_to_list in Hi, Hj. congruence.
    + apply NoDup_filter, NoDup_map_to_list.
Qed.

(** X19. RemoveHoliday refuses a date before the current UTC day;
    otherwise it replies 404 and changes nothing when no record of the date
    carries the holiday flag, and else removes exactly the records of that
    date that carry the flag, whether or not their staff member is active,
    and replies with their number; records of other dates, and records of
    the date without the flag, stay. *)
Theorem X19_remove_holiday (env : Env) (att : gmap nat Attendance) (d : Z) :
  (d < getCurrentUTCDate env ->
   deleteHoliday env att (DateOk d) = (Fail 400 PastHolidayRemoval, att)) /\
  (getCurrentUTCDate env <= d ->
   ((forall i r, att !! i = Some r -> ~ (date r = d /\ isHoliday r = true)) ->
    deleteHoliday env att (DateOk d) = (Fail 404 NoHolidayFound, att)) /\
   ((exists i r, att !! i = Some r /\ date r = d /\ isHoliday r = true) ->
    exists n, fst (deleteHoliday env att (DateOk d)) = Json 200 n /\
              (0 < n)%nat /\
              (n + size (snd (deleteHoliday env att (DateOk d))))%nat = size att) /\
   (forall i r,
      snd (deleteHoliday env att (DateOk d)) !! i = Some r <->
      att !! i = Some r /\ ~ (date r = d /\ isHoliday r = true))).
Proof.
  split.
  - intros Hd. unfold deleteHoliday.
    by destruct (Z.ltb_spec d (getCurrentUTCDate env)); [|lia].
  - intros Hd. split; [|split].
    + intros Hno. unfold deleteHoliday.
      destruct (Z.ltb_spec d (getCurrentUTCDate env)); [lia|].
      assert (Mongo.countDocuments
                (fun (_ : nat) r => Z.eqb (date r) d && isHoliday r) att = 0%nat)
        as ->; [|done].
      apply countDocuments_0. intros i r Hl. specialize (Hno i r Hl).
      destruct (Z.eqb_spec (date r) d), (isHoliday r); simpl; try done.
      by destruct Hno.
    + intros (i & r & Hl & Hr & Hh). unfold deleteHoliday.
      destruct (Z.ltb_spec d (getCurrentUTCDate env)); [lia|].
      set (q := fun (_ : nat) (r : Attendance) => Z.eqb (date r) d && isHoliday r).
      destruct (Nat.eqb (Mongo.countDocuments q att) 0) eqn:Hc.
      * apply Nat.eqb_eq in Hc.
        pose proof (proj1 (countDocuments_0 q att) Hc i r Hl) as Hq.
        unfold q in Hq. rewrite Hr, Hh, Z.eqb_refl in Hq. discriminate.
      * apply Nat.eqb_neq in Hc. simpl. eexists. split; [done|].
        split; [lia|]. apply count_and_rest.
    + intros i r. by apply deleteHoliday_lookup.
Qed.

(** X20. Declaring a holiday and then removing it does not give the day
    back: after DeclareHoliday for a date and RemoveHoliday for the same
    date, no active staff member has a record for that date, whatever
    check-in or check-out they had recorded before; the records of the
    date that remain are records of inactive staff that were there before,
    and every record of another date is as it was. *)
Theorem X20_declare_then_remove (env env' : Env) (staff : gmap nat Staff)
    (att : gmap nat Attendance) (b : HolidayBody) (d : Z) :
  h_date b = DateOk d ->
  getCurrentUTCDate env <= d -> getCurrentUTCDate env' <= d ->
  one_record_per_day att ->
  let att1 := snd (declareHoliday env staff att b) in
  let att2 := snd (deleteHoliday env' att1 (DateOk d)) in
  (forall i r, att2 !! i = Some r -> date r = d ->
     is_active staff (staffId r) = false /\ isHoliday r = false /\
     att !! i = Some r) /\
  (forall i r, att !! i = Some r ->
     ~ (date r = d /\ (is_active staff (staffId r) = true \/ isHoliday r = true)) ->
     att2 !! i = Some r).
Proof.
  intros Hb Hd Hd' Hu att1 att2.
  assert (one_record_per_day att1) as Hu1 by (by apply declareHoliday_unique).
  pose proof (declareHoliday_accepted env staff att b d Hb Hd) as Hacc.
  assert (att1 = List.fold_left
                   (upsert_holiday d (notes_or_default (h_notes b)))
                   (List.map fst (activeStaff staff)) att) as Hatt1
    by (unfold att1; by rewrite Hacc).
  split.
  - intros i r Hl Hr. apply deleteHoliday_lookup in Hl as [Hl Hn]; [|done].
    assert (isHoliday r = false) as Hh.
    { destruct (isHoliday r); [|done]. by destruct Hn. }
    assert (is_active staff (staffId r) = false) as Hina.
    { destruct (is_active staff (staffId r)) eqn:Ha; [|done].
      destruct (declareHoliday_covers env staff att b d (staffId r) Hb Hd Ha)
        as [j Hj].
      assert (i = j) as <- by (by apply (Hu1 i j _ _ Hl Hj)).
      fold att1 in Hj. rewrite Hl in Hj. injection Hj as Hj.
      rewrite Hj in Hh. discriminate. }
    split; [done|]. split; [done|].
    rewrite Hatt1 in Hl. apply bulk_upsert_origin in Hl as [(sid & _ & ->)|Hl];
      [discriminate|done].
  - intros i r Hl Hn. apply deleteHoliday_lookup; [done|]. split.
    + rewrite Hatt1. apply bulk_upsert_keeps; [done|].
      intros [Hr Hin]. apply active_ids in Hin. apply Hn. auto.
    + intros [Hr Hh]. apply Hn. auto.
Qed.

(** X21. DeleteStaff removes every attendance record of the id and no
    other record, and the staff member and no other; the attendance
    records go first, so they are removed also when the reply is 404
    because there is no such staff member. *)
Theorem X21_delete_staff (staff : gmap nat Staff) (att : gmap nat Attendance)
    (id : nat) :
  let reply := fst (fst (deleteStaff staff att id)) in
  let staff' := snd (fst (deleteStaff staff att id)) in
  let att' := snd (deleteStaff staff att id) in
  (forall i r, att' !! i = Some r <-> att !! i = Some r /\ staffId r <> id) /\
  staff' !! id = None /\
  (forall j, j <> id -> staff' !! j = staff !! j) /\
  (staff !! id = None -> reply = Fail 404 StaffMemberNotFound) /\
  (is_Some (staff !! id) -> reply = Json 200 tt).
Proof.
  unfold deleteStaff.
  assert (forall i r, deleteStaffAttendance id att !! i = Some r <->
                      att !! i = Some r /\ staffId r <> id) as Hatt.
  { intros i r. unfold deleteStaffAttendance. rewrite deleteMany_lookup.
    by rewrite Nat.eqb_neq. }
  destruct (staff !! id) as [s|] eqn:Hs; simpl.
  - split; [done|]. split; [apply lookup_delete_eq|].
    split; [intros j Hj; by apply lookup_delete_ne|]. split; [done|done].
  - split; [done|]. split; [done|]. split; [done|]. split; [done|].
    by intros [? ?].
Qed.

Lemma attended_app l x :
  attendedStaffMap (l ++ [x]) = <[staffId (snd x) := snd x]> (attendedStaffMap l).
Proof. unfold attendedStaffMap. by rewrite fold_left_app. Qed.

Lemma attended_lookup (recs : list (nat * Attendance)) :
  (forall x y, In x recs -> In y recs ->
               staffId (snd x) = staffId (snd y) -> x = y) ->
  forall sid r,
    attendedStaffMap recs !! sid = Some r <->
    exists i, In (i, r) recs /\ staffId r = sid.
Proof.
  induction recs as [|[j x] l IH] using rev_ind; intros Hinj sid r.
  - unfold attendedStaffMap. simpl. rewrite lookup_empty.
    split; [done|]. by intros (i & [] & _).
  - rewrite attended_app. simpl.
    assert (forall a b, In a l -> In b l ->
                        staffId (snd a) = staffId (snd b) -> a = b) as Hinj'.
    { intros a c Ha Hc. apply Hinj; apply in_or_app; by left. }
    specialize (IH Hinj' sid r).
    destruct (decide (staffId x = sid)) as [<-|Hne].
    + rewrite lookup_insert_eq. split.
      * intros [= <-]. exists j. split; [|done]. apply in_or_app. right. by left.
      * intros (i & Hin & Hs).
        assert ((i, r) = (j, x)) as Heq.
        { apply Hinj; [done| |done]. apply in_or_app. right. by left. }
        by injection Heq as _ ->.
    + rewrite lookup_insert_ne by done. rewrite IH. split.
      * intros (i & Hin & Hs). exists i. split; [|done]. apply in_or_app. by left.
      * intros (i & Hin & Hs). exists i. split; [|done].
        apply in_app_or in Hin as [Hin|[Heq|[]]]; [done|].
        injection Heq as _ <-. done.
Qed.

Lemma categorize_fold m (active : list (nat * Staff)) :
  forall ps abs hs ps' abs' hs',
    List.fold_left (categorize m) active (ps, abs, hs) = (ps', abs', hs') ->
    (length ps' + length abs' + length hs' =
     length ps + length abs + length hs + length active)%nat /\
    (forall sid, In sid (List.map pe_staffId ps') <->
       In sid (List.map pe_staffId ps) \/
       (In sid (List.map fst active) /\
        exists r, m !! sid = Some r /\ isHoliday r = false)) /\
    (forall sid, In sid (List.map ae_staffId abs') <->
       In sid (List.map ae_staffId abs) \/
       (In sid (List.map fst active) /\ m !! sid = None)) /\
    (forall sid, In sid (List.map he_staffId hs') <->
       In sid (List.map he_staffId hs) \/
       (In sid (List.map fst active) /\
        exists r, m !! sid = Some r /\ isHoliday r = true)).
Proof.
  induction active as [|[id s] active IH]; intros ps abs hs ps' abs' hs' Hfold.
  - simpl in Hfold. injection Hfold as <- <- <-.
    split; [simpl; lia|]. (split; [|split]); intros sid; simpl; tauto.
  - cbn [List.fold_left] in Hfold.
    destruct (categorize m (ps, abs, hs) (id, s)) as [[p1 a1] h1] eqn:Hc.
    apply IH in Hfold as (Hlen & HP & HA & HH).
    unfold categorize in Hc. simpl in Hc.
    destruct (m !! id) as [r|] eqn:Hm; [destruct (isHoliday r) eqn:Hh|];
      injection Hc as <- <- <-;
      rewrite ?length_app in Hlen; simpl in Hlen;
      (split; [simpl; lia|]); (split; [|split]); intros sid;
      rewrite ?HP, ?HA, ?HH, ?map_app, ?in_app_iff; simpl;
      (split; intros Hx; decompose [and or ex] Hx; subst; try tauto;
       try congruence; try (right; split; [tauto|eauto]); eauto 6).
Qed.

Lemma forallb_false {A} (f : A -> bool) l :
  forallb f l = false <-> exists x, In x l /\ f x = false.
Proof.
  induction l as [|y l IH]; simpl.
  - split; [done|]. by intros (x & [] & _).
  - rewrite andb_false_iff, IH. split.
    + intros [Hy|(x & Hx & Hf)]; [exists y; auto|exists x; auto].
    + intros (x & [<-|Hx] & Hf); [by left|right; eauto].
Qed.

(** X22. Today's attendance status fails with 500 exactly when a record
    of today belongs to a staff member that is no longer stored.
    Otherwise every active staff member is put on exactly one of the three
    lists: on the holiday list when their record of today carries the
    holiday flag, on the present list when they have a record of today
    without the flag (whatever it holds), on the absent list when they
    have no record of today; the three counts add up to the number of
    active staff.  This for a collection with at most one record for each
    staff member and day. *)
Theorem X22_todays_attendance_status (env : Env) (staff : gmap nat Staff)
    (att : gmap nat Attendance) :
  one_record_per_day att ->
  (getTodaysAttendanceStatus env staff att = Fail 500 StatusNotRetrieved <->
   exists i r, att !! i = Some r /\ date r = getCurrentUTCDate env /\
               staff !! staffId r = None) /\
  (forall st, getTodaysAttendanceStatus env staff att = Json 200 st ->
     totalStaff st = length (activeStaff staff) /\
     presentCount st = length (presentStaff st) /\
     absentCount st = length (absentStaff st) /\
     holidayCount st = length (holidayStaff st) /\
     (presentCount st + absentCount st + holidayCount st)%nat = totalStaff st /\
     (forall sid, In sid (List.map ae_staffId (absentStaff st)) <->
        is_active staff sid = true /\
        forall i r, att !! i = Some r ->
                    ~ (staffId r = sid /\ date r = getCurrentUTCDate env)) /\
     (forall sid, In sid (List.map he_staffId (holidayStaff st)) <->
        is_active staff sid = true /\
        exists i r, att !! i = Some r /\ staffId r = sid /\
                    date r = getCurrentUTCDate env /\ isHoliday r = true) /\
     (forall sid, In sid (List.map pe_staffId (presentStaff st)) <->
        is_active staff sid = true /\
        exists i r, att !! i = Some r /\ staffId r = sid /\
                    date r = getCurrentUTCDate env /\ isHoliday r = false)).
Proof.
  intros Hu. unfold getTodaysAttendanceStatus.
  set (today := getCurrentUTCDate env).
  set (recs := Mongo.find (fun (_ : nat) r => Z.eqb (date r) today) att).
  assert (forall i r, In (i, r) recs <-> att !! i = Some r /\ date r = today)
    as Hrecs.
  { intros i r. unfold recs. by rewrite elem_of_find, Z.eqb_eq. }
  set (m := attendedStaffMap recs).
  assert (forall sid r, m !! sid = Some r <->
            exists i, att !! i = Some r /\ staffId r = sid /\ date r = today)
    as Hm.
  { intros sid r. unfold m. rewrite attended_lookup.
    - split; intros (i & Hi & Hs); exists i.
      + apply Hrecs in Hi as [? ?]. done.
      + split; [|tauto]. apply Hrecs. tauto.
    - intros [i x] [j y] Hx Hy Hs. simpl in Hs.
      apply Hrecs in Hx as [Hx Hdx], Hy as [Hy Hdy].
      assert (i = j) as <- by (apply (Hu i j x y); congruence).
      congruence. }
  assert (forall sid, m !! sid = None <->
            forall i r, att !! i = Some r -> ~ (staffId r = sid /\ date r = today))
    as Hnone.
  { intros sid. split.
    - intros Hn i r Hl [Hs Hd].
      assert (m !! sid = Some r) as Hsome by (apply Hm; eauto). congruence.
    - intros Hno. destruct (m !! sid) as [r|] eqn:Hl; [|done].
      apply Hm in Hl as (i & Hl & Hs & Hd). by destruct (Hno i r Hl). }
  destruct (forallb _ recs) eqn:Hall.
  - split.
    + split; [by destruct (List.fold_left _ _ _) as [[? ?] ?]|].
      intros (i & r & Hl & Hd & Hs). exfalso.
      rewrite forallb_forall in Hall.
      assert (In (i, r) recs) as Hin by (by apply Hrecs).
      apply Hall in Hin. simpl in Hin. by rewrite Hs in Hin.
    + intros st.
      destruct (List.fold_left (categorize m) (activeStaff staff) ([], [], []))
        as [[ps abs] hs] eqn:Hfold.
      intros [= <-]. simpl.
      apply categorize_fold in Hfold as (Hlen & HP & HA & HH). simpl in Hlen.
      split; [done|]. split; [done|]. split; [done|]. split; [done|].
      split; [lia|].
      split; [|split]; intros sid.
      * rewrite HA, active_ids, Hnone. simpl. tauto.
      * rewrite HH, active_ids. simpl. split.
        -- intros [[]|[Ha (r & Hr & Hh)]]. split; [done|].
           apply Hm in Hr as (i & ? & ? & ?). by exists i, r.
        -- intros [Ha (i & r & Hl & Hs & Hd & Hh)]. right. split; [done|].
           exists r. split; [|done]. apply Hm. eauto.
      * rewrite HP, active_ids. simpl. split.
        -- intros [[]|[Ha (r & Hr & Hh)]]. split; [done|].
           apply Hm in Hr as (i & ? & ? & ?). by exists i, r.
        -- intros [Ha (i & r & Hl & Hs & Hd & Hh)]. right. split; [done|].
           exists r. split; [|done]. apply Hm. eauto.
  - split; [|done]. split; [intros _|done].
    apply forallb_false in Hall as ([i r] & Hin & Hs). simpl in Hs.
    apply Hrecs in Hin as [Hl Hd]. exists i, r.
    destruct (staff !! staffId r); [discriminate|done].
Qed.

Lemma count_record_fold (rs : list Attendance) : forall s,
  let s' := List.fold_left count_record rs s in
  sm_holidays s' = (sm_holidays s + length (List.filter isHoliday rs))%nat /\
  (sm_present s' + sm_absent s' + sm_late s' + sm_halfDay s' + sm_holidays s' <=
   sm_present s + sm_absent s + sm_late s + sm_halfDay s + sm_holidays s
   + length rs)%nat /\
  (Forall well_marked rs ->
   sm_absent s' = sm_absent s /\ sm_late s' = sm_late s /\
   sm_halfDay s' = sm_halfDay s /\
   (sm_present s' + sm_holidays s' =
    sm_present s + sm_holidays s + length rs)%nat).
Proof.
  induction rs as [|r rs IH]; intros s; simpl.
  - split; [lia|]. split; [lia|]. intros _. repeat split; lia.
  - destruct (IH (count_record s r)) as (H1 & H2 & H3). clear IH.
    split; [|split].
    + rewrite H1. unfold count_record.
      destruct (isHoliday r); [simpl; lia|]. destruct (status r); simpl; lia.
    + etrans; [apply H2|]. unfold count_record.
      destruct (isHoliday r); [simpl; lia|]. destruct (status r); simpl; lia.
    + intros Hall. apply Forall_cons in Hall as [Hr Hall].
      destruct (H3 Hall) as (Ha & Hl & Hh & Hp).
      rewrite Ha, Hl, Hh, Hp. unfold count_record.
      destruct Hr as [[-> ->]|[-> ->]]; simpl; repeat split; lia.
Qed.

(** X23. The summary of a month counts the records of the staff member
    dated within the month.  A record that carries the holiday flag counts
    as a holiday whatever its status, and no record counts twice.  On a
    collection the requests can produce, the counts of absent, late and
    half days are always 0, and present days and holidays add up to the
    number of records. *)
Theorem X23_month_summary (att : gmap nat Attendance) (sid : nat)
    (startDate endDate : Z) :
  let recs := monthRecords att sid startDate endDate in
  let sm := getAttendanceSummary att sid startDate endDate in
  (forall i r, In (i, r) recs <->
     att !! i = Some r /\ staffId r = sid /\ startDate <= date r <= endDate) /\
  sm_holidays sm = length (List.filter isHoliday (List.map snd recs)) /\
  (sm_present sm + sm_absent sm + sm_late sm + sm_halfDay sm + sm_holidays sm
   <= length recs)%nat /\
  (reachable att ->
   sm_absent sm = 0%nat /\ sm_late sm = 0%nat /\ sm_halfDay sm = 0%nat /\
   (sm_present sm + sm_holidays sm)%nat = length recs).
Proof.
  intros recs sm.
  assert (forall i r, In (i, r) recs <->
            att !! i = Some r /\ staffId r = sid /\
            startDate <= date r <= endDate) as Hrecs.
  { intros i r. unfold recs, monthRecords.
    rewrite In_sort_by, elem_of_find, !andb_true_iff, Nat.eqb_eq. split.
    - intros (? & (? & ?) & ?). repeat split; [done|done|lia|lia].
    - intros (? & ? & ? & ?). repeat split; [done|done|lia|lia]. }
  split; [done|].
  unfold sm, getAttendanceSummary. fold recs.
  destruct (count_record_fold (List.map snd recs)
              {| sm_present := 0; sm_absent := 0; sm_late := 0; sm_halfDay := 0;
                 sm_holidays := 0; sm_workingHours := Q2Qc 0 |})
    as (H1 & H2 & H3).
  simpl in H1, H2, H3. rewrite length_map in H2, H3.
  split; [done|]. split; [done|].
  intros Hreach. apply H3. apply Forall_forall. intros r Hin.
  apply list_elem_of_In, in_map_iff in Hin as ([i x] & <- & Hin).
  apply Hrecs in Hin as [Hl _]. by apply (well_marked_reachable att Hreach i).
Qed.

Lemma date_leb_total x y : date_leb x y = false -> date_leb y x = true.
Proof. unfold date_leb. lia. Qed.

(** X24. Attendance by date range wants both dates, each well formed,
    and refuses a range whose end day lies before its start day; a range
    of a single day is accepted.  The reply holds exactly the records dated
    from the start day to the last millisecond of the end day, those of the
    one staff member when an id was sent, each once and by date. *)
Theorem X24_attendance_by_date_range (att : gmap nat Attendance) (s e : Z)
    (sid : option nat) :
  (forall f, getAttendanceByDateRange att DateAbsent f sid =
               Fail 400 BothDatesRequired /\
             getAttendanceByDateRange att f DateAbsent sid =
               Fail 400 BothDatesRequired) /\
  (forall f, f <> DateAbsent ->
             getAttendanceByDateRange att DateMalformed f sid =
               Fail 400 InvalidRangeDate /\
             getAttendanceByDateRange att f DateMalformed sid =
               Fail 400 InvalidRangeDate) /\
  (e + 86399999 < s ->
   getAttendanceByDateRange att (DateOk s) (DateOk e) sid =
     Fail 400 StartAfterEnd) /\
  (s mod MS_PER_DAY = 0 -> e mod MS_PER_DAY = 0 ->
   (getAttendanceByDateRange att (DateOk s) (DateOk e) sid =
      Fail 400 StartAfterEnd <-> e < s)) /\
  (s <= e + 86399999 ->
   exists l,
     getAttendanceByDateRange att (DateOk s) (DateOk e) sid = Json 200 l /\
     (forall i r, In (i, r) l <->
        att !! i = Some r /\ s <= date r <= e + 86399999 /\
        (forall x, sid = Some x -> staffId r = x)) /\
     List.NoDup l /\
     Sorted (fun x y => date (snd x) <= date (snd y)) l).
Proof.
  split; [|split; [|split; [|split]]].
  - intros f. split; [done|]. by destruct f.
  - intros f Hf. by destruct f.
  - intros H. unfold getAttendanceByDateRange.
    by destruct (Z.ltb_spec (e + 86399999) s); [|lia].
  - unfold MS_PER_DAY. intros Hs He. unfold getAttendanceByDateRange.
    destruct (Z.ltb_spec (e + 86399999) s) as [Hlt|Hge].
    + split; [intros _|done].
      apply Z.mod_divide in Hs as [a ->]; [|lia].
      apply Z.mod_divide in He as [c ->]; [|lia]. lia.
    + split; [done|]. intros Hlt. exfalso.
      apply Z.mod_divide in Hs as [a ->]; [|lia].
      apply Z.mod_divide in He as [c ->]; [|lia]. lia.
  - intros H. unfold getAttendanceByDateRange.
    destruct (Z.ltb_spec (e + 86399999) s); [lia|].
    eexists. split; [done|]. split; [|split].
    + intros i r. rewrite In_sort_by, elem_of_find, !andb_true_iff. split.
      * intros [Hl [[? ?] Hsid]]. split; [done|]. split; [lia|].
        intros x ->. by apply Nat.eqb_eq.
      * intros (? & ? & Hsid). split; [done|]. split; [split; lia|].
        destruct sid as [x|]; [|done]. apply Nat.eqb_eq. by apply Hsid.
    + apply NoDup_sort_by, NoDup_find.
    + apply (Sorted_weaken (fun x y => date_leb x y = true)).
      * intros x y. unfold date_leb. lia.
      * apply sort_by_Sorted. apply date_leb_total.
Qed.


(** *** The theorems above at concrete requests *)

Lemma asha_in_reachable : reachable Scenario.asha_in.
Proof.
  exact (reach_record Scenario.evening Scenario.crew ∅
           (Scenario.clock 1 "checkIn" 9 0) reach_empty).
Defined.

Lemma X16_witness :
  Scenario.asha_in !! 0%nat =
    Some (mkAttendance 1 Scenario.june1 (Some (Scenario.june1 + 9 * 3600000))
            None Present false None) /\
  ((status (mkAttendance 1 Scenario.june1 (Some (Scenario.june1 + 9 * 3600000))
              None Present false None) = Present /\
    isHoliday (mkAttendance 1 Scenario.june1 (Some (Scenario.june1 + 9 * 3600000))
                 None Present false None) = false) \/
   (status (mkAttendance 1 Scenario.june1 (Some (Scenario.june1 + 9 * 3600000))
              None Present false None) = Holiday /\
    isHoliday (mkAttendance 1 Scenario.june1 (Some (Scenario.june1 + 9 * 3600000))
                 None Present false None) = true)).
Proof.
  split; [by vm_compute|].
  refine (X16_present_or_holiday Scenario.asha_in 0 _ asha_in_reachable _).
  by vm_compute.
Defined.

Lemma X17_witness :
  recordAttendance Scenario.evening Scenario.crew ∅
    (Scenario.clock 1 "checkIn" 20 0) = (Fail 400 ValidationFailed, ∅).
Proof.
  refine (proj2 (proj2 (X17_future_instant_refused Scenario.evening Scenario.crew
                          ∅ (Scenario.clock 1 "checkIn" 20 0) 1 CheckIn
                          Scenario.june1 (Scenario.june1 + 20 * 3600000) _ _)) _).
  - by vm_compute.
  - by vm_compute.
  - intros i r H. by rewrite lookup_empty in H.
Defined.

Lemma X18_witness :
  local_clock Cases.morning = (9, 30) /\
  is_success
    (fst (recordAttendance Cases.morning Scenario.crew ∅
            {| a_staffId := Some 1%nat; a_action := Some "checkIn";
               a_time := TimeClock (fst (local_clock Cases.morning))
                           (snd (local_clock Cases.morning)) None;
               a_date := DateAbsent |})) = false.
Proof.
  split; [by vm_compute|].
  refine (proj1 (proj2 (X18_local_time_east_of_utc Cases.morning Scenario.crew ∅
                          1 (mkStaff "Asha" true) "checkIn" CheckIn _ _ _ _ _))).
  - by vm_compute.
  - by vm_compute.
  - by vm_compute.
  - reflexivity.
  - reflexivity.
Defined.

Lemma X19_witness :
  deleteHoliday Scenario.evening Scenario.crew_on_holiday
    (DateOk (Scenario.june1 - 86400000)) =
    (Fail 400 PastHolidayRemoval, Scenario.crew_on_holiday).
Proof.
  refine (proj1 (X19_remove_holiday Scenario.evening Scenario.crew_on_holiday
                   (Scenario.june1 - 86400000)) _).
  by vm_compute.
Defined.

Lemma X20_witness :
  (forall i r,
     snd (deleteHoliday Scenario.evening
            (snd (declareHoliday Scenario.evening Scenario.crew Scenario.asha_in
                    (Scenario.holiday_on_june1 None)))
            (DateOk Scenario.june1)) !! i = Some r ->
     date r = Scenario.june1 ->
     is_active Scenario.crew (staffId r) = false /\ isHoliday r = false /\
     Scenario.asha_in !! i = Some r) /\
  (forall i r, Scenario.asha_in !! i = Some r ->
     ~ (date r = Scenario.june1 /\
        (is_active Scenario.crew (staffId r) = true \/ isHoliday r = true)) ->
     snd (deleteHoliday Scenario.evening
            (snd (declareHoliday Scenario.evening Scenario.crew Scenario.asha_in
                    (Scenario.holiday_on_june1 None)))
            (DateOk Scenario.june1)) !! i = Some r).
Proof.
  refine (X20_declare_then_remove Scenario.evening Scenario.evening
            Scenario.crew Scenario.asha_in
            (Scenario.holiday_on_june1 None) Scenario.june1 _ _ _ _).
  - reflexivity.
  - by vm_compute.
  - by vm_compute.
  - exact (reachable_unique _ asha_in_reachable).
Defined.

Lemma X22_witness :
  getTodaysAttendanceStatus Scenario.evening Scenario.crew Scenario.asha_in =
    Fail 500 StatusNotRetrieved <->
  exists i r, Scenario.asha_in !! i = Some r /\
              date r = getCurrentUTCDate Scenario.evening /\
              Scenario.crew !! staffId r = None.
Proof.
  exact (proj1 (X22_todays_attendance_status Scenario.evening Scenario.crew
                  Scenario.asha_in (reachable_unique _ asha_in_reachable))).
Defined.

Lemma X23_witness :
  sm_absent (getAttendanceSummary Scenario.asha_in 1 Scenario.june1
               (Scenario.june1 + 30 * 86400000 - 1)) = 0%nat.
Proof.
  exact (proj1 (proj2 (proj2 (proj2 (X23_month_summary Scenario.asha_in 1
                                       Scenario.june1
                                       (Scenario.june1 + 30 * 86400000 - 1))))
                  asha_in_reachable)).
Defined.

Lemma X24_witness :
  getAttendanceByDateRange Scenario.asha_in
    (DateOk (Scenario.june1 + 86400000)) (DateOk Scenario.june1) None =
    Fail 400 StartAfterEnd.
Proof.
  refine (proj1 (proj2 (proj2 (X24_attendance_by_date_range Scenario.asha_in
                                 (Scenario.june1 + 86400000) Scenario.june1
                                 None))) _).
  by vm_compute.
Defined.



End RosterFacts.

(** *** Records and their staff; the list of staff *)

Section RosterFacts2.

Import Ledger Roster.

Lemma resolve_request_staff env staff b sid action d t :
  resolve_request env staff b = inr (sid, action, d, t) ->
  is_Some (staff !! sid).
Proof.
  unfold resolve_request.
  destruct (a_staffId b) as [s|]; [|done].
  destruct (a_action b) as [a|]; [|done].
  destruct (String.eqb a ""); [done|].
  destruct (parse_action a); [|done].
  destruct (staff !! s) as [x|] eqn:Hs; [|done].
  destruct (st_isActive x); [|done].
  destruct (resolve_date env (a_date b)) as [m|rd]; [done|].
  destruct (resolve_time env rd (a_time b)) as [m|rt]; [done|].
  intros [= <- _ _ _]. by rewrite Hs.
Qed.

Lemma staffId_set_action r action t : staffId (set_action r action t) = staffId r.
Proof. by destruct action. Qed.

Lemma recordAttendance_staffed env staff att b :
  staffed staff att -> staffed staff (snd (recordAttendance env staff att b)).
Proof.
  intros Hst.
  destruct (recordAttendance_cases env staff att b)
    as [->|(sid & action & d & t & j & x & Hr & Hx & _ & ->)]; [done|].
  intros i r Hl. destruct (decide (i = j)) as [->|Hne].
  - rewrite lookup_insert_eq in Hl. injection Hl as <-.
    rewrite staffId_set_action. destruct Hx as [Hx|[_ ->]]; [by apply (Hst j)|].
    simpl. by apply (resolve_request_staff env staff b sid action d t).
  - rewrite lookup_insert_ne in Hl by done. by apply (Hst i).
Qed.

Lemma declareHoliday_staffed env staff att b :
  staffed staff att -> staffed staff (snd (declareHoliday env staff att b)).
Proof.
  intros Hst. unfold declareHoliday.
  destruct (h_date b) as [| |d]; [done|done|].
  destruct (d <? getCurrentUTCDate env); [done|]. simpl.
  intros i r Hl. apply bulk_upsert_origin in Hl as [(sid & Hin & ->)|Hl];
    [|by apply (Hst i)].
  apply active_ids in Hin. unfold is_active in Hin. simpl.
  by destruct (staff !! sid).
Qed.

Lemma deleteHoliday_staffed env staff att d :
  staffed staff att -> staffed staff (snd (deleteHoliday env att d)).
Proof.
  intros Hst. unfold deleteHoliday.
  destruct d as [| |d]; [done|done|].
  destruct (d <? getCurrentUTCDate env); [done|].
  destruct (Nat.eqb _ 0); [done|]. simpl.
  intros i r Hl. apply deleteMany_lookup in Hl as [Hl _]. by apply (Hst i).
Qed.

Lemma staffed_empty staff : staffed staff ∅.
Proof. intros i r Hl. by rewrite lookup_empty in Hl. Qed.

(** X26. Records keep their staff: when every attendance record belongs
    to a stored staff member, this is still so after a check-in or
    check-out, after a holiday is declared or removed, after a staff member
    is deleted (the records of the member go with it), and after any change
    of the staff collection that removes no member.  On such a collection
    today's attendance status never fails. *)
Theorem X26_records_keep_their_staff :
  (forall env staff att b,
     staffed staff att -> staffed staff (snd (recordAttendance env staff att b))) /\
  (forall env staff att b,
     staffed staff att -> staffed staff (snd (declareHoliday env staff att b))) /\
  (forall env staff att d,
     staffed staff att -> staffed staff (snd (deleteHoliday env att d))) /\
  (forall staff att id,
     staffed staff att ->
     staffed (snd (fst (deleteStaff staff att id))) (snd (deleteStaff staff att id))) /\
  (forall staff staff' att,
     staffed staff att ->
     (forall i, is_Some (staff !! i) -> is_Some (staff' !! i)) ->
     staffed staff' att) /\
  (forall env staff att,
     staffed staff att ->
     is_success (getTodaysAttendanceStatus env staff att) = true).
Proof.
  split; [exact recordAttendance_staffed|].
  split; [exact declareHoliday_staffed|].
  split; [exact deleteHoliday_staffed|].
  split; [|split].
  - intros staff att id Hst i r Hl.
    assert (att !! i = Some r /\ staffId r <> id) as [Hl' Hne].
    { unfold deleteStaff in Hl.
      assert (deleteStaffAttendance id att !! i = Some r) as Hd
        by (by destruct (staff !! id)).
      unfold deleteStaffAttendance in Hd. apply deleteMany_lookup in Hd as [? Hq].
      by apply Nat.eqb_neq in Hq. }
    specialize (Hst i r Hl'). unfold deleteStaff.
    destruct (staff !! id); simpl; [|done].
    by rewrite lookup_delete_ne.
  - intros staff staff' att Hst Hsub i r Hl. apply Hsub. by apply (Hst i).
  - intros env staff att Hst. unfold getTodaysAttendanceStatus.
    assert (forallb (fun kv : nat * Attendance => is_set (staff !! staffId (snd kv)))
              (Mongo.find (fun (_ : nat) r => Z.eqb (date r) (getCurrentUTCDate env))
                 att) = true) as ->.
    { apply forallb_forall. intros [i r] Hin. apply elem_of_find in Hin as [Hl _].
      simpl. by destruct (Hst i r Hl) as [s ->]. }
    by destruct (List.fold_left _ _ _) as [[? ?] ?].
Qed.

Lemma X26_witness :
  is_success
    (getTodaysAttendanceStatus Scenario.evening Scenario.crew Scenario.asha_in) =
  true.
Proof.
  refine (proj2 (proj2 (proj2 (proj2 (proj2 X26_records_keep_their_staff))))
            Scenario.evening Scenario.crew Scenario.asha_in _).
  exact (recordAttendance_staffed Scenario.evening Scenario.crew ∅
           (Scenario.clock 1 "checkIn" 9 0) (staffed_empty Scenario.crew)).
Defined.

Lemma name_leb_total x y : name_leb x y = false -> name_leb y x = true.
Proof.
  unfold name_leb. intros H.
  destruct (String.leb_total (pf_name (snd x)) (pf_name (snd y))); congruence.
Qed.

(** X27. The list of staff holds exactly the staff members that pass the
    filter, each once, ordered by the strings of their names, and [count]
    is its length.  The parameter [isActive] filters whenever it is sent
    non-empty: with the value "true" the list holds the active members,
    and with any other value ("false", but also "yes" or "1") the inactive
    ones. *)
Theorem X27_list_of_staff (staff : gmap nat Profile) (role isActive : option string) :
  let count := fst (getAllStaff staff role isActive) in
  let found := snd (getAllStaff staff role isActive) in
  count = length found /\
  (forall i p, In (i, p) found <->
     staff !! i = Some p /\ staff_filter role isActive i p = true) /\
  List.NoDup found /\
  Sorted (fun x y => String.leb (pf_name (snd x)) (pf_name (snd y)) = true) found /\
  (forall s i p, isActive = Some s -> s <> "" -> role = None ->
     (In (i, p) found <->
      staff !! i = Some p /\ pf_isActive p = String.eqb s "true")).
Proof.
  unfold getAllStaff. simpl.
  assert (forall i p,
            In (i, p) (Appointments.sort_by name_leb
                         (Mongo.find (staff_filter role isActive) staff)) <->
            staff !! i = Some p /\ staff_filter role isActive i p = true) as Hin.
  { intros i p. by rewrite In_sort_by, elem_of_find. }
  split; [done|]. split; [done|]. split; [|split].
  - apply NoDup_sort_by, NoDup_find.
  - apply sort_by_Sorted, name_leb_total.
  - intros s i p -> Hs ->. rewrite Hin. unfold staff_filter. simpl.
    assert (String.eqb s "" = false) as -> by (by apply String.eqb_neq).
    simpl. by rewrite eqb_true_iff.
Qed.

Lemma X27_witness :
  In (2%nat, mkProfile "Ravi" "Barber" false)
    (snd (getAllStaff Cases.payroll None (Some "yes"))) <->
  Cases.payroll !! 2%nat = Some (mkProfile "Ravi" "Barber" false) /\
  pf_isActive (mkProfile "Ravi" "Barber" false) = String.eqb "yes" "true".
Proof.
  refine (proj2 (proj2 (proj2 (proj2 (X27_list_of_staff Cases.payroll None
                                        (Some "yes")))))
            "yes" 2%nat (mkProfile "Ravi" "Barber" false) _ _ _).
  - reflexivity.
  - discriminate.
  - reflexivity.
Defined.

End RosterFacts2.

(** ** Appointments: the slot an appointment is moved away from *)

Section MovedAway.

Import Appointments Desk.

(** X28. The slot an appointment is moved away from can be booked again:
    when no two appointments share a date and a slot, and a Reschedule has
    moved an appointment to another date or slot, a Create for the date and
    slot it had (with a selection the catalog accepts) succeeds and stores
    a pending appointment there.  (A cancelled appointment, in contrast,
    keeps its slot.) *)
Theorem X28_moved_away_slot_is_free (db db1 : Db) (id code user : nat)
    (a : Appointment) (r : nat * Appointment) (b : RescheduleBody)
    (now : Z) (cb : CreateBody) :
  Mongo.unique_on slot_key (appointments db) ->
  appointments db !! id = Some a ->
  rescheduleAppointment db id b = (Json code r, db1) ->
  slot_key (snd r) <> slot_key a ->
  b_appointmentDate cb = Some (appointmentDate a) ->
  parse_timeSlot (b_timeSlot cb) = Some (timeSlot a) ->
  no_services (b_services cb) = false \/ is_Some (b_combo cb) ->
  check_catalog db cb = None ->
  let i := fresh (dom (appointments db1)) in
  let a' := new_appointment now user cb (appointmentDate a) (timeSlot a) in
  createAppointment now db1 user cb =
    (Json 201 (i, a'), with_appointments db1 (<[i := a']> (appointments db1))) /\
  slot_key a' = slot_key a /\ status a' = pending.
Proof.
  intros Hu Ha Hr Hmoved Hd Ht Hsel Hcat i a'.
  split; [|done].
  unfold rescheduleAppointment in Hr.
  destruct (r_appointmentDate b) as [d|]; [|discriminate].
  destruct (parse_timeSlot (r_timeSlot b)) as [t|]; [|discriminate].
  rewrite Ha in Hr.
  destruct (is_closed (status a)); [discriminate|].
  destruct (Mongo.findOne _ _); [discriminate|].
  unfold save in Hr.
  destruct (Mongo.updateOne slot_key id (move_to a d t) (appointments db))
    as [ap|] eqn:Hupd; [|discriminate].
  injection Hr as _ <- <-. simpl in Hmoved.
  apply (updateOne_Some _ _ _ _ _ _ Ha) in Hupd. subst ap.
  apply create_on_unused_slot; [done|done|done|done|].
  intros j x Hj [Hxd Hxt]. simpl in Hj.
  destruct (decide (j = id)) as [->|Hne].
  - rewrite lookup_insert_eq in Hj. injection Hj as <-.
    apply Hmoved. unfold slot_key. simpl in *. congruence.
  - rewrite lookup_insert_ne in Hj by done.
    apply Hne. apply (Hu j id x a Hj Ha). unfold slot_key. congruence.
Qed.

Lemma booked_unique : Mongo.unique_on slot_key (appointments Scenario.booked).
Proof.
  apply (written_unique Scenario.opening Scenario.booked
           (handle_written Scenario.opening
              (CreateReq 0 5 (Scenario.book "10:00 AM")))).
  intros i j x y Hi. simpl in Hi. by rewrite lookup_empty in Hi.
Defined.

Lemma X28_witness :
  createAppointment 3 Scenario.moved 6 (Scenario.book "10:00 AM") =
    (Json 201 (fresh (dom (appointments Scenario.moved)),
               new_appointment 3 6 (Scenario.book "10:00 AM") Scenario.june1
                 slot_10AM),
     with_appointments Scenario.moved
       (<[fresh (dom (appointments Scenario.moved)) :=
            new_appointment 3 6 (Scenario.book "10:00 AM") Scenario.june1
              slot_10AM]> (appointments Scenario.moved))).
Proof.
  refine (proj1 (X28_moved_away_slot_is_free Scenario.booked Scenario.moved
                   0 200 6
                   (mkAppointment 5 [7%nat] None Scenario.june1 slot_10AM pending
                      None 0)
                   (0%nat, mkAppointment 5 [7%nat] None Scenario.june1 slot_3PM
                             rescheduled None 0)
                   (Scenario.move "3:00 PM") 3 (Scenario.book "10:00 AM")
                   booked_unique _ _ _ _ _ _ _)).
  - by vm_compute.
  - by vm_compute.
  - by vm_compute.
  - reflexivity.
  - by vm_compute.
  - left. reflexivity.
  - by vm_compute.
Defined.

End MovedAway.
